(** * Experiment tracking facade of the Vertex AI SDK

    A shallow embedding of [google/cloud/aiplatform/metadata/metadata.py]:
    the legacy [_MetadataService] and the [_ExperimentTracker], the two
    session objects that bind at most one experiment and one run and
    mediate every call to the remote metadata store.

    Python objects are records, dictionaries are insertion-ordered
    association lists, and a method is a function in a state-and-exception
    monad over the object's fields, the remote world and the log of the
    calls issued to the collaborators.  The collaborators are an interface
    ([Remote]): what is proved about the control flow of a method holds
    for every implementation of it; [Store] is one implementation, an
    in-memory metadata store that the end-to-end properties run on.

    The methods that bind or clear the fields come first: of
    [_ExperimentTracker], [set_experiment], [start_run], [end_run],
    [log_params] and [log_metrics]; of [_MetadataService], everything but
    the unused [_create_experiment_run_context].  That method and the rest
    of [_ExperimentTracker] ([get_experiment_df], [log],
    [log_time_series_metrics], [get_artifact], [start_execution]) are in
    [Further]. *)

From Stdlib Require Import String Ascii List ZArith Bool Lia PrimFloat DecimalString.
Import ListNotations.
Open Scope list_scope.
Open Scope string_scope.

Set Implicit Arguments.

(* ===================================================================== *)
(** ** Python values and dictionaries *)
(* ===================================================================== *)

(** The values a parameter or metric mapping can hold: the declared
    [Union[float, int, str]], together with [bool] (a subclass of [int])
    and [None]. *)
Inductive PyValue : Type :=
| PyNone
| PyBool (b : bool)
| PyInt (n : Z)
| PyFloat (x : float)
| PyStr (s : string).

(** [isinstance(value, int)]: [bool] is a subclass of [int]. *)
Definition isinstance_int (v : PyValue) : bool :=
  match v with
  | PyBool _ | PyInt _ => true
  | _ => false
  end.

(** [isinstance(value, float)]. *)
Definition isinstance_float (v : PyValue) : bool :=
  match v with
  | PyFloat _ => true
  | _ => false
  end.

(** [str(type(value))], as an f-string renders [{type(value)}]. *)
Definition py_type (v : PyValue) : string :=
  match v with
  | PyNone => "<class 'NoneType'>"
  | PyBool _ => "<class 'bool'>"
  | PyInt _ => "<class 'int'>"
  | PyFloat _ => "<class 'float'>"
  | PyStr _ => "<class 'str'>"
  end.

(** Truthiness of a string and of an optional string ([None] and the empty
    string are falsy). *)
Definition str_truthy (s : string) : bool :=
  match s with
  | EmptyString => false
  | String _ _ => true
  end.

Definition opt_truthy (o : option string) : bool :=
  match o with
  | Some s => str_truthy s
  | None => false
  end.

(** [s[n:]]. *)
Fixpoint str_drop (n : nat) (s : string) : string :=
  match n, s with
  | O, _ => s
  | S n', String _ s' => str_drop n' s'
  | S _, EmptyString => EmptyString
  end.

(** [sep.join(parts)]. *)
Definition str_join (sep : string) (parts : list string) : string :=
  String.concat sep parts.

(** A [dict] keeps its keys in insertion order. *)
Definition dict (V : Type) : Type := list (string * V).

Fixpoint dict_get {V : Type} (d : dict V) (k : string) : option V :=
  match d with
  | [] => None
  | (k', v) :: d' => if String.eqb k' k then Some v else dict_get d' k
  end.

(** [d[k] = v]: an existing key keeps its position, a new key goes last. *)
Fixpoint dict_set {V : Type} (d : dict V) (k : string) (v : V) : dict V :=
  match d with
  | [] => [(k, v)]
  | (k', v') :: d' =>
      if String.eqb k' k then (k', v) :: d' else (k', v') :: dict_set d' k v
  end.

(** [d.update(other)]. *)
Definition dict_update {V : Type} (d other : dict V) : dict V :=
  fold_left (fun acc kv => dict_set acc (fst kv) (snd kv)) other d.

Definition dict_keys {V : Type} (d : dict V) : list string := map fst d.

(** A loop that stores [f key] for every item of [items], in order: the
    shape of the loop of [_execution_to_column_named_metadata]. *)
Definition store_all {V : Type} (f : string -> string) (items acc : dict V) : dict V :=
  fold_left (fun acc kv => dict_set acc (f (fst kv)) (snd kv)) items acc.

(* ===================================================================== *)
(** ** Flattening metadata into table columns *)
(* ===================================================================== *)

(** The loop body of [_execution_to_column_named_metadata]: the key, with
    [filter_prefix] cut off when it is truthy and the key starts with it,
    joined to the metadata type with a dot. *)
Definition column_key (metadata_type : string) (filter_prefix : option string)
                      (key : string) : string :=
  let key' :=
    match filter_prefix with
    | Some p =>
        if str_truthy p && String.prefix p key
        then str_drop (String.length p) key
        else key
    | None => key
    end in
  str_join "." [metadata_type; key'].

(** [_MetadataService._execution_to_column_named_metadata]. *)
Definition _execution_to_column_named_metadata
    (metadata_type : string) (metadata : dict PyValue)
    (filter_prefix : option string) : dict PyValue :=
  fold_left
    (fun column_key_to_value kv =>
       dict_set column_key_to_value
                (column_key metadata_type filter_prefix (fst kv)) (snd kv))
    metadata [].

(** The rule in the words of the specification: remove the prefix if the
    key has it, then namespace the key as [{category}.{key}]. *)
Definition strip_prefix_spec (filter_prefix : option string) (key : string) : string :=
  match filter_prefix with
  | Some p => if String.prefix p key then str_drop (String.length p) key else key
  | None => key
  end.

Definition column_name_spec (category : string) (filter_prefix : option string)
                            (key : string) : string :=
  category ++ "." ++ strip_prefix_spec filter_prefix key.

(* ===================================================================== *)
(** ** Exceptions and the method monad *)
(* ===================================================================== *)

(** The exceptions that cross this module: the built-in ones it raises
    itself, [google.api_core.exceptions.NotFound], which [end_run] catches,
    and [RemoteError] for every other failure of a collaborator. *)
Inductive Exn : Type :=
| ValueError (msg : string)
| TypeError (msg : string)
| AttributeError (msg : string)
| ImportError (msg : string)
| NotFound (msg : string)
| RemoteError (msg : string).

(** [except exceptions.NotFound]. *)
Definition is_NotFound (e : Exn) : bool :=
  match e with
  | NotFound _ => true
  | _ => false
  end.

(** A computation over a state [S] that returns or raises; the state
    survives an exception, as the fields of a Python object do. *)
Definition M (S A : Type) : Type := S -> (Exn + A) * S.

Definition ret {S A : Type} (a : A) : M S A := fun s => (inr a, s).

Definition raise {S A : Type} (e : Exn) : M S A := fun s => (inl e, s).

Definition bind {S A B : Type} (m : M S A) (k : A -> M S B) : M S B :=
  fun s =>
    match m s with
    | (inr a, s') => k a s'
    | (inl e, s') => (inl e, s')
    end.

Declare Scope py_scope.
Delimit Scope py_scope with py.
Notation "x <- m ;; k" := (bind m (fun x => k))
  (at level 61, m at next level, right associativity) : py_scope.
Notation "m ;; k" := (bind m (fun _ => k))
  (at level 61, right associativity) : py_scope.
Open Scope py_scope.

Definition gets {S A : Type} (f : S -> A) : M S A := fun s => (inr (f s), s).

Definition modify {S : Type} (f : S -> S) : M S unit := fun s => (inr tt, f s).

(** [if cond: raise e]. *)
Definition raise_if {S : Type} (cond : bool) (e : Exn) : M S unit :=
  if cond then raise e else ret tt.

(** [if cond: body]. *)
Definition when {S : Type} (cond : bool) (body : M S unit) : M S unit :=
  if cond then body else ret tt.

(** [try: body / except <handled>: handler / finally: final].  The handler
    runs for a handled exception of the body; [final] runs on every path;
    an exception still pending after [final] is raised again, unless
    [final] raised one of its own. *)
Definition try_except_finally {S A : Type}
    (body : M S A) (handled : Exn -> bool) (handler : Exn -> M S A)
    (final : M S unit) : M S A :=
  fun s =>
    let '(r1, s1) :=
      match body s with
      | (inr a, s') => (inr a, s')
      | (inl e, s') => if handled e then handler e s' else (inl e, s')
      end in
    match final s1 with
    | (inr _, s2) => (r1, s2)
    | (inl e, s2) => (inl e, s2)
    end.

(* ===================================================================== *)
(** ** Remote resources and the collaborators *)
(* ===================================================================== *)

(** Life cycle of a run-like resource ([gapic.Execution.State]). *)
Inductive State : Type := RUNNING | COMPLETE | FAILED.

(** What a resource object ([_Context], [Execution], [Artifact],
    [Experiment], [ExperimentRun]) exposes: the copy of the remote record
    it was built from. *)
Record Resource : Type := {
  name : string;
  resource_name : string;
  display_name : string;
  schema_title : string;
  schema_version : string;
  description : string;
  metadata : dict PyValue;
  state : option State;
  parent_contexts : list string
}.

(** [resource.description], for the methods that have a parameter of the
    same name. *)
Definition description_of : Resource -> string := description.

(** The [tensorboard] arguments: [Union[Tensorboard, str, None]]. *)
Inductive Tensorboard : Type :=
| TbNone
| TbName (s : string)
| TbResource (r : Resource).

Definition tb_truthy (tb : Tensorboard) : bool :=
  match tb with
  | TbNone => false
  | TbName s => str_truthy s
  | TbResource _ => true
  end.

(** [google.cloud.aiplatform.metadata.constants] is not part of the
    sources at hand: the schema titles, the table of schema versions
    (read at the titles used here) and the default experiment metadata
    are parameters of the development. *)
Class Constants : Type := {
  SYSTEM_EXPERIMENT : string;
  SYSTEM_EXPERIMENT_RUN : string;
  SYSTEM_RUN : string;
  SYSTEM_METRICS : string;
  SYSTEM_PIPELINE : string;
  SCHEMA_VERSIONS : string -> string;
  EXPERIMENT_METADATA : dict PyValue
}.

(** What the interpreter supplies: the rendering of a float by [str], and
    whether [import pandas] succeeds. *)
Class Runtime : Type := {
  float_str : float -> string;
  pandas_installed : bool
}.

(** Every call this module makes on a collaborator, named after the
    method called, with the arguments passed. *)
Inductive Call : Type :=
(* metadata_store._MetadataStore *)
| MetadataStore_get_or_create
(* context._Context *)
| Context_get_or_create (resource_id : string) (display_name : option string)
    (description : option string) (schema_title schema_version : string)
    (metadata : dict PyValue)
| Context_init (resource_name : string)
| Context_update (self : Resource) (metadata : dict PyValue)
    (description : option string)
| Context_add_artifacts_and_executions (self : Resource)
    (execution_resource_names : list string)
(* execution.Execution *)
| Execution_get_or_create (resource_id : string) (display_name : option string)
    (schema_title schema_version : string)
| Execution__add_artifact (self : Resource)
    (artifact_resource_names : list string) (input : bool)
| Execution_update (self : Resource) (metadata : dict PyValue)
| Execution_list (filter : string)
| Execution_query_input_and_output_artifacts (self : Resource)
(* artifact._Artifact and artifact.Artifact *)
| _Artifact_get_or_create (resource_id : string) (display_name : option string)
    (schema_title schema_version : string)
| Artifact_get_or_create (resource_id : string)
    (schema_title schema_version : string)
| Artifact_update (self : Resource) (metadata : dict PyValue)
(* experiment_resources.Experiment *)
| Experiment_get_or_create (experiment_name : string)
    (description : option string)
| Experiment_assign_backing_tensorboard (self : Resource)
    (tensorboard : Tensorboard)
(* experiment_run_resource.ExperimentRun *)
| ExperimentRun_init (run_name : string) (experiment : Resource)
| ExperimentRun_create (run_name : string) (experiment : Resource)
    (tensorboard : Tensorboard)
| ExperimentRun_assign_backing_tensorboard (self : Resource)
    (tensorboard : Tensorboard)
| ExperimentRun_update_state (self : Resource) (state : State)
| ExperimentRun_end_run (self : Resource) (state : State)
| ExperimentRun_log_params (self : Resource) (params : dict PyValue)
| ExperimentRun_log_metrics (self : Resource) (metrics : dict PyValue).

(** What a call returns.  A constructor or a [get_or_create] returns the
    object; a method that changes its object in place returns the object as
    the call leaves it, and the caller's variable is bound to it again. *)
Definition Reply (c : Call) : Type :=
  match c with
  | MetadataStore_get_or_create => unit
  | Context_get_or_create _ _ _ _ _ _ => Resource
  | Context_init _ => Resource
  | Context_update _ _ _ => Resource
  | Context_add_artifacts_and_executions _ _ => unit
  | Execution_get_or_create _ _ _ _ => Resource
  | Execution__add_artifact _ _ _ => unit
  | Execution_update _ _ => Resource
  | Execution_list _ => list Resource
  | Execution_query_input_and_output_artifacts _ => list Resource
  | _Artifact_get_or_create _ _ _ _ => Resource
  | Artifact_get_or_create _ _ _ => Resource
  | Artifact_update _ _ => Resource
  | Experiment_get_or_create _ _ => Resource
  | Experiment_assign_backing_tensorboard _ _ => Resource
  | ExperimentRun_init _ _ => Resource
  | ExperimentRun_create _ _ _ => Resource
  | ExperimentRun_assign_backing_tensorboard _ _ => Resource
  | ExperimentRun_update_state _ _ => Resource
  | ExperimentRun_end_run _ _ => unit
  | ExperimentRun_log_params _ _ => Resource
  | ExperimentRun_log_metrics _ _ => Resource
  end.

(** The collaborators, over a world [W] of everything outside this module:
    a call returns or raises, and changes the world. *)
Class Remote (W : Type) : Type :=
  perform : forall c : Call, W -> (Exn + Reply c) * W.

(** An object of this module in its process: its fields, the world, the
    calls issued so far (oldest first) and the warnings logged. *)
Record Session (F W : Type) : Type := {
  self : F;
  world : W;
  calls : list Call;
  warnings : list string
}.

Section SessionOps.
Context {F W : Type} {R : Remote W}.

(** Issue a call: it is logged, then performed on the world. *)
Definition call (c : Call) : M (Session F W) (Reply c) :=
  fun s =>
    let '(r, w') := perform c (world s) in
    (r, {| self := self s; world := w';
           calls := calls s ++ [c]; warnings := warnings s |}).

(** Read and write the fields of [self]. *)
Definition field {A : Type} (f : F -> A) : M (Session F W) A :=
  gets (fun s => f (self s)).

Definition assign (f : F -> F) : M (Session F W) unit :=
  modify (fun s => {| self := f (self s); world := world s;
                      calls := calls s; warnings := warnings s |}).

(** [_LOGGER.warn(msg)]. *)
Definition _LOGGER_warn (msg : string) : M (Session F W) unit :=
  modify (fun s => {| self := self s; world := world s;
                      calls := calls s; warnings := warnings s ++ [msg] |}).
End SessionOps.

(** The double quote, for the messages and filters that contain one. *)
Definition dq : string := String "034"%char EmptyString.

(** [str(value)], as an f-string renders [{value}]. *)
Definition py_str {RT : Runtime} (v : PyValue) : string :=
  match v with
  | PyNone => "None"
  | PyBool true => "True"
  | PyBool false => "False"
  | PyInt n => NilZero.string_of_int (Z.to_int n)
  | PyFloat x => float_str x
  | PyStr s => s
  end.

(** Reading attribute [attr] of a variable that may hold [None]. *)
Definition getattr {S : Type} (o : option Resource) (attr : string) : M S Resource :=
  match o with
  | Some r => ret r
  | None => raise (AttributeError ("'NoneType' object has no attribute '" ++ attr ++ "'"))
  end.

(** A [for] loop that collects one result per element. *)
Fixpoint for_each {S A B : Type} (l : list A) (body : A -> M S B) : M S (list B) :=
  match l with
  | [] => ret []
  | x :: l' =>
      y <- body x ;;
      ys <- for_each l' body ;;
      ret (y :: ys)
  end.

(** The message of [_validate_experiment_and_run], the same text in both
    classes. *)
Definition no_experiment_set_msg (method_name : string) : string :=
  "No experiment set. Make sure to call aiplatform.init(experiment='my-experiment') "
  ++ "before trying to " ++ method_name ++ ". ".

Definition no_run_set_msg (method_name : string) : string :=
  "No run set. Make sure to call aiplatform.start_run('my-run') before trying to "
  ++ method_name ++ ". ".

(** A message mentions a name when the name is a part of it. *)
Definition mentions (name msg : string) : Prop :=
  exists before after, msg = before ++ name ++ after.

(** [_MetadataService._validate_metrics_value_type] (a static method). *)
Definition unsupported_metric_msg {RT : Runtime} (key : string) (value : PyValue) : string :=
  "metrics contain unsupported value types. key: " ++ key
  ++ "; value: " ++ py_str value ++ "; type: " ++ py_type value.

Fixpoint _validate_metrics_value_type {RT : Runtime} (metrics : dict PyValue)
  : Exn + unit :=
  match metrics with
  | [] => inr tt
  | (key, value) :: rest =>
      if isinstance_int value || isinstance_float value
      then _validate_metrics_value_type rest
      else inl (TypeError (unsupported_metric_msg key value))
  end.

Definition lift_result {S A : Type} (r : Exn + A) : M S A := fun s => (r, s).

(** A table: the rows handed to [pd.DataFrame], in order. *)
Definition DataFrame : Type := list (dict PyValue).

(* ===================================================================== *)
(** ** [class _MetadataService] (legacy experiment tracking) *)
(* ===================================================================== *)

Module MetadataService.

Record fields : Type := {
  _experiment : option Resource;
  _run : option Resource;
  _metrics : option Resource
}.

(** [__init__]. *)
Definition init : fields :=
  {| _experiment := None; _run := None; _metrics := None |}.

Section Methods.
Context {W : Type} {R : Remote W} {K : Constants} {RT : Runtime}.

Definition Method (A : Type) : Type := M (Session fields W) A.

Definition _get_experiment_schema_version : string :=
  SCHEMA_VERSIONS SYSTEM_EXPERIMENT.

Definition reset : Method unit := assign (fun _ => init).

Definition experiment_name : Method (option string) :=
  e <- field _experiment ;;
  ret (option_map display_name e).

Definition run_name : Method (option string) :=
  r <- field _run ;;
  ret (option_map display_name r).

Definition set_experiment (experiment : string) (description : option string)
  : Method unit :=
  call MetadataStore_get_or_create ;;
  reset ;;
  experiment_context <-
    call (Context_get_or_create experiment (Some experiment) description
            SYSTEM_EXPERIMENT _get_experiment_schema_version
            EXPERIMENT_METADATA) ;;
  raise_if (negb (schema_title experiment_context =? SYSTEM_EXPERIMENT))
    (ValueError
       ("Experiment name " ++ experiment
        ++ " has been used to create other type of resources ("
        ++ schema_title experiment_context
        ++ ") in this MetadataStore, please choose a different experiment name.")) ;;
  experiment_context <-
    match description with
    | Some d =>
        if str_truthy d && negb (description_of experiment_context =? d)
        then call (Context_update experiment_context
                     (metadata experiment_context) description)
        else ret experiment_context
    | None => ret experiment_context
    end ;;
  assign (fun f => {| _experiment := Some experiment_context;
                      _run := _run f; _metrics := _metrics f |}).

Definition start_run (run : string) : Method unit :=
  e <- field _experiment ;;
  match e with
  | None =>
      raise (ValueError
        ("No experiment set for this run. Make sure to call "
         ++ "aiplatform.init(experiment='my-experiment') "
         ++ "before trying to start_run. "))
  | Some experiment =>
      let run_execution_id := name experiment ++ "-" ++ run in
      run_execution <-
        call (Execution_get_or_create run_execution_id (Some run)
                SYSTEM_RUN (SCHEMA_VERSIONS SYSTEM_RUN)) ;;
      raise_if (negb (schema_title run_execution =? SYSTEM_RUN))
        (ValueError
           ("Run name " ++ run
            ++ " has been used to create other type of resources ("
            ++ schema_title run_execution
            ++ ") in this MetadataStore, please choose a different run name.")) ;;
      call (Context_add_artifacts_and_executions experiment
              [resource_name run_execution]) ;;
      let metrics_artifact_id := name experiment ++ "-" ++ run ++ "-metrics" in
      metrics_artifact <-
        call (_Artifact_get_or_create metrics_artifact_id
                (Some metrics_artifact_id)
                SYSTEM_METRICS (SCHEMA_VERSIONS SYSTEM_METRICS)) ;;
      raise_if (negb (schema_title metrics_artifact =? SYSTEM_METRICS))
        (ValueError
           ("Run name " ++ run
            ++ " has been used to create other type of resources ("
            ++ schema_title metrics_artifact
            ++ ") in this MetadataStore, please choose a different run name.")) ;;
      call (Execution__add_artifact run_execution
              [resource_name metrics_artifact] false) ;;
      assign (fun f => {| _experiment := _experiment f;
                          _run := Some run_execution;
                          _metrics := Some metrics_artifact |})
  end.

Definition _validate_experiment_and_run (method_name : string) : Method unit :=
  e <- field _experiment ;;
  raise_if (match e with None => true | Some _ => false end)
    (ValueError (no_experiment_set_msg method_name)) ;;
  r <- field _run ;;
  raise_if (match r with None => true | Some _ => false end)
    (ValueError (no_run_set_msg method_name)).

Definition log_params (params : dict PyValue) : Method unit :=
  _validate_experiment_and_run "log_params" ;;
  r <- field _run ;;
  run <- getattr r "name" ;;
  run_execution <-
    call (Execution_get_or_create (name run) None
            SYSTEM_RUN (SCHEMA_VERSIONS SYSTEM_RUN)) ;;
  _ <- call (Execution_update run_execution params) ;;
  ret tt.

Definition log_metrics (metrics : dict PyValue) : Method unit :=
  _validate_experiment_and_run "log_metrics" ;;
  lift_result (_validate_metrics_value_type metrics) ;;
  m <- field _metrics ;;
  metrics_artifact <- getattr m "name" ;;
  metric_artifact <-
    call (Artifact_get_or_create (name metrics_artifact)
            SYSTEM_METRICS (SCHEMA_VERSIONS SYSTEM_METRICS)) ;;
  _ <- call (Artifact_update metric_artifact metrics) ;;
  ret tt.

Definition _get_experiment_or_pipeline_resource_name
    (name source expected_schema : string) : Method string :=
  this_context <- call (Context_init name) ;;
  raise_if (negb (schema_title this_context =? expected_schema))
    (ValueError
       ("Please provide a valid " ++ source ++ " name. " ++ name
        ++ " is not a " ++ source ++ ".")) ;;
  ret (resource_name this_context).

Definition _query_runs_to_data_frame
    (context_id context_resource_name source : string) : Method DataFrame :=
  let filter :=
    "schema_title=" ++ dq ++ SYSTEM_RUN ++ dq
    ++ " AND in_context(" ++ dq ++ context_resource_name ++ dq ++ ")" in
  run_executions <- call (Execution_list filter) ;;
  context_summary <-
    for_each run_executions (fun run_execution =>
      let run_dict :=
        dict_set (dict_set [] (source ++ "_name") (PyStr context_id))
                 "run_name" (PyStr (display_name run_execution)) in
      let run_dict :=
        dict_update run_dict
          (_execution_to_column_named_metadata "param"
             (metadata run_execution) None) in
      artifacts <-
        call (Execution_query_input_and_output_artifacts run_execution) ;;
      ret (fold_left
             (fun run_dict metric_artifact =>
                dict_update run_dict
                  (_execution_to_column_named_metadata "metric"
                     (metadata metric_artifact) None))
             artifacts run_dict)) ;;
  raise_if (negb pandas_installed)
    (ImportError
       ("Pandas is not installed and is required to get dataframe as the return format. "
        ++ "Please install the SDK using " ++ dq
        ++ "pip install python-aiplatform[full]" ++ dq)) ;;
  ret context_summary.

Definition get_experiment_df (experiment : option string) : Method DataFrame :=
  let source := "experiment" in
  if negb (opt_truthy experiment) then
    e <- field _experiment ;;
    e <- getattr e "name" ;;
    _query_runs_to_data_frame (name e) (resource_name e) source
  else
    let experiment := match experiment with Some s => s | None => "" end in
    experiment_resource_name <-
      _get_experiment_or_pipeline_resource_name
        experiment source SYSTEM_EXPERIMENT ;;
    _query_runs_to_data_frame experiment experiment_resource_name source.

Definition get_pipeline_df (pipeline : string) : Method DataFrame :=
  let source := "pipeline" in
  pipeline_resource_name <-
    _get_experiment_or_pipeline_resource_name pipeline source SYSTEM_PIPELINE ;;
  _query_runs_to_data_frame pipeline pipeline_resource_name source.

End Methods.
End MetadataService.

(* ===================================================================== *)
(** ** [class _ExperimentTracker] *)
(* ===================================================================== *)

Module ExperimentTracker.

Record fields : Type := {
  _experiment : option Resource;
  _experiment_run : option Resource
}.

(** [__init__]. *)
Definition init : fields :=
  {| _experiment := None; _experiment_run := None |}.

(** The warning of [end_run] (two adjacent literals, no space between). *)
Definition not_found_warning (run : Resource) : string :=
  "Experiment run " ++ name run ++ " was not found." ++ "It may have been deleted".

Section Methods.
Context {W : Type} {R : Remote W}.

Definition Method (A : Type) : Type := M (Session fields W) A.

Definition set__experiment (v : option Resource) : Method unit :=
  assign (fun f => {| _experiment := v; _experiment_run := _experiment_run f |}).

Definition set__experiment_run (v : option Resource) : Method unit :=
  assign (fun f => {| _experiment := _experiment f; _experiment_run := v |}).

Definition reset : Method unit := assign (fun _ => init).

Definition experiment_name : Method (option string) :=
  e <- field _experiment ;;
  ret (option_map name e).

Definition experiment : Method (option Resource) := field _experiment.

Definition experiment_run : Method (option Resource) := field _experiment_run.

Definition set_experiment (experiment : string) (description : option string)
    (backing_tensorboard : Tensorboard) : Method unit :=
  reset ;;
  experiment <- call (Experiment_get_or_create experiment description) ;;
  experiment <-
    (if tb_truthy backing_tensorboard
     then call (Experiment_assign_backing_tensorboard experiment backing_tensorboard)
     else ret experiment) ;;
  set__experiment (Some experiment).

Definition _validate_experiment_and_run (method_name : string) : Method unit :=
  e <- field _experiment ;;
  raise_if (match e with None => true | Some _ => false end)
    (ValueError (no_experiment_set_msg method_name)) ;;
  r <- field _experiment_run ;;
  raise_if (match r with None => true | Some _ => false end)
    (ValueError (no_run_set_msg method_name)).

Definition end_run (state : State) : Method unit :=
  _validate_experiment_and_run "end_run" ;;
  try_except_finally
    (r <- field _experiment_run ;;
     run <- getattr r "end_run" ;;
     call (ExperimentRun_end_run run state))
    is_NotFound
    (fun _ =>
       r <- field _experiment_run ;;
       run <- getattr r "name" ;;
       _LOGGER_warn (not_found_warning run))
    (set__experiment_run None).

(** The statement [if self._experiment_run: self.end_run()] of
    [start_run], on its own. *)
Definition end_active_run : Method unit :=
  r <- field _experiment_run ;;
  when (match r with Some _ => true | None => false end) (end_run COMPLETE).

(** The statements of [start_run] that follow it. *)
Definition start_run_body (experiment : Resource) (run_name : string)
    (tensorboard : Tensorboard) (resume : bool) : Method (option Resource) :=
  (if resume then
     run <- call (ExperimentRun_init run_name experiment) ;;
     set__experiment_run (Some run) ;;
     run <-
       (if tb_truthy tensorboard
        then
          run <- call (ExperimentRun_assign_backing_tensorboard run tensorboard) ;;
          set__experiment_run (Some run) ;;
          ret run
        else ret run) ;;
     run <- call (ExperimentRun_update_state run RUNNING) ;;
     set__experiment_run (Some run)
   else
     run <- call (ExperimentRun_create run_name experiment tensorboard) ;;
     set__experiment_run (Some run)) ;;
  field _experiment_run.

Definition start_run (run_name : string) (tensorboard : Tensorboard)
    (resume : bool) : Method (option Resource) :=
  e <- field _experiment ;;
  match e with
  | None =>
      raise (ValueError
        ("No experiment set for this run. Make sure to call "
         ++ "aiplatform.init(experiment='my-experiment') "
         ++ "before invoking start_run. "))
  | Some experiment =>
      r <- field _experiment_run ;;
      when (match r with Some _ => true | None => false end) (end_run COMPLETE) ;;
      (if resume then
         run <- call (ExperimentRun_init run_name experiment) ;;
         set__experiment_run (Some run) ;;
         run <-
           (if tb_truthy tensorboard
            then
              run <- call (ExperimentRun_assign_backing_tensorboard run tensorboard) ;;
              set__experiment_run (Some run) ;;
              ret run
            else ret run) ;;
         run <- call (ExperimentRun_update_state run RUNNING) ;;
         set__experiment_run (Some run)
       else
         run <- call (ExperimentRun_create run_name experiment tensorboard) ;;
         set__experiment_run (Some run)) ;;
      field _experiment_run
  end.

Definition log_params (params : dict PyValue) : Method unit :=
  _validate_experiment_and_run "log_params" ;;
  r <- field _experiment_run ;;
  run <- getattr r "log_params" ;;
  run <- call (ExperimentRun_log_params run params) ;;
  set__experiment_run (Some run).

Definition log_metrics (metrics : dict PyValue) : Method unit :=
  _validate_experiment_and_run "log_metrics" ;;
  r <- field _experiment_run ;;
  run <- getattr r "log_metrics" ;;
  run <- call (ExperimentRun_log_metrics run metrics) ;;
  set__experiment_run (Some run).

(** A sequence of [start_run] calls with nothing between them; it stops at
    the first call that raises. *)
Fixpoint start_runs (runs : list (string * Tensorboard * bool)) : Method unit :=
  match runs with
  | [] => ret tt
  | (run_name, tensorboard, resume) :: rest =>
      _ <- start_run run_name tensorboard resume ;;
      start_runs rest
  end.

(** What a client can call to change the tracker, and a client that makes
    one call after the other, going on when a call raises. *)
Inductive Request : Type :=
| Request_reset
| Request_set_experiment (experiment : string) (description : option string)
    (backing_tensorboard : Tensorboard)
| Request_start_run (run_name : string) (tensorboard : Tensorboard)
    (resume : bool)
| Request_end_run (state : State)
| Request_log_params (params : dict PyValue)
| Request_log_metrics (metrics : dict PyValue).

Definition serve (q : Request) : Method unit :=
  match q with
  | Request_reset => reset
  | Request_set_experiment experiment description backing_tensorboard =>
      set_experiment experiment description backing_tensorboard
  | Request_start_run run_name tensorboard resume =>
      _ <- start_run run_name tensorboard resume ;; ret tt
  | Request_end_run state => end_run state
  | Request_log_params params => log_params params
  | Request_log_metrics metrics => log_metrics metrics
  end.

Fixpoint client (requests : list Request) (st : Session fields W)
  : Session fields W :=
  match requests with
  | [] => st
  | q :: rest => client rest (snd (serve q st))
  end.

End Methods.

(** A run is active only under an experiment. *)
Definition run_under_experiment (f : fields) : Prop :=
  forall run, _experiment_run f = Some run -> exists e, _experiment f = Some e.

End ExperimentTracker.

(* ===================================================================== *)
(** ** The remote metadata store *)
(* ===================================================================== *)

(** Modelled from the spec: the collaborators themselves ([_MetadataStore],
    [_Context], [Execution], [_Artifact], [Artifact], [Experiment],
    [ExperimentRun]) are not among the sources at hand.  The store follows
    sections 3, 4.1 and 6 of the specification: [get_or_create] is
    idempotent by resource id, [update] merges metadata key by key, [list]
    filters on the schema title and the parent context, a missing resource
    is [NotFound], a run is identified by [{experiment_id}-{run_name}] and
    its metrics artifact by [{run_id}-metrics].  [faults] schedules the
    outcome of the next calls that reach the store ([Some e]: the call
    raises [e]), for transient failures and resources deleted by others. *)
Module Store.

Record t : Type := {
  contexts : dict Resource;
  executions : dict Resource;
  artifacts : dict Resource;
  events : list (string * string * bool);
  faults : list (option Exn)
}.

Definition empty : t :=
  {| contexts := []; executions := []; artifacts := []; events := [];
     faults := [] |}.

Definition with_contexts (c : dict Resource) (w : t) : t :=
  {| contexts := c; executions := executions w; artifacts := artifacts w;
     events := events w; faults := faults w |}.

Definition with_executions (x : dict Resource) (w : t) : t :=
  {| contexts := contexts w; executions := x; artifacts := artifacts w;
     events := events w; faults := faults w |}.

Definition with_artifacts (a : dict Resource) (w : t) : t :=
  {| contexts := contexts w; executions := executions w; artifacts := a;
     events := events w; faults := faults w |}.

Definition with_events (ev : list (string * string * bool)) (w : t) : t :=
  {| contexts := contexts w; executions := executions w;
     artifacts := artifacts w; events := ev; faults := faults w |}.

Definition with_faults (f : list (option Exn)) (w : t) : t :=
  {| contexts := contexts w; executions := executions w;
     artifacts := artifacts w; events := events w; faults := f |}.

(** A call reaches the store: the scheduled outcome, if any, is consumed. *)
Definition reach : M t unit :=
  fun w =>
    match faults w with
    | [] => (inr tt, w)
    | None :: rest => (inr tt, with_faults rest w)
    | Some e :: rest => (inl e, with_faults rest w)
    end.

Definition mem (s : string) (l : list string) : bool := existsb (String.eqb s) l.

Definition or_default (o : option string) : string :=
  match o with
  | Some s => s
  | None => ""
  end.

Definition new_resource (collection resource_id : string)
    (display_name description : option string)
    (schema_title schema_version : string) (metadata : dict PyValue)
    (state : option State) : Resource :=
  {| name := resource_id;
     resource_name := collection ++ "/" ++ resource_id;
     display_name := or_default display_name;
     schema_title := schema_title;
     schema_version := schema_version;
     description := or_default description;
     metadata := metadata;
     state := state;
     parent_contexts := [] |}.

Definition with_metadata (md : dict PyValue) (r : Resource) : Resource :=
  {| name := name r; resource_name := resource_name r;
     display_name := display_name r; schema_title := schema_title r;
     schema_version := schema_version r; description := description r;
     metadata := md; state := state r;
     parent_contexts := parent_contexts r |}.

Definition with_description (d : string) (r : Resource) : Resource :=
  {| name := name r; resource_name := resource_name r;
     display_name := display_name r; schema_title := schema_title r;
     schema_version := schema_version r; description := d;
     metadata := metadata r; state := state r;
     parent_contexts := parent_contexts r |}.

Definition with_state (s : option State) (r : Resource) : Resource :=
  {| name := name r; resource_name := resource_name r;
     display_name := display_name r; schema_title := schema_title r;
     schema_version := schema_version r; description := description r;
     metadata := metadata r; state := s;
     parent_contexts := parent_contexts r |}.

(** Link a resource under a parent context; linking twice changes nothing. *)
Definition with_parent (parent : string) (r : Resource) : Resource :=
  if mem parent (parent_contexts r) then r
  else
    {| name := name r; resource_name := resource_name r;
       display_name := display_name r; schema_title := schema_title r;
       schema_version := schema_version r; description := description r;
       metadata := metadata r; state := state r;
       parent_contexts := parent_contexts r ++ [parent] |}.

(** The three collections, each keyed by resource id. *)
Inductive Collection : Type := Contexts | Executions | Artifacts.

Definition collection_name (c : Collection) : string :=
  match c with
  | Contexts => "contexts"
  | Executions => "executions"
  | Artifacts => "artifacts"
  end.

Definition collection (c : Collection) (w : t) : dict Resource :=
  match c with
  | Contexts => contexts w
  | Executions => executions w
  | Artifacts => artifacts w
  end.

Definition with_collection (c : Collection) (d : dict Resource) (w : t) : t :=
  match c with
  | Contexts => with_contexts d w
  | Executions => with_executions d w
  | Artifacts => with_artifacts d w
  end.

Definition lookup (c : Collection) (resource_id : string) : M t (option Resource) :=
  gets (fun w => dict_get (collection c w) resource_id).

Definition store (c : Collection) (r : Resource) : M t unit :=
  modify (fun w => with_collection c (dict_set (collection c w) (name r) r) w).

(** [get(resource_id)]: the resource, or [NotFound]. *)
Definition fetch (c : Collection) (resource_id : string) : M t Resource :=
  o <- lookup c resource_id ;;
  match o with
  | Some r => ret r
  | None => raise (NotFound (collection_name c ++ "/" ++ resource_id ++ " was not found."))
  end.

(** [get_or_create]: idempotent by resource id. *)
Definition get_or_create (c : Collection) (resource_id : string)
    (display_name description : option string)
    (schema_title schema_version : string) (metadata : dict PyValue)
    (state : option State) : M t Resource :=
  o <- lookup c resource_id ;;
  match o with
  | Some r => ret r
  | None =>
      let r := new_resource (collection_name c) resource_id display_name
                 description schema_title schema_version metadata state in
      store c r ;;
      ret r
  end.

(** [update]: new keys are added, existing keys overwritten. *)
Definition update (c : Collection) (resource_id : string)
    (new_metadata : dict PyValue) (new_description : option string) : M t Resource :=
  r <- fetch c resource_id ;;
  let r := with_metadata (dict_update (metadata r) new_metadata) r in
  let r := match new_description with
           | Some d => with_description d r
           | None => r
           end in
  store c r ;;
  ret r.

(** The filter of [list]: [schema_title="T" AND in_context("C")]. *)
Fixpoint strip_prefix (p s : string) : option string :=
  match p, s with
  | EmptyString, _ => Some s
  | String a p', String b s' => if Ascii.eqb a b then strip_prefix p' s' else None
  | String _ _, EmptyString => None
  end.

Fixpoint until_quote (s : string) : option (string * string) :=
  match s with
  | EmptyString => None
  | String c s' =>
      if Ascii.eqb c "034"%char then Some (EmptyString, s')
      else match until_quote s' with
           | Some (word, rest) => Some (String c word, rest)
           | None => None
           end
  end.

Fixpoint has_quote (s : string) : bool :=
  match s with
  | EmptyString => false
  | String c s' => Ascii.eqb c "034"%char || has_quote s'
  end.

Definition parse_filter (filter : string) : option (string * string) :=
  match strip_prefix ("schema_title=" ++ dq) filter with
  | None => None
  | Some s1 =>
      match until_quote s1 with
      | None => None
      | Some (title, s2) =>
          match strip_prefix (" AND in_context(" ++ dq) s2 with
          | None => None
          | Some s3 =>
              match until_quote s3 with
              | None => None
              | Some (parent, s4) =>
                  if s4 =? ")" then Some (title, parent) else None
              end
          end
      end
  end.

Definition list_executions (filter : string) : M t (list Resource) :=
  match parse_filter filter with
  | None => raise (RemoteError ("invalid filter: " ++ filter))
  | Some (title, parent) =>
      gets (fun w =>
        List.filter
          (fun r => (schema_title r =? title) && mem parent (parent_contexts r))
          (map snd (executions w)))
  end.

(** Link the named executions under a context. *)
Definition add_executions (parent : string) (names : list string) : M t unit :=
  modify (fun w =>
    with_executions
      (map (fun kr =>
              if mem (resource_name (snd kr)) names
              then (fst kr, with_parent parent (snd kr))
              else kr)
           (executions w))
      w).

(** The artifacts that the events of an execution name, in event order. *)
Definition artifacts_of (execution : string) : M t (list Resource) :=
  gets (fun w =>
    flat_map
      (fun ev =>
         match ev with
         | (x, a, _) =>
             if x =? execution
             then List.filter (fun r => resource_name r =? a) (map snd (artifacts w))
             else []
         end)
      (events w)).

(** Every context is stored under its own name. *)
Definition well_keyed (w : t) : Prop :=
  forall k r, dict_get (contexts w) k = Some r -> name r = k.

(** The remote state of a run, if the run exists and has one. *)
Definition run_state (w : t) (run : Resource) : option State :=
  match dict_get (contexts w) (name run) with
  | Some r => state r
  | None => None
  end.

(** [w'] is [w] but for the context [k]: the same pending faults, the same
    contexts under every other key, and still well keyed. *)
Definition same_but (k : string) (w w' : t) : Prop :=
  faults w' = faults w
  /\ (forall k', k' <> k -> dict_get (contexts w') k' = dict_get (contexts w) k')
  /\ (well_keyed w -> well_keyed w').

Section Perform.
Context {K : Constants} {RT : Runtime}.

Definition schema_conflict (what found : string) : Exn :=
  ValueError (what ++ " has been used to create other type of resources ("
              ++ found ++ ") in this MetadataStore.").

(** [Experiment.get_or_create]: section 4.1, [set_experiment]. *)
Definition experiment_get_or_create (experiment_name : string)
    (new_description : option string) : M t Resource :=
  e <- get_or_create Contexts experiment_name (Some experiment_name)
         new_description SYSTEM_EXPERIMENT (SCHEMA_VERSIONS SYSTEM_EXPERIMENT)
         EXPERIMENT_METADATA None ;;
  raise_if (negb (schema_title e =? SYSTEM_EXPERIMENT))
    (schema_conflict experiment_name (schema_title e)) ;;
  match new_description with
  | Some d =>
      if negb (description e =? d)
      then update Contexts (name e) (metadata e) new_description
      else ret e
  | None => ret e
  end.

(** [ExperimentRun(run_name, experiment)]: section 4.1, [resume=true]. *)
Definition experiment_run_init (run_name : string) (experiment : Resource)
  : M t Resource :=
  r <- fetch Contexts (name experiment ++ "-" ++ run_name) ;;
  raise_if (negb (schema_title r =? SYSTEM_EXPERIMENT_RUN))
    (schema_conflict run_name (schema_title r)) ;;
  ret r.

(** [ExperimentRun.create]: section 4.1, [resume=false]. *)
Definition experiment_run_create (run_name : string) (experiment : Resource)
  : M t Resource :=
  let run_id := name experiment ++ "-" ++ run_name in
  r <- get_or_create Contexts run_id (Some run_name) None
         SYSTEM_EXPERIMENT_RUN (SCHEMA_VERSIONS SYSTEM_EXPERIMENT_RUN)
         [] (Some RUNNING) ;;
  raise_if (negb (schema_title r =? SYSTEM_EXPERIMENT_RUN))
    (schema_conflict run_name (schema_title r)) ;;
  m <- get_or_create Artifacts (run_id ++ "-metrics") (Some (run_id ++ "-metrics"))
         None SYSTEM_METRICS (SCHEMA_VERSIONS SYSTEM_METRICS) [] None ;;
  raise_if (negb (schema_title m =? SYSTEM_METRICS))
    (schema_conflict run_name (schema_title m)) ;;
  let r := with_parent (resource_name experiment) r in
  store Contexts r ;;
  ret r.

(** [update_state] and [end_run] of a run: set the state of the remote
    resource. *)
Definition set_run_state (run : Resource) (s : State) : M t Resource :=
  r <- fetch Contexts (name run) ;;
  let r := with_state (Some s) r in
  store Contexts r ;;
  ret r.

(** Modelled from the spec: [ExperimentRun.log_metrics], which is not among
    the sources at hand.  As the specification says of [log_metrics], every
    value is checked before the store is reached; the metrics artifact of
    the run is then updated. *)
Definition experiment_run_log_metrics (run : Resource) (metrics : dict PyValue)
  : M t Resource :=
  lift_result (_validate_metrics_value_type metrics) ;;
  reach ;;
  _ <- update Artifacts (name run ++ "-metrics") metrics None ;;
  ret run.

Definition exec (c : Call) : M t (Reply c) :=
  match c as c0 return M t (Reply c0) with
  | MetadataStore_get_or_create => reach
  | Context_get_or_create resource_id display_name new_description title version md =>
      reach ;;
      get_or_create Contexts resource_id display_name new_description title version md None
  | Context_init resource_name => reach ;; fetch Contexts resource_name
  | Context_update self md new_description =>
      reach ;; update Contexts (name self) md new_description
  | Context_add_artifacts_and_executions self names =>
      reach ;; add_executions (resource_name self) names
  | Execution_get_or_create resource_id display_name title version =>
      reach ;;
      get_or_create Executions resource_id display_name None title version []
        (Some RUNNING)
  | Execution__add_artifact self names input =>
      reach ;;
      modify (fun w =>
        with_events
          (events w ++ map (fun a => (resource_name self, a, input)) names) w)
  | Execution_update self md => reach ;; update Executions (name self) md None
  | Execution_list filter => reach ;; list_executions filter
  | Execution_query_input_and_output_artifacts self =>
      reach ;; artifacts_of (resource_name self)
  | _Artifact_get_or_create resource_id display_name title version =>
      reach ;;
      get_or_create Artifacts resource_id display_name None title version [] None
  | Artifact_get_or_create resource_id title version =>
      reach ;;
      get_or_create Artifacts resource_id None None title version [] None
  | Artifact_update self md => reach ;; update Artifacts (name self) md None
  | Experiment_get_or_create experiment_name new_description =>
      reach ;; experiment_get_or_create experiment_name new_description
  | Experiment_assign_backing_tensorboard self _ => reach ;; ret self
  | ExperimentRun_init run_name experiment =>
      reach ;; experiment_run_init run_name experiment
  | ExperimentRun_create run_name experiment _ =>
      reach ;; experiment_run_create run_name experiment
  | ExperimentRun_assign_backing_tensorboard self _ => reach ;; ret self
  | ExperimentRun_update_state self s => reach ;; set_run_state self s
  | ExperimentRun_end_run self s =>
      reach ;; _ <- set_run_state self s ;; ret tt
  | ExperimentRun_log_params self params =>
      reach ;; update Contexts (name self) params None
  | ExperimentRun_log_metrics self metrics =>
      experiment_run_log_metrics self metrics
  end.

#[export] Instance remote : Remote t := exec.

End Perform.
End Store.

(* ===================================================================== *)
(** ** A configuration to run the model on *)
(* ===================================================================== *)

Module Demo.

(** Schema titles for the examples below; what they are is immaterial, as
    long as the five differ and hold no double quote. *)
Definition constants : Constants :=
  {| SYSTEM_EXPERIMENT := "system.Experiment";
     SYSTEM_EXPERIMENT_RUN := "system.ExperimentRun";
     SYSTEM_RUN := "system.Run";
     SYSTEM_METRICS := "system.Metrics";
     SYSTEM_PIPELINE := "system.Pipeline";
     SCHEMA_VERSIONS := fun _ => "0.0.1";
     EXPERIMENT_METADATA := [("experiment_deleted", PyBool false)] |}.

(** An interpreter with pandas; floats are rendered in hexadecimal only
    because no example prints one. *)
Definition runtime : Runtime :=
  {| float_str := fun _ => "0x0p+0"; pandas_installed := true |}.

(** The collaborators over the store, with these titles. *)
Definition remote : Remote Store.t := @Store.remote constants runtime.

Definition session {F : Type} (f : F) (w : Store.t) : Session F Store.t :=
  {| self := f; world := w; calls := []; warnings := [] |}.

Definition experiment : Resource :=
  Store.new_resource "contexts" "exp-1" (Some "exp-1") None
    "system.Experiment" "0.0.1" [("experiment_deleted", PyBool false)] None.

Definition run : Resource :=
  Store.new_resource "contexts" "exp-1-run-1" (Some "run-1") None
    "system.ExperimentRun" "0.0.1" [] (Some RUNNING).

Definition legacy_run : Resource :=
  Store.new_resource "executions" "exp-1-run-1" (Some "run-1") None
    "system.Run" "0.0.1" [] (Some RUNNING).

Definition legacy_metrics : Resource :=
  Store.new_resource "artifacts" "exp-1-run-1-metrics"
    (Some "exp-1-run-1-metrics") None "system.Metrics" "0.0.1" [] None.

(** A store that holds the experiment, the run and the legacy run. *)
Definition store : Store.t :=
  {| Store.contexts := [("exp-1", experiment); ("exp-1-run-1", run)];
     Store.executions := [("exp-1-run-1", legacy_run)];
     Store.artifacts := [("exp-1-run-1-metrics", legacy_metrics)];
     Store.events := [];
     Store.faults := [] |}.

(** The store when the service cannot be reached. *)
Definition unavailable (w : Store.t) : Store.t :=
  Store.with_faults [Some (RemoteError "503 Service Unavailable")] w.

(** The store after somebody else deleted the run. *)
Definition run_deleted : Store.t :=
  Store.with_contexts [("exp-1", experiment)] store.

(** A tracker with the experiment set and the run active. *)
Definition tracker : ExperimentTracker.fields :=
  {| ExperimentTracker._experiment := Some experiment;
     ExperimentTracker._experiment_run := Some run |}.

Definition service : MetadataService.fields :=
  {| MetadataService._experiment := Some experiment;
     MetadataService._run := Some legacy_run;
     MetadataService._metrics := Some legacy_metrics |}.

End Demo.

(** The session of the docstring of [get_experiment_df], up to the first
    run, followed by the query. *)
Definition round_trip {W : Type} {R : Remote W} {K : Constants} {RT : Runtime}
  : MetadataService.Method (W := W) DataFrame :=
  MetadataService.set_experiment "exp-1" None ;;
  MetadataService.start_run "run-1" ;;
  MetadataService.log_params [("learning_rate", PyFloat 0x1.999999999999ap-4)] ;;
  MetadataService.log_metrics [("accuracy", PyFloat 0x1.ccccccccccccdp-1)] ;;
  MetadataService.get_experiment_df None.

(** The executions of [w] are still in [w'], each in the remote state it
    had, and the contexts are the same. *)
Definition executions_keep_state (w w' : Store.t) : Prop :=
  Store.contexts w' = Store.contexts w
  /\ forall k r,
       dict_get (Store.executions w) k = Some r ->
       exists r', dict_get (Store.executions w') k = Some r' /\ state r' = state r.

(* ===================================================================== *)
(** ** The other methods of the two classes *)
(* ===================================================================== *)

(** [_MetadataService._create_experiment_run_context] and the methods of
    [_ExperimentTracker] left out above ([get_experiment_df], [log],
    [log_time_series_metrics], [get_artifact], [start_execution]).  They
    call collaborators beyond [Call], and one of them ends in an exception
    that is not an [Exn]; both get a type of their own here, and the
    methods run in a monad over them. *)
Module Further.

(** What a method can end in: an exception of [Exn], or the
    [UnboundLocalError] of a local name read before anything was assigned
    to it. *)
Inductive Raised : Type :=
| Exception (e : Exn)
| UnboundLocalError (variable : string).

(** Arguments that this module only passes on. *)
Inductive PipelineJob : Type := pipeline_job (resource_name : string).

Record Timestamp : Type := { seconds : Z; nanos : Z }.

Inductive Credentials : Type := credentials (account : string).

(** A bound method of an execution, as it is or as
    [_association_wrapper] returned it. *)
Inductive BoundMethod : Type :=
| method_of (self : Resource) (attribute : string)
| wrapper (reply : string) (wrapped : BoundMethod).

(** The execution that [start_execution] returns: the object, and the two
    methods that [start_execution] may bind again. *)
Record StartedExecution : Type := {
  execution : Resource;
  assign_input_artifacts : BoundMethod;
  assign_output_artifacts : BoundMethod
}.

(** The further calls on collaborators, named after the method called. *)
Inductive FurtherCall : Type :=
(* context._Context *)
| Context_add_context_children (self : Resource) (contexts : list Resource)
| Context__sync_gca_resource (self : Resource)
(* experiment_resources.Experiment *)
| Experiment_init (experiment_name : string)
| Experiment_get_data_frame (self : Resource)
(* experiment_run_resource.ExperimentRun *)
| ExperimentRun_log (self : Resource) (pipeline_job : option PipelineJob)
| ExperimentRun_log_time_series_metrics (self : Resource)
    (metrics : dict PyValue) (step : option Z) (wall_time : option Timestamp)
| ExperimentRun_assign_artifact_as_input (self artifact : Resource)
| ExperimentRun__is_legacy_experiment_run (self : Resource)
| ExperimentRun_associate_execution (self execution : Resource)
| ExperimentRun__association_wrapper (self : Resource) (f : BoundMethod)
(* artifact.Artifact, reached through the object [via] *)
| Artifact_init (via : Resource) (resource_name : string)
| Artifact_get_with_uri (via : Resource) (uri : option string)
(* execution.Execution; [Execution_update_state] is [update(state=...)] *)
| Execution_init (execution_name : string) (project location : option string)
    (credentials : option Credentials)
| Execution_update_state (self : Resource) (state : State)
| Execution_create (display_name : option string) (schema_title : string)
    (schema_version : option string) (metadata : option (dict PyValue))
    (description resource_id project location : option string)
    (credentials : option Credentials)
(* base.Logger, called with arguments after the message *)
| _LOGGER_warn_args (msg : string) (args : list string).

Definition FurtherReply (c : FurtherCall) : Type :=
  match c with
  | Context_add_context_children _ _ => unit
  | Context__sync_gca_resource _ => Resource
  | Experiment_init _ => Resource
  | Experiment_get_data_frame _ => DataFrame
  | ExperimentRun_log _ _ => Resource
  | ExperimentRun_log_time_series_metrics _ _ _ _ => Resource
  | ExperimentRun_assign_artifact_as_input _ _ => unit
  | ExperimentRun__is_legacy_experiment_run _ => bool
  | ExperimentRun_associate_execution _ _ => unit
  | ExperimentRun__association_wrapper _ _ => BoundMethod
  | Artifact_init _ _ => Resource
  | Artifact_get_with_uri _ _ => Resource
  | Execution_init _ _ _ _ => Resource
  | Execution_update_state _ _ => Resource
  | Execution_create _ _ _ _ _ _ _ _ _ => Resource
  | _LOGGER_warn_args _ _ => unit
  end.

(** The further collaborators, over the same world. *)
Class FurtherRemote (W : Type) : Type :=
  perform_further : forall c : FurtherCall, W -> (Exn + FurtherReply c) * W.

(** The attributes of an [ExperimentRun] that [start_execution] reads. *)
Class RunAttributes : Type := {
  project_of : Resource -> string;
  location_of : Resource -> string;
  _run_name_of : Resource -> string
}.

(** A session, and the further calls issued in it (oldest first). *)
Record FSession (F W : Type) : Type := {
  session : Session F W;
  issued : list FurtherCall
}.

Definition FM (S A : Type) : Type := S -> (Raised + A) * S.

Definition fret {S A : Type} (a : A) : FM S A := fun s => (inr a, s).

Definition fraise {S A : Type} (e : Raised) : FM S A := fun s => (inl e, s).

Definition fbind {S A B : Type} (m : FM S A) (k : A -> FM S B) : FM S B :=
  fun s =>
    match m s with
    | (inr a, s') => k a s'
    | (inl e, s') => (inl e, s')
    end.

(** What a collaborator answered, as the caller sees it. *)
Definition raised {A : Type} (r : Exn + A) : Raised + A :=
  match r with
  | inl e => inl (Exception e)
  | inr a => inr a
  end.

Declare Scope further_scope.
Notation "x <- m ;; k" := (fbind m (fun x => k))
  (at level 61, m at next level, right associativity) : further_scope.
Notation "m ;; k" := (fbind m (fun _ => k))
  (at level 61, right associativity) : further_scope.
#[local] Open Scope further_scope.

(** [if cond: raise e]. *)
Definition fraise_if {S : Type} (cond : bool) (e : Exn) : FM S unit :=
  if cond then fraise (Exception e) else fret tt.

Section FSessionOps.
Context {F W : Type} {R : Remote W} {FR : FurtherRemote W}.

(** A method embedded above, run in a session of this module. *)
Definition earlier {A : Type} (m : M (Session F W) A) : FM (FSession F W) A :=
  fun s =>
    let '(r, s') := m (session s) in
    (raised r, {| session := s'; issued := issued s |}).

(** Issue a further call: it is logged, then performed on the world. *)
Definition fcall (c : FurtherCall) : FM (FSession F W) (FurtherReply c) :=
  fun s =>
    let '(r, w') := perform_further c (world (session s)) in
    (raised r,
     {| session := {| self := self (session s); world := w';
                      calls := calls (session s);
                      warnings := warnings (session s) |};
        issued := issued s ++ [c] |}).

(** The session [s] once the calls [cs] and the further calls [fs] were
    issued and left the world [w]: fields and warnings are those of [s]. *)
Definition after (s : FSession F W) (w : W) (cs : list Call)
    (fs : list FurtherCall) : FSession F W :=
  {| session := {| self := self (session s); world := w;
                   calls := calls (session s) ++ cs;
                   warnings := warnings (session s) |};
     issued := issued s ++ fs |}.

(** Read a field of [self]. *)
Definition ffield {A : Type} (f : F -> A) : FM (FSession F W) A :=
  fun s => (inr (f (self (session s))), s).

End FSessionOps.

(** [LOAD_FAST]: the value of a local name, if one was assigned. *)
Definition load_local {S A : Type} (variable : string) (v : option A) : FM S A :=
  match v with
  | Some a => fret a
  | None => fraise (UnboundLocalError variable)
  end.

(** An attribute or method of a variable that may hold [None]. *)
Definition fgetattr {S : Type} (o : option Resource) (attr : string)
  : FM S Resource :=
  match o with
  | Some r => fret r
  | None =>
      fraise (Exception
                (AttributeError
                   ("'NoneType' object has no attribute '" ++ attr ++ "'")))
  end.

(** [x in l] on strings. *)
Definition str_in (x : string) (l : list string) : bool :=
  existsb (String.eqb x) l.

(** [f"{value}"] for an optional string. *)
Definition opt_str (o : option string) : string :=
  match o with
  | Some s => s
  | None => "None"
  end.

Section Methods.
Context {W : Type} {R : Remote W} {FR : FurtherRemote W}
        {K : Constants} {A : RunAttributes}.

(** [_MetadataService._create_experiment_run_context]. *)
Definition _create_experiment_run_context (run : string)
  : FM (FSession MetadataService.fields W) Resource :=
  e <- ffield MetadataService._experiment ;;
  experiment <- fgetattr e "name" ;;
  let run_context_id := name experiment ++ "-" ++ run in
  run_context <-
    earlier (call (Context_get_or_create run_context_id (Some run) None
                     SYSTEM_EXPERIMENT_RUN
                     (SCHEMA_VERSIONS SYSTEM_EXPERIMENT_RUN)
                     EXPERIMENT_METADATA)) ;;
  fraise_if (negb (schema_title run_context =? SYSTEM_EXPERIMENT_RUN))
    (ValueError
       ("Run name " ++ run
        ++ " has been used to create other type of resources ("
        ++ schema_title run_context ++ ") "
        ++ "in this MetadataStore, please choose a different run name.")) ;;
  if negb (str_in (resource_name experiment) (parent_contexts run_context))
  then
    fcall (Context_add_context_children experiment [run_context]) ;;
    fcall (Context__sync_gca_resource run_context)
  else fret run_context.

(** [_ExperimentTracker.get_experiment_df]. *)
Definition get_experiment_df (experiment : option string)
  : FM (FSession ExperimentTracker.fields W) DataFrame :=
  experiment <-
    (if negb (opt_truthy experiment)
     then ffield ExperimentTracker._experiment
     else
       e <- fcall (Experiment_init
                     (match experiment with Some s => s | None => "" end)) ;;
       fret (Some e)) ;;
  experiment <- fgetattr experiment "get_data_frame" ;;
  fcall (Experiment_get_data_frame experiment).

(** [_ExperimentTracker.log]. *)
Definition log (pipeline_job : option PipelineJob)
  : FM (FSession ExperimentTracker.fields W) unit :=
  earlier (ExperimentTracker._validate_experiment_and_run "log") ;;
  r <- ffield ExperimentTracker._experiment_run ;;
  run <- fgetattr r "log" ;;
  run <- fcall (ExperimentRun_log run pipeline_job) ;;
  earlier (ExperimentTracker.set__experiment_run (Some run)).

(** [_ExperimentTracker.log_time_series_metrics]. *)
Definition log_time_series_metrics (metrics : dict PyValue) (step : option Z)
    (wall_time : option Timestamp)
  : FM (FSession ExperimentTracker.fields W) unit :=
  earlier (ExperimentTracker._validate_experiment_and_run
             "log_time_series_metrics") ;;
  r <- ffield ExperimentTracker._experiment_run ;;
  run <- fgetattr r "log_time_series_metrics" ;;
  run <- fcall (ExperimentRun_log_time_series_metrics run metrics step wall_time) ;;
  earlier (ExperimentTracker.set__experiment_run (Some run)).

(** [_ExperimentTracker.get_artifact].  The name [artifact] is assigned in
    the body, so it is a local name of the function throughout, and not
    the module imported at the top of the file: [artifact.Artifact] reads
    the local, to which nothing has been assigned at that point. *)
Definition get_artifact (uri artifact_name : option string)
    (assign_as_input : bool)
  : FM (FSession ExperimentTracker.fields W) Resource :=
  earlier (ExperimentTracker._validate_experiment_and_run "get_artifact") ;;
  fraise_if (Bool.eqb (opt_truthy uri) (opt_truthy artifact_name))
    (ValueError
       "To get an artifact, provide only one of `uri` or `artifact_name`") ;;
  let artifact : option Resource := None in
  artifact <-
    (if opt_truthy artifact_name
     then
       via <- load_local "artifact" artifact ;;
       fcall (Artifact_init via
                (match artifact_name with Some s => s | None => "" end))
     else
       via <- load_local "artifact" artifact ;;
       fcall (Artifact_get_with_uri via uri)) ;;
  (if assign_as_input
   then
     r <- ffield ExperimentTracker._experiment_run ;;
     run <- fgetattr r "assign_artifact_as_input" ;;
     fcall (ExperimentRun_assign_artifact_as_input run artifact)
   else fret tt) ;;
  fret artifact.

(** The two checks at the top of [start_execution], against the run that
    is set. *)
Definition check_project_and_location (run : Resource)
    (project location : option string) : FM (FSession ExperimentTracker.fields W) unit :=
  fraise_if
    (opt_truthy project
     && negb (match project with Some p => p | None => "" end =? project_of run))
    (ValueError
       ("Currently set Experiment run project " ++ project_of run ++ " must"
        ++ "match provided project " ++ opt_str project)) ;;
  fraise_if
    (opt_truthy location
     && negb (match location with Some l => l | None => "" end =? location_of run))
    (ValueError
       ("Currently set Experiment run location " ++ location_of run ++ " must"
        ++ "match provided location " ++ opt_str project)).

(** [_ExperimentTracker.start_execution]. *)
Definition start_execution
    (schema_title display_name resource_id : option string)
    (metadata : option (dict PyValue))
    (schema_version description : option string) (resume : bool)
    (project location : option string) (creds : option Credentials)
  : FM (FSession ExperimentTracker.fields W) StartedExecution :=
  r <- ffield ExperimentTracker._experiment_run ;;
  match r with
  | Some run =>
      legacy <- fcall (ExperimentRun__is_legacy_experiment_run run) ;;
      if negb legacy
      then check_project_and_location run project location
      else fret tt
  | None => fret tt
  end ;;
  run_execution <-
    (if resume then
       fraise_if (negb (opt_truthy resource_id))
         (ValueError "resource_id is required when resume=True") ;;
       run_execution <-
         fcall (Execution_init
                  (match resource_id with Some s => s | None => "" end)
                  project location creds) ;;
       fcall (Execution_update_state run_execution RUNNING)
     else
       fraise_if (negb (opt_truthy schema_title))
         (ValueError
            "schema_title must be provided when starting a new Execution") ;;
       fcall (Execution_create display_name
                (match schema_title with Some s => s | None => "" end)
                schema_version metadata description resource_id
                project location creds)) ;;
  let started :=
    {| execution := run_execution;
       assign_input_artifacts := method_of run_execution "assign_input_artifacts";
       assign_output_artifacts :=
         method_of run_execution "assign_output_artifacts" |} in
  r <- ffield ExperimentTracker._experiment_run ;;
  match r with
  | Some run =>
      legacy <- fcall (ExperimentRun__is_legacy_experiment_run run) ;;
      if legacy then
        fcall (_LOGGER_warn_args
                 (_run_name_of run
                  ++ " is an Experiment run created in Vertex Experiment Preview")
                 [" and does not support tracking Executions."
                  ++ " Please create a new Experiment run to track executions against an Experiment run."]) ;;
        fret started
      else
        fcall (ExperimentRun_associate_execution run run_execution) ;;
        inputs <-
          fcall (ExperimentRun__association_wrapper run
                   (assign_input_artifacts started)) ;;
        outputs <-
          fcall (ExperimentRun__association_wrapper run
                   (assign_output_artifacts started)) ;;
        fret {| execution := run_execution;
                assign_input_artifacts := inputs;
                assign_output_artifacts := outputs |}
  | None => fret started
  end.

End Methods.

(** A further remote for the examples: every further collaborator
    answers, the same way each time, and leaves the world alone; [legacy]
    is what a run answers when asked whether it is a legacy run. *)
Definition answering (legacy : bool) : FurtherRemote Store.t :=
  fun c w =>
    (match c as c0 return Exn + FurtherReply c0 with
     | Context_add_context_children _ _ => inr tt
     | Context__sync_gca_resource self => inr self
     | Experiment_init experiment_name =>
         inr (Store.new_resource "contexts" experiment_name
                (Some experiment_name) None "system.Experiment" "0.0.1" [] None)
     | Experiment_get_data_frame _ => inr []
     | ExperimentRun_log self _ => inr self
     | ExperimentRun_log_time_series_metrics self _ _ _ => inr self
     | ExperimentRun_assign_artifact_as_input _ _ => inr tt
     | ExperimentRun__is_legacy_experiment_run _ => inr legacy
     | ExperimentRun_associate_execution _ _ => inr tt
     | ExperimentRun__association_wrapper _ f => inr (wrapper "associated" f)
     | Artifact_init via resource_name => inr via
     | Artifact_get_with_uri via _ => inr via
     | Execution_init execution_name _ _ _ =>
         inr (Store.new_resource "executions" execution_name None None
                "system.ContainerExecution" "0.0.1" [] (Some COMPLETE))
     | Execution_update_state self s => inr (Store.with_state (Some s) self)
     | Execution_create display_name title _ md _ resource_id _ _ _ =>
         inr (Store.new_resource "executions" (Store.or_default resource_id)
                display_name None title "0.0.1"
                (match md with Some d => d | None => [] end) (Some RUNNING))
     | _LOGGER_warn_args _ _ => inr tt
     end, w).

(** Runs of the example project. *)
Definition demo_attributes : RunAttributes :=
  {| project_of := fun _ => "my-project";
     location_of := fun _ => "us-central1";
     _run_name_of := fun r => display_name r |}.

Definition fsession {F : Type} (f : F) (w : Store.t) : FSession F Store.t :=
  {| session := Demo.session f w; issued := [] |}.

End Further.

(* ===================================================================== *)
(** * Properties *)
(* ===================================================================== *)

(** ** Dictionaries *)

Section DictFacts.
Variable V : Type.
Implicit Types (d : dict V) (k : string) (v : V).

Lemma dict_get_set d k v k' :
  dict_get (dict_set d k v) k' = if k =? k' then Some v else dict_get d k'.
Proof.
  induction d as [|[k0 v0] d IH]; simpl.
  - reflexivity.
  - destruct (k0 =? k) eqn:E; simpl.
    + apply String.eqb_eq in E; subst k0.
      destruct (k =? k'); reflexivity.
    + rewrite IH.
      destruct (k0 =? k') eqn:E1; destruct (k =? k') eqn:E2; try reflexivity.
      apply String.eqb_eq in E1, E2; subst.
      rewrite String.eqb_refl in E; discriminate.
Qed.

Lemma dict_get_set_same d k v : dict_get (dict_set d k v) k = Some v.
Proof. rewrite dict_get_set, String.eqb_refl; reflexivity. Qed.

Lemma dict_get_set_other d k v k' :
  k <> k' -> dict_get (dict_set d k v) k' = dict_get d k'.
Proof.
  intros N. rewrite dict_get_set.
  destruct (k =? k') eqn:E; [apply String.eqb_eq in E; contradiction | reflexivity].
Qed.

Lemma in_dict_set d k v k' v' :
  In (k', v') (dict_set d k v) -> (k', v') = (k, v) \/ In (k', v') d.
Proof.
  induction d as [|[k0 v0] d IH]; simpl.
  - intros [H | []]; left; symmetry; exact H.
  - destruct (k0 =? k) eqn:E; simpl.
    + apply String.eqb_eq in E; subst k0.
      intros [H | H]; [left; symmetry; exact H | right; right; exact H].
    + intros [H | H]; [right; left; exact H |].
      destruct (IH H) as [H' | H']; [left | right; right]; exact H'.
Qed.

Lemma dict_get_in d k v : dict_get d k = Some v -> In (k, v) d.
Proof.
  induction d as [|[k0 v0] d IH]; simpl; [discriminate |].
  destruct (k0 =? k) eqn:E.
  - apply String.eqb_eq in E; subst k0. intros [= ->]; left; reflexivity.
  - intros H; right; apply IH, H.
Qed.

Lemma dict_get_in_keys d k v : dict_get d k = Some v -> In k (dict_keys d).
Proof.
  intros H. apply dict_get_in in H.
  unfold dict_keys. change k with (fst (k, v)). apply in_map, H.
Qed.

Lemma find_snoc (A : Type) (p : A -> bool) (l : list A) (x : A) :
  find p (l ++ [x]) =
  match find p l with
  | Some y => Some y
  | None => if p x then Some x else None
  end.
Proof.
  induction l as [|y l IH]; simpl; [reflexivity |].
  destruct (p y); [reflexivity | exact IH].
Qed.

(** The last item stored under a column wins. *)
Lemma store_all_get (f : string -> string) (items acc : dict V) c :
  dict_get (store_all f items acc) c =
  match find (fun kv => f (fst kv) =? c) (rev items) with
  | Some kv => Some (snd kv)
  | None => dict_get acc c
  end.
Proof.
  unfold store_all. revert acc.
  induction items as [|[k v] items IH]; intros acc; simpl; [reflexivity |].
  rewrite IH, find_snoc, dict_get_set; simpl.
  destruct (find _ (rev items)); [reflexivity |].
  destruct (f k =? c); reflexivity.
Qed.

Lemma store_all_in (f : string -> string) (items acc : dict V) c v :
  In (c, v) (store_all f items acc) ->
  In (c, v) acc \/ exists k, In (k, v) items /\ c = f k.
Proof.
  unfold store_all. revert acc.
  induction items as [|[k0 v0] items IH]; intros acc; simpl; [tauto |].
  intros H. destruct (IH _ H) as [H1 | (k & H1 & H2)].
  - destruct (in_dict_set _ _ _ _ _ H1) as [E | E].
    + inversion E; subst. right; exists k0; split; [left; reflexivity | reflexivity].
    + left; exact E.
  - right; exists k; split; [right; exact H1 | exact H2].
Qed.

Lemma find_rev_in (p : string * V -> bool) (items : dict V) (kv : string * V) :
  In kv items -> p kv = true -> exists kv', find p (rev items) = Some kv'.
Proof.
  intros Hin Hp.
  destruct (find p (rev items)) as [kv'|] eqn:E; [exists kv'; reflexivity |].
  exfalso. rewrite (find_none _ _ E kv) in Hp; [discriminate |].
  rewrite <- in_rev; exact Hin.
Qed.

End DictFacts.

(** ** Column names *)

Lemma column_key_spec (metadata_type : string) (filter_prefix : option string)
    (key : string) :
  column_key metadata_type filter_prefix key
  = column_name_spec metadata_type filter_prefix key.
Proof.
  unfold column_key, column_name_spec, strip_prefix_spec, str_join; simpl.
  destruct filter_prefix as [[|a p]|]; simpl; try reflexivity.
  destruct key; reflexivity.
Qed.

Lemma execution_to_column_named_metadata_store_all
    (metadata_type : string) (metadata : dict PyValue)
    (filter_prefix : option string) :
  _execution_to_column_named_metadata metadata_type metadata filter_prefix
  = store_all (column_key metadata_type filter_prefix) metadata [].
Proof. reflexivity. Qed.

(** C7. For every metadata mapping, category tag and optional prefix,
    [_execution_to_column_named_metadata] names the column of a key
    [{category}.{key}], with the prefix cut off the key when one is given
    and the key starts with it: every key of the mapping has its column in
    the result, every entry of the result is the column of a key of the
    mapping with that key's value unchanged, and a key whose column no
    other key with another value shares is found under its column with its
    own value. *)
Theorem execution_to_column_named_metadata_columns
    (category : string) (metadata : dict PyValue)
    (filter_prefix : option string) :
  let columns :=
    _execution_to_column_named_metadata category metadata filter_prefix in
  let column := column_name_spec category filter_prefix in
  (forall key value, In (key, value) metadata -> In (column key) (dict_keys columns))
  /\ (forall c value,
        In (c, value) columns ->
        exists key, In (key, value) metadata /\ c = column key)
  /\ (forall key value,
        In (key, value) metadata ->
        (forall key' value',
           In (key', value') metadata -> column key' = column key ->
           value' = value) ->
        dict_get columns (column key) = Some value).
Proof.
  intros columns column.
  assert (Hget : forall key value,
             In (key, value) metadata ->
             exists key' value',
               In (key', value') metadata /\ column key' = column key
               /\ dict_get columns (column key) = Some value').
  { intros key value Hin.
    subst columns. rewrite execution_to_column_named_metadata_store_all.
    rewrite store_all_get.
    destruct (find_rev_in
                (fun kv => column_key category filter_prefix (fst kv) =? column key)
                metadata (key, value) Hin) as [[k' v'] E].
    - simpl. rewrite column_key_spec. apply String.eqb_refl.
    - rewrite E. apply find_some in E. destruct E as [E1 E2].
      simpl in E2. rewrite column_key_spec in E2. apply String.eqb_eq in E2.
      rewrite <- in_rev in E1.
      exists k', v'. repeat split; assumption. }
  split; [| split].
  - intros key value Hin.
    destruct (Hget key value Hin) as (k' & v' & _ & _ & G).
    apply dict_get_in_keys with (v := v'); exact G.
  - intros c value Hin.
    subst columns. rewrite execution_to_column_named_metadata_store_all in Hin.
    apply store_all_in in Hin. destruct Hin as [[] | (k & H1 & H2)].
    exists k; split; [exact H1 |]. rewrite H2. apply column_key_spec.
  - intros key value Hin Hsame.
    destruct (Hget key value Hin) as (k' & v' & H1 & H2 & G).
    rewrite G. f_equal. apply (Hsame k' v' H1 H2).
Qed.

(** The columns of a concrete mapping with the [input:] prefix. *)
Lemma execution_to_column_named_metadata_columns_witness :
  dict_get
    (_execution_to_column_named_metadata "param"
       [("input:learning_rate", PyFloat 0x1.999999999999ap-4); ("epochs", PyInt 3)]
       (Some "input:"))
    "param.learning_rate" = Some (PyFloat 0x1.999999999999ap-4).
Proof.
  apply (proj2 (proj2 (execution_to_column_named_metadata_columns "param"
           [("input:learning_rate", PyFloat 0x1.999999999999ap-4); ("epochs", PyInt 3)]
           (Some "input:")))
         "input:learning_rate" (PyFloat 0x1.999999999999ap-4)).
  - simpl; left; reflexivity.
  - intros key' value' [H | [H | []]] E.
    + inversion H; reflexivity.
    + inversion H; subst. vm_compute in E. discriminate.
Defined.

(** ** The method monad *)

Lemma bind_ret_l {S A B : Type} (m : M S A) (k : A -> M S B) (s s' : S) (a : A) :
  m s = (inr a, s') -> bind m k s = k a s'.
Proof. unfold bind; intros ->; reflexivity. Qed.

Lemma bind_raise_l {S A B : Type} (m : M S A) (k : A -> M S B) (s s' : S) (e : Exn) :
  m s = (inl e, s') -> bind m k s = (inl e, s').
Proof. unfold bind; intros ->; reflexivity. Qed.

(** A bind that returns ran both of its parts. *)
Lemma bind_inr_inv {S A B : Type} (m : M S A) (k : A -> M S B) (s s' : S) (b : B) :
  bind m k s = (inr b, s') ->
  exists a s1, m s = (inr a, s1) /\ k a s1 = (inr b, s').
Proof.
  unfold bind. destruct (m s) as [[e | a] s1]; [discriminate |].
  intros H; exists a, s1; split; [reflexivity | exact H].
Qed.

(** A bind that raises: its first part raised, or returned and the rest
    raised. *)
Lemma bind_inl_inv {S A B : Type} (m : M S A) (k : A -> M S B) (s s' : S) (e : Exn) :
  bind m k s = (inl e, s') ->
  m s = (inl e, s') \/ exists a s1, m s = (inr a, s1) /\ k a s1 = (inl e, s').
Proof.
  unfold bind. destruct (m s) as [[e0 | a] s1].
  - intros [= <- <-]; left; reflexivity.
  - intros H; right; exists a, s1; split; [reflexivity | exact H].
Qed.

Lemma bind_assoc {S A B C : Type} (m : M S A) (f : A -> M S B) (g : B -> M S C)
    (s : S) :
  bind (bind m f) g s = bind m (fun a => bind (f a) g) s.
Proof. unfold bind. destruct (m s) as [[e | a] s1]; reflexivity. Qed.

Lemma bind_ext {S A B : Type} (m : M S A) (k1 k2 : A -> M S B) (s : S) :
  (forall a s1, k1 a s1 = k2 a s1) -> bind m k1 s = bind m k2 s.
Proof.
  intros H. unfold bind. destruct (m s) as [[e | a] s1]; [reflexivity | apply H].
Qed.

Section CallFacts.
Context {F W : Type} {R : Remote W}.

Lemma call_eq (c : Call) (s : Session F W) :
  call c s =
  (fst (perform c (world s)),
   {| self := self s; world := snd (perform c (world s));
      calls := calls s ++ [c]; warnings := warnings s |}).
Proof. unfold call. destruct (perform c (world s)); reflexivity. Qed.

(** A call touches neither the fields nor the warnings, and logs itself. *)
Lemma call_frame (c : Call) (s s' : Session F W) (r : Exn + Reply c) :
  call c s = (r, s') ->
  self s' = self s /\ warnings s' = warnings s /\ calls s' = (calls s ++ [c])%list
  /\ perform c (world s) = (r, world s').
Proof.
  rewrite call_eq. intros [= <- <-]; simpl.
  repeat split. destruct (perform c (world s)); reflexivity.
Qed.

End CallFacts.

(** ** Ending the active run *)

Section EndRun.
Context {W : Type} {R : Remote W}.
Import ExperimentTracker.

(** What [end_run] does on a tracker with an experiment and a run, for
    each outcome of the remote end-call. *)
Lemma end_run_outcome (st : Session fields W) (e run : Resource) (s : State) :
  _experiment (self st) = Some e ->
  _experiment_run (self st) = Some run ->
  end_run s st =
  (match fst (perform (ExperimentRun_end_run run s) (world st)) with
   | inr _ => inr tt
   | inl x => if is_NotFound x then inr tt else inl x
   end,
   {| self := {| _experiment := Some e; _experiment_run := None |};
      world := snd (perform (ExperimentRun_end_run run s) (world st));
      calls := calls st ++ [ExperimentRun_end_run run s];
      warnings :=
        match fst (perform (ExperimentRun_end_run run s) (world st)) with
        | inr _ => warnings st
        | inl x =>
            if is_NotFound x then warnings st ++ [not_found_warning run]
            else warnings st
        end |}).
Proof.
  destruct st as [[oe orun] w cs ws]; simpl; intros -> ->.
  unfold end_run, _validate_experiment_and_run, try_except_finally, bind,
    field, gets, raise_if, ret, getattr, call, set__experiment_run, assign,
    modify, _LOGGER_warn; simpl.
  destruct (perform (ExperimentRun_end_run run s) w) as [[x | []] w']; simpl.
  - destruct (is_NotFound x); reflexivity.
  - reflexivity.
Qed.

End EndRun.

(** C2. When a run is active and the remote end-call fails with
    [NotFound], [end_run] does not raise: it logs a warning, returns, and
    leaves the tracker with no active run (the experiment stays set). *)
Theorem end_run_not_found_is_success
    {W : Type} {R : Remote W}
    (st : Session ExperimentTracker.fields W) (e run : Resource) (s : State)
    (msg : string) (w' : W) :
  ExperimentTracker._experiment (self st) = Some e ->
  ExperimentTracker._experiment_run (self st) = Some run ->
  perform (ExperimentRun_end_run run s) (world st) = (inl (NotFound msg), w') ->
  ExperimentTracker.end_run s st =
  (inr tt,
   {| self := {| ExperimentTracker._experiment := Some e;
                 ExperimentTracker._experiment_run := None |};
      world := w';
      calls := calls st ++ [ExperimentRun_end_run run s];
      warnings := warnings st ++ [ExperimentTracker.not_found_warning run] |}).
Proof.
  intros He Hr Hp.
  rewrite (end_run_outcome st s He Hr), Hp; reflexivity.
Qed.

(** C9. When a run is active and the remote end-call raises anything but
    [NotFound], [end_run] raises that exception, and still leaves the
    tracker with no active run: the reference is cleared on every path. *)
Theorem end_run_clears_run_when_it_raises
    {W : Type} {R : Remote W}
    (st : Session ExperimentTracker.fields W) (e run : Resource) (s : State)
    (x : Exn) (w' : W) :
  ExperimentTracker._experiment (self st) = Some e ->
  ExperimentTracker._experiment_run (self st) = Some run ->
  perform (ExperimentRun_end_run run s) (world st) = (inl x, w') ->
  is_NotFound x = false ->
  ExperimentTracker.end_run s st =
  (inl x,
   {| self := {| ExperimentTracker._experiment := Some e;
                 ExperimentTracker._experiment_run := None |};
      world := w';
      calls := calls st ++ [ExperimentRun_end_run run s];
      warnings := warnings st |}).
Proof.
  intros He Hr Hp Hx.
  rewrite (end_run_outcome st s He Hr), Hp; simpl; rewrite Hx; reflexivity.
Qed.

(** Ending a run that somebody else deleted. *)
Lemma end_run_not_found_is_success_witness :
  fst (ExperimentTracker.end_run (R := Demo.remote) COMPLETE
         (Demo.session Demo.tracker Demo.run_deleted)) = inr tt
  /\ ExperimentTracker._experiment_run
       (self (snd (ExperimentTracker.end_run (R := Demo.remote) COMPLETE
                     (Demo.session Demo.tracker Demo.run_deleted)))) = None.
Proof.
  rewrite (@end_run_not_found_is_success Store.t Demo.remote
             (Demo.session Demo.tracker Demo.run_deleted)
             Demo.experiment Demo.run COMPLETE
             "contexts/exp-1-run-1 was not found." Demo.run_deleted
             eq_refl eq_refl eq_refl).
  split; reflexivity.
Defined.

(** Ending a run while the service cannot be reached. *)
Lemma end_run_clears_run_when_it_raises_witness :
  fst (ExperimentTracker.end_run (R := Demo.remote) COMPLETE
         (Demo.session Demo.tracker (Demo.unavailable Demo.store)))
  = inl (RemoteError "503 Service Unavailable")
  /\ ExperimentTracker._experiment_run
       (self (snd (ExperimentTracker.end_run (R := Demo.remote) COMPLETE
                     (Demo.session Demo.tracker (Demo.unavailable Demo.store)))))
     = None.
Proof.
  rewrite (@end_run_clears_run_when_it_raises Store.t Demo.remote
             (Demo.session Demo.tracker (Demo.unavailable Demo.store))
             Demo.experiment Demo.run COMPLETE
             (RemoteError "503 Service Unavailable") Demo.store
             eq_refl eq_refl eq_refl eq_refl).
  split; reflexivity.
Defined.

(** ** Logging without an active run *)

Lemma not_set_messages_mention_method (method_name : string) :
  mentions method_name (no_experiment_set_msg method_name)
  /\ mentions method_name (no_run_set_msg method_name).
Proof.
  split.
  - exists ("No experiment set. Make sure to call "
            ++ "aiplatform.init(experiment='my-experiment') before trying to "),
      ". ".
    reflexivity.
  - exists "No run set. Make sure to call aiplatform.start_run('my-run') before trying to ",
      ". ".
    reflexivity.
Qed.

Lemma tracker_validate_no_run {W : Type} {R : Remote W}
    (t : Session ExperimentTracker.fields W) (method_name : string) :
  ExperimentTracker._experiment_run (self t) = None ->
  ExperimentTracker._validate_experiment_and_run method_name t =
  (inl (ValueError
          (match ExperimentTracker._experiment (self t) with
           | None => no_experiment_set_msg method_name
           | Some _ => no_run_set_msg method_name
           end)), t).
Proof.
  destruct t as [[oe orun] w cs ws]; simpl; intros ->.
  destruct oe; reflexivity.
Qed.

Lemma service_validate_no_run {W : Type} {R : Remote W}
    (s : Session MetadataService.fields W) (method_name : string) :
  MetadataService._run (self s) = None ->
  MetadataService._validate_experiment_and_run method_name s =
  (inl (ValueError
          (match MetadataService._experiment (self s) with
           | None => no_experiment_set_msg method_name
           | Some _ => no_run_set_msg method_name
           end)), s).
Proof.
  destruct s as [[oe orun om] w cs ws]; simpl; intros ->.
  destruct oe; reflexivity.
Qed.

(** C5, as the code has it: with no active run, [log_params] and
    [log_metrics] of both classes raise [ValueError] before any call is
    issued, and the message mentions the calling method; the message is
    the "No experiment set" one when the experiment is unset too, and the
    "No run set" one when only the run is unset. *)
Theorem log_without_run_raises_not_set
    {W : Type} {R : Remote W} {K : Constants} {RT : Runtime}
    (values : dict PyValue)
    (t : Session ExperimentTracker.fields W)
    (s : Session MetadataService.fields W) :
  ExperimentTracker._experiment_run (self t) = None ->
  MetadataService._run (self s) = None ->
  let tracker_msg method_name :=
    match ExperimentTracker._experiment (self t) with
    | None => no_experiment_set_msg method_name
    | Some _ => no_run_set_msg method_name
    end in
  let service_msg method_name :=
    match MetadataService._experiment (self s) with
    | None => no_experiment_set_msg method_name
    | Some _ => no_run_set_msg method_name
    end in
  ExperimentTracker.log_params values t
    = (inl (ValueError (tracker_msg "log_params")), t)
  /\ ExperimentTracker.log_metrics values t
    = (inl (ValueError (tracker_msg "log_metrics")), t)
  /\ MetadataService.log_params values s
    = (inl (ValueError (service_msg "log_params")), s)
  /\ MetadataService.log_metrics values s
    = (inl (ValueError (service_msg "log_metrics")), s)
  /\ (forall method_name,
        mentions method_name (tracker_msg method_name)
        /\ mentions method_name (service_msg method_name)).
Proof.
  intros Ht Hs tracker_msg service_msg.
  repeat split.
  - unfold ExperimentTracker.log_params.
    apply bind_raise_l, tracker_validate_no_run, Ht.
  - unfold ExperimentTracker.log_metrics.
    apply bind_raise_l, tracker_validate_no_run, Ht.
  - unfold MetadataService.log_params.
    apply bind_raise_l, service_validate_no_run, Hs.
  - unfold MetadataService.log_metrics.
    apply bind_raise_l, service_validate_no_run, Hs.
  - unfold tracker_msg.
    destruct (ExperimentTracker._experiment (self t));
      apply not_set_messages_mention_method.
  - unfold service_msg.
    destruct (MetadataService._experiment (self s));
      apply not_set_messages_mention_method.
Qed.

(** Logging parameters on a tracker and a service that were just made. *)
Lemma log_without_run_raises_not_set_witness :
  ExperimentTracker.log_params (R := Demo.remote)
    [("learning_rate", PyFloat 0x1.999999999999ap-4)]
    (Demo.session ExperimentTracker.init Store.empty)
  = (inl (ValueError (no_experiment_set_msg "log_params")),
     Demo.session ExperimentTracker.init Store.empty).
Proof.
  exact (proj1 (@log_without_run_raises_not_set Store.t Demo.remote
                  Demo.constants Demo.runtime
                  [("learning_rate", PyFloat 0x1.999999999999ap-4)]
                  (Demo.session ExperimentTracker.init Store.empty)
                  (Demo.session MetadataService.init Store.empty)
                  eq_refl eq_refl)).
Defined.

(** C5, as stated, fails: the message of [log_params] with no experiment
    set is not the message with the experiment set and no run. *)
Lemma not_set_message_differs :
  exists m0 m1 : string,
    fst (ExperimentTracker.log_params (R := Demo.remote) []
           (Demo.session ExperimentTracker.init Store.empty))
    = inl (ValueError m0)
    /\ fst (ExperimentTracker.log_params (R := Demo.remote) []
              (Demo.session
                 {| ExperimentTracker._experiment := Some Demo.experiment;
                    ExperimentTracker._experiment_run := None |}
                 Demo.store))
       = inl (ValueError m1)
    /\ m0 <> m1.
Proof.
  eexists; eexists; split; [reflexivity | split; [reflexivity | discriminate]].
Qed.

(** ** Validating metric values *)

Section MetricValues.
Context {RT : Runtime}.

(** The check stops at the first value that is neither [int] nor [float],
    and names it. *)
Lemma validate_metrics_first_offender (metrics : dict PyValue) :
  match _validate_metrics_value_type metrics with
  | inr _ =>
      forall key value,
        In (key, value) metrics ->
        isinstance_int value || isinstance_float value = true
  | inl x =>
      exists before key value after,
        metrics = (before ++ (key, value) :: after)%list
        /\ (forall kv, In kv before ->
              isinstance_int (snd kv) || isinstance_float (snd kv) = true)
        /\ isinstance_int value || isinstance_float value = false
        /\ x = TypeError (unsupported_metric_msg key value)
  end.
Proof.
  induction metrics as [|[k v] metrics IH]; simpl.
  - intros key value [].
  - destruct (isinstance_int v || isinstance_float v) eqn:E.
    + destruct (_validate_metrics_value_type metrics) as [x | []].
      * destruct IH as (before & key & value & after & -> & H1 & H2 & ->).
        exists ((k, v) :: before), key, value, after.
        repeat split; try assumption.
        intros kv [<- | H]; [exact E | apply H1, H].
      * intros key value [[= <- <-] | H]; [exact E | apply (IH _ _ H)].
    + exists [], k, v, metrics. repeat split; [intros kv [] | exact E].
Qed.

Lemma validate_metrics_rejects (metrics : dict PyValue) (k : string) (v : PyValue) :
  In (k, v) metrics ->
  isinstance_int v || isinstance_float v = false ->
  exists key value,
    In (key, value) metrics
    /\ isinstance_int value || isinstance_float value = false
    /\ _validate_metrics_value_type metrics
       = inl (TypeError (unsupported_metric_msg key value)).
Proof.
  intros Hin Hv.
  pose proof (validate_metrics_first_offender metrics) as H.
  destruct (_validate_metrics_value_type metrics) as [x | []].
  - destruct H as (before & key & value & after & -> & _ & H2 & ->).
    exists key, value. repeat split; [| exact H2].
    apply in_or_app; right; left; reflexivity.
  - rewrite (H _ _ Hin) in Hv; discriminate.
Qed.

End MetricValues.

Section LogMetrics.
Context {W : Type} {R : Remote W} {K : Constants} {RT : Runtime}.

(** [_MetadataService.log_metrics] with an experiment and a run: the
    values are checked first, and only then are the two calls issued. *)
Lemma service_log_metrics_outcome
    (st : Session MetadataService.fields W) (e r m : Resource)
    (metrics : dict PyValue) :
  MetadataService._experiment (self st) = Some e ->
  MetadataService._run (self st) = Some r ->
  MetadataService._metrics (self st) = Some m ->
  MetadataService.log_metrics metrics st =
  match _validate_metrics_value_type metrics with
  | inl x => (inl x, st)
  | inr _ =>
      let get := Artifact_get_or_create (name m) SYSTEM_METRICS
                   (SCHEMA_VERSIONS SYSTEM_METRICS) in
      match perform get (world st) with
      | (inl x, w1) =>
          (inl x, {| self := self st; world := w1;
                     calls := calls st ++ [get]; warnings := warnings st |})
      | (inr a, w1) =>
          (match fst (perform (Artifact_update a metrics) w1) with
           | inl x => inl x
           | inr _ => inr tt
           end,
           {| self := self st;
              world := snd (perform (Artifact_update a metrics) w1);
              calls := calls st ++ [get; Artifact_update a metrics];
              warnings := warnings st |})
      end
  end.
Proof.
  destruct st as [[oe orun om] w cs ws]; simpl; intros -> -> ->.
  unfold MetadataService.log_metrics, MetadataService._validate_experiment_and_run,
    bind, field, gets, raise_if, ret, getattr, lift_result, call; simpl.
  destruct (_validate_metrics_value_type metrics) as [x | []]; [reflexivity |].
  destruct (perform _ w) as [[x | a] w1]; simpl; [reflexivity |].
  destruct (perform (Artifact_update a metrics) w1) as [[x | a'] w2]; simpl;
    rewrite <- app_assoc; reflexivity.
Qed.

(** [_validate_metrics_value_type] raises before [_metrics] is read. *)
Lemma service_log_metrics_invalid
    (st : Session MetadataService.fields W) (e r : Resource)
    (metrics : dict PyValue) (x : Exn) :
  MetadataService._experiment (self st) = Some e ->
  MetadataService._run (self st) = Some r ->
  _validate_metrics_value_type metrics = inl x ->
  MetadataService.log_metrics metrics st = (inl x, st).
Proof.
  destruct st as [[oe orun om] w cs ws]; simpl; intros -> -> Hv.
  unfold MetadataService.log_metrics, MetadataService._validate_experiment_and_run,
    bind, field, gets, raise_if, ret, lift_result; simpl.
  rewrite Hv; reflexivity.
Qed.

(** [_ExperimentTracker.log_metrics] with an experiment and a run: its one
    call is [ExperimentRun.log_metrics], on the mapping as it came. *)
Lemma tracker_log_metrics_outcome
    (t : Session ExperimentTracker.fields W) (e run : Resource)
    (metrics : dict PyValue) :
  ExperimentTracker._experiment (self t) = Some e ->
  ExperimentTracker._experiment_run (self t) = Some run ->
  ExperimentTracker.log_metrics metrics t =
  match perform (ExperimentRun_log_metrics run metrics) (world t) with
  | (inl x, w1) =>
      (inl x, {| self := self t; world := w1;
                 calls := calls t ++ [ExperimentRun_log_metrics run metrics];
                 warnings := warnings t |})
  | (inr run', w1) =>
      (inr tt,
       {| self := {| ExperimentTracker._experiment := Some e;
                     ExperimentTracker._experiment_run := Some run' |};
          world := w1;
          calls := calls t ++ [ExperimentRun_log_metrics run metrics];
          warnings := warnings t |})
  end.
Proof.
  destruct t as [[oe orun] w cs ws]; simpl; intros -> ->.
  unfold ExperimentTracker.log_metrics,
    ExperimentTracker._validate_experiment_and_run,
    ExperimentTracker.set__experiment_run,
    bind, field, gets, raise_if, ret, getattr, call, assign, modify; simpl.
  destruct (perform _ w) as [[x | run'] w1]; reflexivity.
Qed.

End LogMetrics.

(** C3. With a run active, a metrics mapping that holds a value that is
    neither integer nor float makes [log_metrics] raise [TypeError], with
    the message that names the key, the value and the type of an offending
    entry (the first one), before anything remote is touched.
    [_MetadataService.log_metrics] checks the values itself, before its
    first call: whatever the collaborators, the session is as it was and
    no call has been issued.  [_ExperimentTracker.log_metrics] checks
    nothing itself: it hands the mapping to [ExperimentRun.log_metrics],
    the method of the run object it holds, and on the store that method
    raises the same error before it reaches the store, so that the store
    is as it was, a pending fault included, and so is the tracker. *)
Theorem log_metrics_rejects_non_numeric
    {W : Type} {R : Remote W} {K : Constants} {RT : Runtime}
    (s : Session MetadataService.fields W) (e r : Resource)
    (t : Session ExperimentTracker.fields Store.t) (e' run : Resource)
    (metrics : dict PyValue) (k : string) (v : PyValue) :
  MetadataService._experiment (self s) = Some e ->
  MetadataService._run (self s) = Some r ->
  ExperimentTracker._experiment (self t) = Some e' ->
  ExperimentTracker._experiment_run (self t) = Some run ->
  In (k, v) metrics ->
  isinstance_int v || isinstance_float v = false ->
  (exists key value,
     In (key, value) metrics
     /\ isinstance_int value || isinstance_float value = false
     /\ MetadataService.log_metrics metrics s
        = (inl (TypeError
                  ("metrics contain unsupported value types. key: " ++ key
                   ++ "; value: " ++ py_str value
                   ++ "; type: " ++ py_type value)), s)
     /\ ExperimentTracker.log_metrics (R := Store.remote) metrics t
        = (inl (TypeError
                  ("metrics contain unsupported value types. key: " ++ key
                   ++ "; value: " ++ py_str value
                   ++ "; type: " ++ py_type value)),
           {| self := self t; world := world t;
              calls := calls t ++ [ExperimentRun_log_metrics run metrics];
              warnings := warnings t |}))
  /\ calls (snd (MetadataService.log_metrics metrics s)) = calls s
  /\ world (snd (MetadataService.log_metrics metrics s)) = world s
  /\ world (snd (ExperimentTracker.log_metrics (R := Store.remote) metrics t))
     = world t
  /\ self (snd (ExperimentTracker.log_metrics (R := Store.remote) metrics t))
     = self t.
Proof.
  intros He Hr He' Hrun Hin Hv.
  destruct (validate_metrics_rejects metrics k v Hin Hv)
    as (key & value & H1 & H2 & H3).
  rewrite (service_log_metrics_invalid s metrics He Hr H3).
  assert (Ht : ExperimentTracker.log_metrics (R := Store.remote) metrics t
               = (inl (TypeError (unsupported_metric_msg key value)),
                  {| self := self t; world := world t;
                     calls := calls t ++ [ExperimentRun_log_metrics run metrics];
                     warnings := warnings t |})).
  { rewrite (tracker_log_metrics_outcome t metrics He' Hrun).
    unfold perform, Store.remote; simpl.
    unfold Store.experiment_run_log_metrics, bind, lift_result.
    rewrite H3. reflexivity. }
  rewrite Ht.
  split; [exists key, value; repeat split; assumption |].
  repeat split.
Qed.

(** [log_metrics({"a": "x"})] with a run active.  On the legacy service no
    call is counted; on the tracker, with the store unreachable, the error
    is the type error and the fault is still pending. *)
Lemma log_metrics_rejects_non_numeric_witness :
  calls (snd (MetadataService.log_metrics
                (R := Demo.remote) (K := Demo.constants) (RT := Demo.runtime)
                [("a", PyStr "x")] (Demo.session Demo.service Demo.store)))
  = []
  /\ fst (ExperimentTracker.log_metrics (R := Demo.remote) [("a", PyStr "x")]
            (Demo.session Demo.tracker (Demo.unavailable Demo.store)))
     = inl (TypeError
              "metrics contain unsupported value types. key: a; value: x; type: <class 'str'>")
  /\ Store.faults
       (world (snd (ExperimentTracker.log_metrics (R := Demo.remote)
                      [("a", PyStr "x")]
                      (Demo.session Demo.tracker (Demo.unavailable Demo.store)))))
     = [Some (RemoteError "503 Service Unavailable")].
Proof.
  destruct (@log_metrics_rejects_non_numeric Store.t Demo.remote Demo.constants
              Demo.runtime
              (Demo.session Demo.service Demo.store) Demo.experiment
              Demo.legacy_run
              (Demo.session Demo.tracker (Demo.unavailable Demo.store))
              Demo.experiment Demo.run
              [("a", PyStr "x")] "a" (PyStr "x")
              eq_refl eq_refl eq_refl eq_refl (or_introl eq_refl) eq_refl)
    as ((key & value & Hin & _ & _ & Ht) & Hcalls & _ & Hworld & _).
  split; [exact Hcalls |].
  split.
  - destruct Hin as [[= <- <-] | []]. unfold Demo.remote. rewrite Ht.
    reflexivity.
  - unfold Demo.remote. rewrite Hworld. reflexivity.
Defined.

(** C10. A boolean passes [_validate_metrics_value_type], because a [bool]
    is an [int]: with a run active, [log_metrics({"flag": True})] raises no
    type error, fetches the metrics artifact and, when that call returns,
    sends the mapping with the boolean in it to the remote update. *)
Theorem log_metrics_accepts_bool
    {W : Type} {R : Remote W} {K : Constants} {RT : Runtime}
    (s : Session MetadataService.fields W) (e r m a : Resource) (w1 : W)
    (key : string) (b : bool) :
  MetadataService._experiment (self s) = Some e ->
  MetadataService._run (self s) = Some r ->
  MetadataService._metrics (self s) = Some m ->
  perform (Artifact_get_or_create (name m) SYSTEM_METRICS
             (SCHEMA_VERSIONS SYSTEM_METRICS)) (world s) = (inr a, w1) ->
  isinstance_int (PyBool b) = true
  /\ _validate_metrics_value_type [(key, PyBool b)] = inr tt
  /\ MetadataService.log_metrics [(key, PyBool b)] s
     = (match fst (perform (Artifact_update a [(key, PyBool b)]) w1) with
        | inl x => inl x
        | inr _ => inr tt
        end,
        {| self := self s;
           world := snd (perform (Artifact_update a [(key, PyBool b)]) w1);
           calls := calls s
                    ++ [Artifact_get_or_create (name m) SYSTEM_METRICS
                          (SCHEMA_VERSIONS SYSTEM_METRICS);
                        Artifact_update a [(key, PyBool b)]];
           warnings := warnings s |}).
Proof.
  intros He Hr Hm Hget.
  split; [reflexivity |]. split; [reflexivity |].
  rewrite (service_log_metrics_outcome s [(key, PyBool b)] He Hr Hm).
  simpl. rewrite Hget. reflexivity.
Qed.

(** [log_metrics({"flag": True})] reaches the store: the artifact of the
    run holds the boolean afterwards. *)
Lemma log_metrics_accepts_bool_witness :
  fst (MetadataService.log_metrics
         (R := Demo.remote) (K := Demo.constants) (RT := Demo.runtime)
         [("flag", PyBool true)] (Demo.session Demo.service Demo.store))
  = inr tt
  /\ option_map metadata
       (dict_get
          (Store.artifacts
             (world (snd (MetadataService.log_metrics
                            (R := Demo.remote) (K := Demo.constants)
                            (RT := Demo.runtime)
                            [("flag", PyBool true)]
                            (Demo.session Demo.service Demo.store)))))
          "exp-1-run-1-metrics")
     = Some [("flag", PyBool true)].
Proof.
  rewrite (proj2 (proj2
    (@log_metrics_accepts_bool Store.t Demo.remote Demo.constants Demo.runtime
       (Demo.session Demo.service Demo.store)
       Demo.experiment Demo.legacy_run Demo.legacy_metrics
       Demo.legacy_metrics Demo.store "flag" true
       eq_refl eq_refl eq_refl eq_refl))).
  split; reflexivity.
Defined.

(** ** Setting the experiment *)

Section SetExperiment.
Context {W : Type} {R : Remote W} {K : Constants}.

(** [_ExperimentTracker.set_experiment], outcome by outcome. *)
Lemma tracker_set_experiment_outcome
    (t : Session ExperimentTracker.fields W)
    (experiment : string) (description : option string) (tb : Tensorboard) :
  ExperimentTracker.set_experiment experiment description tb t =
  let get := Experiment_get_or_create experiment description in
  match perform get (world t) with
  | (inl x, w1) =>
      (inl x, {| self := ExperimentTracker.init; world := w1;
                 calls := calls t ++ [get]; warnings := warnings t |})
  | (inr ex, w1) =>
      if tb_truthy tb then
        let bind_tb := Experiment_assign_backing_tensorboard ex tb in
        match perform bind_tb w1 with
        | (inl x, w2) =>
            (inl x, {| self := ExperimentTracker.init; world := w2;
                       calls := calls t ++ [get; bind_tb];
                       warnings := warnings t |})
        | (inr ex', w2) =>
            (inr tt,
             {| self := {| ExperimentTracker._experiment := Some ex';
                           ExperimentTracker._experiment_run := None |};
                world := w2; calls := calls t ++ [get; bind_tb];
                warnings := warnings t |})
        end
      else
        (inr tt,
         {| self := {| ExperimentTracker._experiment := Some ex;
                       ExperimentTracker._experiment_run := None |};
            world := w1; calls := calls t ++ [get]; warnings := warnings t |})
  end.
Proof.
  destruct t as [[oe orun] w cs ws].
  unfold ExperimentTracker.set_experiment, ExperimentTracker.reset,
    ExperimentTracker.set__experiment, bind, call, assign, modify, ret; simpl.
  destruct (perform _ w) as [[x | ex] w1]; simpl; [reflexivity |].
  destruct (tb_truthy tb); simpl; [| reflexivity].
  destruct (perform _ w1) as [[x | ex'] w2]; simpl;
    rewrite <- app_assoc; reflexivity.
Qed.

(** [_MetadataService.set_experiment] starts with the call on the metadata
    store; the fields are reset after it returns. *)
Lemma service_set_experiment_store_call
    (s : Session MetadataService.fields W)
    (experiment : string) (description : option string) :
  match perform MetadataStore_get_or_create (world s) with
  | (inl x, w0) =>
      MetadataService.set_experiment experiment description s
      = (inl x, {| self := self s; world := w0;
                   calls := calls s ++ [MetadataStore_get_or_create];
                   warnings := warnings s |})
  | (inr _, w0) =>
      forall x s',
        MetadataService.set_experiment experiment description s = (inl x, s') ->
        self s' = MetadataService.init
  end.
Proof.
  destruct s as [f w cs ws].
  unfold MetadataService.set_experiment, MetadataService.reset,
    bind, call, assign, modify, ret, raise_if, raise; simpl.
  destruct (perform MetadataStore_get_or_create w) as [[x | []] w0]; simpl;
    [reflexivity |].
  intros x s'.
  destruct (perform _ w0) as [[x1 | ctx] w1]; simpl;
    [intros [= _ <-]; reflexivity |].
  destruct (negb (schema_title ctx =? SYSTEM_EXPERIMENT)); simpl;
    [intros [= _ <-]; reflexivity |].
  destruct description as [d |]; simpl; [| discriminate].
  destruct (str_truthy d && negb (description_of ctx =? d)); simpl;
    [| discriminate].
  destruct (perform _ w1) as [[x2 | ctx'] w2]; simpl;
    [intros [= _ <-]; reflexivity | discriminate].
Qed.

End SetExperiment.

(** C8, as the code has it.  [_ExperimentTracker.set_experiment] resets
    the fields before its first call: whenever it raises, no experiment
    and no run are left active.  [_MetadataService.set_experiment] first
    calls [_MetadataStore.get_or_create]: when that call raises the fields
    are as they were; once it has returned the fields are reset, and a
    failure of what follows (the get-or-create of the context, the check
    of the schema title, the update of the description) leaves no
    experiment, run or metrics artifact active. *)
Theorem set_experiment_failure_clears
    {W : Type} {R : Remote W} {K : Constants}
    (experiment : string) (description : option string) (tb : Tensorboard)
    (t : Session ExperimentTracker.fields W)
    (s : Session MetadataService.fields W) :
  (forall x t',
     ExperimentTracker.set_experiment experiment description tb t = (inl x, t') ->
     self t' = ExperimentTracker.init)
  /\ (forall x w0,
        perform MetadataStore_get_or_create (world s) = (inl x, w0) ->
        MetadataService.set_experiment experiment description s
        = (inl x, {| self := self s; world := w0;
                     calls := calls s ++ [MetadataStore_get_or_create];
                     warnings := warnings s |}))
  /\ (forall w0 x s',
        perform MetadataStore_get_or_create (world s) = (inr tt, w0) ->
        MetadataService.set_experiment experiment description s = (inl x, s') ->
        self s' = MetadataService.init).
Proof.
  split; [| split].
  - intros x t'. rewrite tracker_set_experiment_outcome; simpl.
    destruct (perform _ (world t)) as [[x1 | ex] w1];
      [intros [= _ <-]; reflexivity |].
    destruct (tb_truthy tb); [| discriminate].
    destruct (perform _ w1) as [[x2 | ex'] w2];
      [intros [= _ <-]; reflexivity | discriminate].
  - intros x w0 H.
    pose proof (service_set_experiment_store_call s experiment description) as L.
    rewrite H in L. exact L.
  - intros w0 x s' H.
    pose proof (service_set_experiment_store_call s experiment description) as L.
    rewrite H in L. apply L.
Qed.

(** Switching experiments on a tracker with a run active while the service
    cannot be reached: the tracker ends up empty. *)
Lemma set_experiment_failure_clears_witness :
  self (snd (ExperimentTracker.set_experiment (R := Demo.remote)
               "exp-2" None TbNone
               (Demo.session Demo.tracker (Demo.unavailable Demo.store))))
  = ExperimentTracker.init.
Proof.
  apply (proj1 (@set_experiment_failure_clears Store.t Demo.remote
                  Demo.constants "exp-2" None TbNone
                  (Demo.session Demo.tracker (Demo.unavailable Demo.store))
                  (Demo.session Demo.service (Demo.unavailable Demo.store)))
               (RemoteError "503 Service Unavailable")).
  reflexivity.
Defined.

(** C8, as stated, fails for [_MetadataService]: its first remote call is
    issued before the fields are cleared, and when that call raises, the
    experiment and the run that were active still are. *)
Lemma service_set_experiment_keeps_state_on_store_failure :
  let out :=
    MetadataService.set_experiment (R := Demo.remote) (K := Demo.constants)
      "exp-2" None
      (Demo.session Demo.service (Demo.unavailable Demo.store)) in
  fst out = inl (RemoteError "503 Service Unavailable")
  /\ calls (snd out) = [MetadataStore_get_or_create]
  /\ MetadataService._experiment (self (snd out)) = Some Demo.experiment
  /\ MetadataService._run (self (snd out)) = Some Demo.legacy_run.
Proof. repeat split. Qed.

(** ** Starting a run *)

Section StartRun.
Context {W : Type} {R : Remote W}.
Import ExperimentTracker.

(** When the implicit end of [start_run] returns, no run is active, the
    experiment is untouched, and the only call issued is the end-call for
    the run that was active. *)
Lemma end_active_run_returns (st st1 : Session fields W) (e : Resource) :
  _experiment (self st) = Some e ->
  end_active_run st = (inr tt, st1) ->
  self st1 = {| _experiment := Some e; _experiment_run := None |}
  /\ calls st1 =
     (calls st ++ match _experiment_run (self st) with
                  | Some r => [ExperimentRun_end_run r COMPLETE]
                  | None => []
                  end)%list.
Proof.
  intros He. unfold end_active_run, bind, field, gets; simpl.
  destruct (_experiment_run (self st)) as [r |] eqn:Hr; simpl.
  - rewrite (end_run_outcome st COMPLETE He Hr).
    intros [= _ <-]; simpl. split; reflexivity.
  - unfold ret. intros [= <-]. rewrite app_nil_r. split; [| reflexivity].
    destruct st as [[oe orun] w cs ws]; simpl in *; subst; reflexivity.
Qed.

(** [start_run] on a tracker with an experiment: the implicit end, then
    the fetch or the creation. *)
Lemma start_run_bind (st : Session fields W) (e : Resource)
    (run_name : string) (tb : Tensorboard) (resume : bool) :
  _experiment (self st) = Some e ->
  start_run run_name tb resume st
  = (end_active_run ;; start_run_body e run_name tb resume) st.
Proof.
  destruct st as [[oe orun] w cs ws]; simpl; intros ->.
  unfold start_run, end_active_run, start_run_body.
  unfold bind at 1. unfold field at 1, gets; simpl.
  rewrite bind_assoc. reflexivity.
Qed.

Lemma start_run_after_end (st st1 : Session fields W) (e : Resource)
    (run_name : string) (tb : Tensorboard) (resume : bool) :
  _experiment (self st) = Some e ->
  end_active_run st = (inr tt, st1) ->
  start_run run_name tb resume st = start_run_body e run_name tb resume st1.
Proof.
  intros He Hend. rewrite (start_run_bind st run_name tb resume He).
  unfold bind at 1. rewrite Hend. reflexivity.
Qed.

(** The statements after the implicit end, outcome by outcome. *)
Lemma start_run_body_outcome (st1 : Session fields W) (e : Resource)
    (run_name : string) (tb : Tensorboard) (resume : bool) :
  self st1 = {| _experiment := Some e; _experiment_run := None |} ->
  let session active w cs :=
    {| self := {| _experiment := Some e; _experiment_run := active |};
       world := w; calls := calls st1 ++ cs; warnings := warnings st1 |} in
  let fetch := ExperimentRun_init run_name e in
  let create := ExperimentRun_create run_name e tb in
  start_run_body e run_name tb resume st1 =
  if resume then
    match perform fetch (world st1) with
    | (inl x, w1) => (inl x, session None w1 [fetch])
    | (inr run, w1) =>
        if tb_truthy tb then
          let bind_tb := ExperimentRun_assign_backing_tensorboard run tb in
          match perform bind_tb w1 with
          | (inl x, w2) => (inl x, session (Some run) w2 [fetch; bind_tb])
          | (inr run1, w2) =>
              let running := ExperimentRun_update_state run1 RUNNING in
              match perform running w2 with
              | (inl x, w3) =>
                  (inl x, session (Some run1) w3 [fetch; bind_tb; running])
              | (inr run2, w3) =>
                  (inr (Some run2),
                   session (Some run2) w3 [fetch; bind_tb; running])
              end
          end
        else
          let running := ExperimentRun_update_state run RUNNING in
          match perform running w1 with
          | (inl x, w3) => (inl x, session (Some run) w3 [fetch; running])
          | (inr run2, w3) =>
              (inr (Some run2), session (Some run2) w3 [fetch; running])
          end
    end
  else
    match perform create (world st1) with
    | (inl x, w1) => (inl x, session None w1 [create])
    | (inr run, w1) => (inr (Some run), session (Some run) w1 [create])
    end.
Proof.
  intros Hself session fetch create.
  unfold start_run_body.
  destruct st1 as [f1 w1 cs1 ws1]; simpl in Hself; subst f1.
  subst session fetch create.
  destruct resume;
    unfold bind, call, set__experiment_run, assign, modify, field, gets, ret;
    simpl.
  - destruct (perform _ w1) as [[x | run] w2]; simpl; [reflexivity |].
    destruct (tb_truthy tb); simpl.
    + destruct (perform _ w2) as [[x | run1] w3]; simpl;
        [rewrite <- app_assoc; reflexivity |].
      destruct (perform _ w3) as [[x | run2] w4]; simpl;
        repeat rewrite <- app_assoc; reflexivity.
    + destruct (perform _ w2) as [[x | run2] w4]; simpl;
        repeat rewrite <- app_assoc; reflexivity.
  - destruct (perform _ w1) as [[x | run] w2]; reflexivity.
Qed.

(** [start_run], outcome by outcome, once the implicit end has returned. *)
Lemma start_run_outcome (st st1 : Session fields W) (e : Resource)
    (run_name : string) (tb : Tensorboard) (resume : bool) :
  _experiment (self st) = Some e ->
  end_active_run st = (inr tt, st1) ->
  start_run run_name tb resume st = start_run_body e run_name tb resume st1
  /\ self st1 = {| _experiment := Some e; _experiment_run := None |}.
Proof.
  intros He Hend. split.
  - apply (start_run_after_end st run_name tb resume He Hend).
  - apply (end_active_run_returns st He Hend).
Qed.

(** A sequence of calls runs its first part, then the rest. *)
Lemma start_runs_app (l1 l2 : list (string * Tensorboard * bool))
    (st : Session fields W) :
  start_runs (l1 ++ l2) st = (start_runs l1 ;; start_runs l2) st.
Proof.
  revert st. induction l1 as [|[[n tb] resume] l1 IH]; intros st; simpl.
  - reflexivity.
  - rewrite bind_assoc. apply bind_ext. intros _ s1. apply IH.
Qed.

End StartRun.

(** C4. [start_run] with [resume=true] on a tracker with an experiment,
    once the run that was active (if any) has been ended: the run is
    fetched with [ExperimentRun(run_name, experiment)]; an exception of
    that fetch, [NotFound] for a missing resource included, comes out
    unchanged, [ExperimentRun.create] is not called (the fetch is the only
    call issued) and no run is active afterwards; when the fetch returns,
    the tensorboard is bound if one was given, the state of the run is set
    to [RUNNING], and the run becomes the active run. *)
Theorem start_run_resume_surfaces_not_found
    {W : Type} {R : Remote W}
    (st st1 : Session ExperimentTracker.fields W) (e : Resource)
    (run_name : string) (tb : Tensorboard) :
  ExperimentTracker._experiment (self st) = Some e ->
  ExperimentTracker.end_active_run st = (inr tt, st1) ->
  let fetch := ExperimentRun_init run_name e in
  (forall x w1,
     perform fetch (world st1) = (inl x, w1) ->
     ExperimentTracker.start_run run_name tb true st
     = (inl x,
        {| self := {| ExperimentTracker._experiment := Some e;
                      ExperimentTracker._experiment_run := None |};
           world := w1; calls := calls st1 ++ [fetch];
           warnings := warnings st1 |}))
  /\ (forall run w1 run1 w2 run2 w3,
        perform fetch (world st1) = (inr run, w1) ->
        (if tb_truthy tb
         then perform (ExperimentRun_assign_backing_tensorboard run tb) w1
         else (inr run, w1)) = (inr run1, w2) ->
        perform (ExperimentRun_update_state run1 RUNNING) w2 = (inr run2, w3) ->
        ExperimentTracker.start_run run_name tb true st
        = (inr (Some run2),
           {| self := {| ExperimentTracker._experiment := Some e;
                         ExperimentTracker._experiment_run := Some run2 |};
              world := w3;
              calls := calls st1
                       ++ [fetch]
                       ++ (if tb_truthy tb
                           then [ExperimentRun_assign_backing_tensorboard run tb]
                           else [])
                       ++ [ExperimentRun_update_state run1 RUNNING];
              warnings := warnings st1 |})).
Proof.
  intros He Hend fetch. subst fetch.
  destruct (start_run_outcome st run_name tb true He Hend) as [-> Hself].
  rewrite (start_run_body_outcome st1 run_name tb true Hself); simpl.
  split.
  - intros x w1 ->. reflexivity.
  - intros run w1 run1 w2 run2 w3 -> Htb Hrun.
    destruct (tb_truthy tb).
    + rewrite Htb, Hrun. reflexivity.
    + injection Htb as <- <-. rewrite Hrun. reflexivity.
Qed.

(** Resuming a run that does not exist, with another run active: the
    active run is ended, the fetch raises [NotFound], which comes out, and
    the store holds no run of that name afterwards. *)
Lemma start_run_resume_surfaces_not_found_witness :
  let out :=
    ExperimentTracker.start_run (R := Demo.remote) "run-9" TbNone true
      (Demo.session Demo.tracker Demo.store) in
  fst out = inl (NotFound "contexts/exp-1-run-9 was not found.")
  /\ calls (snd out)
     = [ExperimentRun_end_run Demo.run COMPLETE;
        ExperimentRun_init "run-9" Demo.experiment]
  /\ ExperimentTracker._experiment_run (self (snd out)) = None
  /\ dict_get (Store.contexts (world (snd out))) "exp-1-run-9" = None.
Proof.
  cbv zeta.
  rewrite (proj1 (@start_run_resume_surfaces_not_found Store.t Demo.remote
             (Demo.session Demo.tracker Demo.store)
             (snd (ExperimentTracker.end_active_run (R := Demo.remote)
                     (Demo.session Demo.tracker Demo.store)))
             Demo.experiment "run-9" TbNone eq_refl eq_refl)
           (NotFound "contexts/exp-1-run-9 was not found.")
           (world (snd (ExperimentTracker.end_active_run (R := Demo.remote)
                          (Demo.session Demo.tracker Demo.store))))
           eq_refl).
  repeat split.
Defined.

(** ** The experiment table *)

Lemma until_quote_app (s rest : string) :
  Store.has_quote s = false ->
  Store.until_quote (s ++ String "034"%char rest) = Some (s, rest).
Proof.
  induction s as [|c s IH]; simpl; [reflexivity |].
  destruct (Ascii.eqb c "034"%char); simpl; [discriminate |].
  intros H. rewrite (IH H). reflexivity.
Qed.

(** C6. On an empty store, setting experiment ["exp-1"], starting run
    ["run-1"], logging [{"learning_rate": 0.1}] as parameters and
    [{"accuracy": 0.9}] as metrics and then asking for the table of the
    experiment gives exactly one row, [{"experiment_name": "exp-1",
    "run_name": "run-1", "param.learning_rate": 0.1,
    "metric.accuracy": 0.9}]; this for any schema titles (the title of a
    run holding no double quote, which would break the filter of the
    query) and any interpreter that has pandas. *)
Theorem experiment_table_round_trip (K : Constants) (RT : Runtime) :
  Store.has_quote SYSTEM_RUN = false ->
  pandas_installed = true ->
  fst (round_trip (R := Store.remote)
         (Demo.session MetadataService.init Store.empty))
  = inr [[("experiment_name", PyStr "exp-1");
          ("run_name", PyStr "run-1");
          ("param.learning_rate", PyFloat 0x1.999999999999ap-4);
          ("metric.accuracy", PyFloat 0x1.ccccccccccccdp-1)]].
Proof.
  intros Hq Hp.
  unfold round_trip.
  repeat (progress (
    unfold MetadataService.set_experiment, MetadataService.start_run,
      MetadataService.log_params, MetadataService.log_metrics,
      MetadataService.get_experiment_df,
      MetadataService._query_runs_to_data_frame,
      MetadataService._validate_experiment_and_run, MetadataService.reset,
      MetadataService._get_experiment_schema_version,
      bind, ret, call, field, gets, assign, modify, raise_if, raise, getattr,
      lift_result, perform, Store.remote, Store.exec, Store.reach,
      Store.get_or_create, Store.lookup, Store.store, Store.fetch,
      Store.update, Store.add_executions, Store.list_executions,
      Store.artifacts_of, Store.parse_filter, dq, Demo.session;
    cbn;
    rewrite ?String.eqb_refl, ?Hp, ?(until_quote_app _ _ Hq))).
  reflexivity.
Qed.

(** The round trip with the titles and the interpreter of [Demo]. *)
Lemma experiment_table_round_trip_witness :
  fst (round_trip (R := Demo.remote) (K := Demo.constants) (RT := Demo.runtime)
         (Demo.session MetadataService.init Store.empty))
  = inr [[("experiment_name", PyStr "exp-1");
          ("run_name", PyStr "run-1");
          ("param.learning_rate", PyFloat 0x1.999999999999ap-4);
          ("metric.accuracy", PyFloat 0x1.ccccccccccccdp-1)]].
Proof.
  exact (experiment_table_round_trip Demo.constants Demo.runtime eq_refl eq_refl).
Defined.

(** ** The store under the tracker *)

Section StoreFacts.
Context {K : Constants} {RT : Runtime}.
Import Store.

Lemma reach_quiet (w : t) : faults w = [] -> reach w = (inr tt, w).
Proof. unfold reach; intros ->; reflexivity. Qed.

Lemma same_but_refl (k : string) (w : t) : same_but k w w.
Proof. repeat split; auto. Qed.

Lemma same_but_trans (k : string) (w1 w2 w3 : t) :
  same_but k w1 w2 -> same_but k w2 w3 -> same_but k w1 w3.
Proof.
  intros (F1 & G1 & K1) (F2 & G2 & K2). repeat split.
  - rewrite F2; exact F1.
  - intros k' N. rewrite (G2 k' N). apply G1, N.
  - auto.
Qed.

Lemma same_but_put (k : string) (r : Resource) (w : t) :
  name r = k ->
  same_but k w (with_contexts (dict_set (contexts w) (name r) r) w).
Proof.
  intros Hr. rewrite Hr. repeat split; simpl.
  - intros k' N. apply dict_get_set_other. auto.
  - unfold well_keyed; simpl. intros Hwk k' r'. rewrite dict_get_set.
    destruct (k =? k') eqn:E.
    + apply String.eqb_eq in E. intros [= <-]. rewrite Hr. exact E.
    + apply Hwk.
Qed.

Lemma same_but_artifacts (k : string) (a : dict Resource) (w : t) :
  same_but k w (with_artifacts a w).
Proof. repeat split; auto. Qed.

Lemma name_with_parent (p : string) (r : Resource) : name (with_parent p r) = name r.
Proof. unfold with_parent. destruct (mem p (parent_contexts r)); reflexivity. Qed.

(** Setting the state of a run: the run must exist. *)
Lemma set_run_state_spec (run : Resource) (s : State) (w : t) :
  set_run_state run s w =
  match dict_get (contexts w) (name run) with
  | Some r0 =>
      (inr (with_state (Some s) r0),
       with_contexts
         (dict_set (contexts w) (name (with_state (Some s) r0))
            (with_state (Some s) r0)) w)
  | None => (inl (NotFound ("contexts/" ++ name run ++ " was not found.")), w)
  end.
Proof.
  unfold set_run_state, fetch, lookup, store, bind, gets, modify, ret, raise;
    simpl.
  destruct (dict_get (contexts w) (name run)); reflexivity.
Qed.

Lemma set_run_state_same_but (run : Resource) (s : State) (w w' : t)
    (res : Exn + Resource) :
  well_keyed w ->
  set_run_state run s w = (res, w') ->
  same_but (name run) w w'
  /\ (forall r, res = inr r -> name r = name run)
  /\ (forall s0, run_state w run = Some s0 ->
        (exists r, res = inr r) /\ run_state w' run = Some s).
Proof.
  intros Hwk. rewrite set_run_state_spec. unfold run_state.
  destruct (dict_get (contexts w) (name run)) as [r0 |] eqn:E.
  - pose proof (Hwk _ _ E) as Hn. intros [= <- <-].
    split; [apply (same_but_put (with_state (Some s) r0) w Hn) |].
    split; [intros r [= <-]; exact Hn |].
    intros s0 _. split; [eexists; reflexivity |].
    simpl. rewrite Hn, dict_get_set_same. reflexivity.
  - intros [= <- <-].
    split; [apply same_but_refl |]. split; [discriminate | discriminate].
Qed.

(** The calls of [start_run] on a store with no fault pending. *)
Lemma exec_end_run (run : Resource) (s : State) (w w' : t) (res : Exn + unit) :
  faults w = [] -> well_keyed w ->
  exec (ExperimentRun_end_run run s) w = (res, w') ->
  same_but (name run) w w'
  /\ (forall s0, run_state w run = Some s0 ->
        res = inr tt /\ run_state w' run = Some s).
Proof.
  intros Hq Hwk. simpl. unfold bind. rewrite (reach_quiet w Hq).
  destruct (set_run_state run s w) as [[x | r] w1] eqn:E;
    destruct (@set_run_state_same_but run s w _ _ Hwk E) as (H1 & H2 & H3);
    intros [= <- <-]; (split; [exact H1 |]); intros s0 Hs0;
    destruct (H3 s0 Hs0) as [[r' Hr'] Hs]; [discriminate |].
  split; [reflexivity | exact Hs].
Qed.

Lemma exec_update_state (run : Resource) (s : State) (w w' : t)
    (res : Exn + Resource) :
  faults w = [] -> well_keyed w ->
  exec (ExperimentRun_update_state run s) w = (res, w') ->
  same_but (name run) w w' /\ (forall r, res = inr r -> name r = name run).
Proof.
  intros Hq Hwk. simpl. unfold bind. rewrite (reach_quiet w Hq). intros E.
  destruct (@set_run_state_same_but run s w _ _ Hwk E) as (H1 & H2 & _).
  split; assumption.
Qed.

Lemma exec_init (run_name : string) (e : Resource) (w w' : t)
    (res : Exn + Resource) :
  faults w = [] -> well_keyed w ->
  exec (ExperimentRun_init run_name e) w = (res, w') ->
  w' = w /\ (forall r, res = inr r -> name r = name e ++ "-" ++ run_name).
Proof.
  intros Hq Hwk. simpl.
  unfold bind, experiment_run_init, fetch, lookup, bind, gets, raise_if, ret,
    raise.
  rewrite (reach_quiet w Hq). simpl.
  destruct (dict_get (contexts w) _) as [r0 |] eqn:E.
  - destruct (negb (schema_title r0 =? SYSTEM_EXPERIMENT_RUN)); simpl;
      intros [= <- <-]; (split; [reflexivity |]); intros r [= <-].
    apply (Hwk _ _ E).
  - intros [= <- <-]. split; [reflexivity | discriminate].
Qed.

Lemma exec_assign_backing_tensorboard (run : Resource) (tb : Tensorboard)
    (w w' : t) (res : Exn + Resource) :
  faults w = [] ->
  exec (ExperimentRun_assign_backing_tensorboard run tb) w = (res, w') ->
  w' = w /\ res = inr run.
Proof.
  intros Hq. simpl. unfold bind, ret. rewrite (reach_quiet w Hq).
  intros [= <- <-]. split; reflexivity.
Qed.

Lemma get_or_create_contexts (resource_id : string) (dn de : option string)
    (title version : string) (md : dict PyValue) (s : option State)
    (w : t) :
  well_keyed w ->
  exists r w',
    get_or_create Contexts resource_id dn de title version md s w = (inr r, w')
    /\ name r = resource_id /\ same_but resource_id w w'.
Proof.
  intros Hwk.
  unfold get_or_create, lookup, store, bind, gets, modify, ret; simpl.
  destruct (dict_get (contexts w) resource_id) as [r0 |] eqn:E.
  - exists r0, w.
    split; [reflexivity |]. split; [apply (Hwk _ _ E) | apply same_but_refl].
  - eexists; eexists. split; [reflexivity |]. split; [reflexivity |].
    apply (same_but_put (k := resource_id)
             (new_resource "contexts" resource_id dn de title version md s) w).
    reflexivity.
Qed.

Lemma get_or_create_artifacts (k resource_id : string) (dn de : option string)
    (title version : string) (md : dict PyValue) (s : option State)
    (w : t) :
  exists r w',
    get_or_create Artifacts resource_id dn de title version md s w = (inr r, w')
    /\ same_but k w w'.
Proof.
  unfold get_or_create, lookup, store, bind, gets, modify, ret; simpl.
  destruct (dict_get (artifacts w) resource_id) as [r0 |] eqn:E.
  - exists r0, w. split; [reflexivity | apply same_but_refl].
  - eexists; eexists. split; [reflexivity | apply same_but_artifacts].
Qed.

Lemma exec_create (run_name : string) (e : Resource) (tb : Tensorboard)
    (w w' : t) (res : Exn + Resource) :
  faults w = [] -> well_keyed w ->
  exec (ExperimentRun_create run_name e tb) w = (res, w') ->
  same_but (name e ++ "-" ++ run_name) w w'
  /\ (forall r, res = inr r -> name r = name e ++ "-" ++ run_name).
Proof.
  intros Hq Hwk. simpl. unfold bind at 1. rewrite (reach_quiet w Hq).
  unfold experiment_run_create.
  destruct (get_or_create_contexts (name e ++ "-" ++ run_name)
              (Some run_name) None SYSTEM_EXPERIMENT_RUN
              (SCHEMA_VERSIONS SYSTEM_EXPERIMENT_RUN) [] (Some RUNNING) Hwk)
    as (r & w1 & E1 & Hn & S1).
  unfold bind at 1. rewrite E1.
  unfold bind at 1, raise_if.
  destruct (negb (schema_title r =? SYSTEM_EXPERIMENT_RUN)).
  { unfold raise. intros [= <- <-]. split; [exact S1 | discriminate]. }
  unfold ret at 1.
  destruct (get_or_create_artifacts (name e ++ "-" ++ run_name)
              ((name e ++ "-" ++ run_name) ++ "-metrics")
              (Some ((name e ++ "-" ++ run_name) ++ "-metrics")) None
              SYSTEM_METRICS (SCHEMA_VERSIONS SYSTEM_METRICS) [] None w1)
    as (m & w2 & E2 & S2).
  unfold bind at 1. rewrite E2.
  unfold bind at 1.
  destruct (negb (schema_title m =? SYSTEM_METRICS)).
  { unfold raise. intros [= <- <-].
    split; [exact (same_but_trans S1 S2) | discriminate]. }
  unfold ret at 1, bind, store, modify, ret. simpl.
  intros [= <- <-].
  split.
  - apply (same_but_trans (same_but_trans S1 S2)).
    apply same_but_put. rewrite name_with_parent. exact Hn.
  - intros r' [= <-]. rewrite name_with_parent. exact Hn.
Qed.

End StoreFacts.

(** ** The tracker on the store *)

Section TrackerOnStore.
Context {K : Constants} {RT : Runtime}.
Import ExperimentTracker.

(** On a store with no fault pending, the implicit end of [start_run]
    completes the run that was active, if the store has it. *)
Lemma end_active_run_on_store (st st1 : Session fields Store.t) (e : Resource) :
  Store.faults (world st) = [] ->
  Store.well_keyed (world st) ->
  _experiment (self st) = Some e ->
  end_active_run (R := Store.remote) st = (inr tt, st1) ->
  Store.faults (world st1) = []
  /\ Store.well_keyed (world st1)
  /\ (forall prev,
        _experiment_run (self st) = Some prev ->
        In (ExperimentRun_end_run prev COMPLETE) (calls st1)
        /\ Store.same_but (name prev) (world st) (world st1)
        /\ (forall s0,
              Store.run_state (world st) prev = Some s0 ->
              Store.run_state (world st1) prev = Some COMPLETE)).
Proof.
  intros Hq Hwk He. unfold end_active_run, bind, field, gets; simpl.
  destruct (_experiment_run (self st)) as [prev |] eqn:Hr; simpl.
  - rewrite (end_run_outcome st COMPLETE He Hr).
    destruct (perform (ExperimentRun_end_run prev COMPLETE) (world st))
      as [res w1] eqn:E; simpl.
    destruct (@exec_end_run K RT prev COMPLETE (world st) w1 res Hq Hwk E)
      as [S1 S2].
    intros [= _ <-]; simpl.
    pose proof S1 as (F & G & Kp).
    split; [rewrite F; exact Hq |]. split; [auto |].
    intros prev' [= <-].
    split; [apply in_or_app; right; left; reflexivity |].
    split; [exact S1 |].
    intros s0 Hs0. apply (S2 s0 Hs0).
  - unfold ret. intros [= <-].
    split; [exact Hq |]. split; [exact Hwk |]. intros prev; discriminate.
Qed.

(** On such a store, the rest of [start_run], when it returns, leaves the
    run named [{experiment}-{run_name}] active, and has touched no other
    context. *)
Lemma start_run_body_on_store (st1 st' : Session fields Store.t)
    (e : Resource) (run_name : string) (tb : Tensorboard) (resume : bool)
    (v : option Resource) :
  Store.faults (world st1) = [] ->
  Store.well_keyed (world st1) ->
  self st1 = {| _experiment := Some e; _experiment_run := None |} ->
  start_run_body (R := Store.remote) e run_name tb resume st1 = (inr v, st') ->
  exists run',
    v = Some run'
    /\ self st' = {| _experiment := Some e; _experiment_run := Some run' |}
    /\ name run' = name e ++ "-" ++ run_name
    /\ Store.same_but (name e ++ "-" ++ run_name) (world st1) (world st')
    /\ (forall c, In c (calls st1) -> In c (calls st')).
Proof.
  intros Hq Hwk Hself.
  rewrite (start_run_body_outcome st1 run_name tb resume Hself). cbv zeta.
  destruct resume.
  - destruct (perform (ExperimentRun_init run_name e) (world st1))
      as [[x | run] w1] eqn:E1; [discriminate |].
    destruct (@exec_init K RT run_name e (world st1) w1 _ Hq Hwk E1) as [-> Hn].
    specialize (Hn run eq_refl).
    destruct (tb_truthy tb).
    + destruct (perform (ExperimentRun_assign_backing_tensorboard run tb)
                  (world st1)) as [[x | run1] w2] eqn:E2; [discriminate |].
      destruct (@exec_assign_backing_tensorboard K RT run tb (world st1) w2 _
                  Hq E2) as [-> [= ->]].
      destruct (perform (ExperimentRun_update_state run RUNNING) (world st1))
        as [[x | run2] w3] eqn:E3; [discriminate |].
      destruct (@exec_update_state K RT run RUNNING (world st1) w3 _ Hq Hwk E3)
        as [S Hn2].
      intros [= <- <-]. exists run2; simpl.
      split; [reflexivity |]. split; [reflexivity |].
      split; [rewrite (Hn2 run2 eq_refl); exact Hn |].
      split; [rewrite Hn in S; exact S |].
      intros c Hc; apply in_or_app; left; exact Hc.
    + destruct (perform (ExperimentRun_update_state run RUNNING) (world st1))
        as [[x | run2] w3] eqn:E3; [discriminate |].
      destruct (@exec_update_state K RT run RUNNING (world st1) w3 _ Hq Hwk E3)
        as [S Hn2].
      intros [= <- <-]. exists run2; simpl.
      split; [reflexivity |]. split; [reflexivity |].
      split; [rewrite (Hn2 run2 eq_refl); exact Hn |].
      split; [rewrite Hn in S; exact S |].
      intros c Hc; apply in_or_app; left; exact Hc.
  - destruct (perform (ExperimentRun_create run_name e tb) (world st1))
      as [[x | run] w1] eqn:E1; [discriminate |].
    destruct (@exec_create K RT run_name e tb (world st1) w1 _ Hq Hwk E1)
      as [S Hn].
    intros [= <- <-]. exists run; simpl.
    split; [reflexivity |]. split; [reflexivity |].
    split; [exact (Hn run eq_refl) |].
    split; [exact S |].
    intros c Hc; apply in_or_app; left; exact Hc.
Qed.

(** One [start_run] on a store with no fault pending. *)
Lemma start_run_on_store (st st' : Session fields Store.t) (e : Resource)
    (run_name : string) (tb : Tensorboard) (resume : bool)
    (v : option Resource) :
  Store.faults (world st) = [] ->
  Store.well_keyed (world st) ->
  _experiment (self st) = Some e ->
  start_run (R := Store.remote) run_name tb resume st = (inr v, st') ->
  exists run',
    v = Some run'
    /\ self st' = {| _experiment := Some e; _experiment_run := Some run' |}
    /\ name run' = name e ++ "-" ++ run_name
    /\ Store.faults (world st') = []
    /\ Store.well_keyed (world st')
    /\ (forall prev,
          _experiment_run (self st) = Some prev ->
          In (ExperimentRun_end_run prev COMPLETE) (calls st')
          /\ (forall s0,
                Store.run_state (world st) prev = Some s0 ->
                Store.run_state
                  (world (snd (end_active_run (R := Store.remote) st))) prev
                = Some COMPLETE
                /\ (name prev <> name run' ->
                    Store.run_state (world st') prev = Some COMPLETE))).
Proof.
  intros Hq Hwk He H.
  rewrite (start_run_bind st run_name tb resume He) in H.
  apply bind_inr_inv in H. destruct H as ([] & st1 & Hend & Hbody).
  destruct (end_active_run_on_store st Hq Hwk He Hend) as (Hq1 & Hwk1 & Hprev).
  destruct (end_active_run_returns st He Hend) as [Hself _].
  destruct (start_run_body_on_store st1 run_name tb resume Hq1 Hwk1 Hself Hbody)
    as (run' & -> & Hself' & Hn & S & Hcalls).
  exists run'.
  split; [reflexivity |]. split; [exact Hself' |]. split; [exact Hn |].
  destruct S as (F & G & Kp).
  split; [rewrite F; exact Hq1 |]. split; [exact (Kp Hwk1) |].
  intros prev Hr. destruct (Hprev prev Hr) as (Hin & _ & Hstate).
  split; [apply Hcalls, Hin |].
  intros s0 Hs0. rewrite Hend; simpl.
  split; [apply (Hstate s0 Hs0) |].
  intros Hneq. unfold Store.run_state.
  rewrite G; [apply (Hstate s0 Hs0) |].
  rewrite <- Hn. exact Hneq.
Qed.

(** A sequence of [start_run] calls that returns keeps the store sound and
    the experiment set. *)
Lemma start_runs_on_store (runs : list (string * Tensorboard * bool))
    (st st' : Session fields Store.t) (e : Resource) :
  Store.faults (world st) = [] ->
  Store.well_keyed (world st) ->
  _experiment (self st) = Some e ->
  start_runs (R := Store.remote) runs st = (inr tt, st') ->
  Store.faults (world st') = []
  /\ Store.well_keyed (world st')
  /\ _experiment (self st') = Some e.
Proof.
  revert st. induction runs as [|[[n tb] resume] runs IH]; intros st Hq Hwk He.
  - simpl. unfold ret. intros [= <-]. auto.
  - simpl. intros H. apply bind_inr_inv in H.
    destruct H as (v & s1 & H1 & H2).
    destruct (start_run_on_store st n tb resume Hq Hwk He H1)
      as (run' & _ & Hself & _ & Hq1 & Hwk1 & _).
    apply (IH s1 Hq1 Hwk1); [rewrite Hself; reflexivity | exact H2].
Qed.

End TrackerOnStore.

(** ** The store under the legacy service *)

Section ServiceOnStore.
Context {K : Constants} {RT : Runtime}.
Import Store.

Lemma executions_keep_state_refl (w : t) : executions_keep_state w w.
Proof. split; [reflexivity |]. intros k r H. exists r. auto. Qed.

Lemma executions_keep_state_trans (w1 w2 w3 : t) :
  executions_keep_state w1 w2 -> executions_keep_state w2 w3 ->
  executions_keep_state w1 w3.
Proof.
  intros [C1 H1] [C2 H2]. split; [rewrite C2; exact C1 |].
  intros k r E. destruct (H1 k r E) as (r1 & E1 & S1).
  destruct (H2 k r1 E1) as (r2 & E2 & S2).
  exists r2. split; [exact E2 | rewrite S2; exact S1].
Qed.

(** Whatever does not touch the executions and the contexts keeps them. *)
Lemma executions_keep_state_eq (w w' : t) :
  contexts w' = contexts w -> executions w' = executions w ->
  executions_keep_state w w'.
Proof.
  intros C E. split; [exact C |]. rewrite E. intros k r H. exists r. auto.
Qed.

Lemma reach_keeps (w w' : t) (res : Exn + unit) :
  reach w = (res, w') -> executions_keep_state w w'.
Proof.
  unfold reach. destruct (faults w) as [| [x |] rest]; intros [= <- <-];
    apply executions_keep_state_eq; reflexivity.
Qed.

Lemma state_with_parent (p : string) (r : Resource) :
  state (with_parent p r) = state r.
Proof. unfold with_parent. destruct (mem p (parent_contexts r)); reflexivity. Qed.

(** Linking executions under a context changes no key and no state. *)
Lemma dict_get_link (p : string) (names : list string) (d : dict Resource)
    (k : string) :
  dict_get
    (map (fun kr : string * Resource =>
            if mem (resource_name (snd kr)) names
            then (fst kr, with_parent p (snd kr)) else kr) d) k
  = option_map
      (fun r => if mem (resource_name r) names then with_parent p r else r)
      (dict_get d k).
Proof.
  induction d as [| [k0 r0] d IH]; simpl; [reflexivity |].
  destruct (mem (resource_name r0) names) eqn:Em; simpl;
    destruct (k0 =? k); simpl; rewrite ?Em; auto.
Qed.

Lemma exec_legacy_get_or_create (resource_id : string) (dn : option string)
    (title version : string) (w w' : t) (res : Exn + Resource) :
  exec (Execution_get_or_create resource_id dn title version) w = (res, w') ->
  executions_keep_state w w'.
Proof.
  simpl. unfold bind at 1.
  destruct (reach w) as [[x | []] w1] eqn:E1.
  - intros [= <- <-]. apply (reach_keeps _ E1).
  - intros H. apply (executions_keep_state_trans (reach_keeps _ E1)).
    revert H.
    unfold get_or_create, lookup, store, bind, gets, modify, ret; simpl.
    destruct (dict_get (executions w1) resource_id) as [r0 |] eqn:E.
    + intros [= <- <-]. apply executions_keep_state_refl.
    + intros [= <- <-]. split; [reflexivity |]. simpl.
      intros k r Hk. exists r. split; [| reflexivity].
      rewrite dict_get_set_other; [exact Hk |].
      intros ->. rewrite E in Hk. discriminate.
Qed.

Lemma exec_legacy_link (e : Resource) (names : list string) (w w' : t)
    (res : Exn + unit) :
  exec (Context_add_artifacts_and_executions e names) w = (res, w') ->
  executions_keep_state w w'.
Proof.
  simpl. unfold bind at 1.
  destruct (reach w) as [[x | []] w1] eqn:E1.
  - intros [= <- <-]. apply (reach_keeps _ E1).
  - intros H. apply (executions_keep_state_trans (reach_keeps _ E1)).
    revert H. unfold add_executions, modify. intros [= <- <-].
    split; [reflexivity |]. simpl. intros k r Hk.
    rewrite dict_get_link, Hk. simpl.
    destruct (mem (resource_name r) names); eexists; split;
      try reflexivity. apply state_with_parent.
Qed.

Lemma exec_legacy_artifact (resource_id : string) (dn : option string)
    (title version : string) (w w' : t) (res : Exn + Resource) :
  exec (_Artifact_get_or_create resource_id dn title version) w = (res, w') ->
  executions_keep_state w w'.
Proof.
  simpl. unfold bind at 1.
  destruct (reach w) as [[x | []] w1] eqn:E1.
  - intros [= <- <-]. apply (reach_keeps _ E1).
  - intros H. apply (executions_keep_state_trans (reach_keeps _ E1)).
    revert H.
    unfold get_or_create, lookup, store, bind, gets, modify, ret; simpl.
    destruct (dict_get (artifacts w1) resource_id) as [r0 |] eqn:E;
      intros [= <- <-]; apply executions_keep_state_eq; reflexivity.
Qed.

Lemma exec_legacy_event (x : Resource) (names : list string) (input : bool)
    (w w' : t) (res : Exn + unit) :
  exec (Execution__add_artifact x names input) w = (res, w') ->
  executions_keep_state w w'.
Proof.
  simpl. unfold bind at 1.
  destruct (reach w) as [[x0 | []] w1] eqn:E1.
  - intros [= <- <-]. apply (reach_keeps _ E1).
  - intros H. apply (executions_keep_state_trans (reach_keeps _ E1)).
    revert H. unfold modify. intros [= <- <-].
    apply executions_keep_state_eq; reflexivity.
Qed.

(** The legacy [start_run] on the store, when it returns: the run bound is
    the execution that [get_or_create] answered for the id of the new run,
    the four calls are all there is, and every execution the store held,
    the run bound before among them, is in the state it had. *)
Lemma service_start_run_on_store
    (s s' : Session MetadataService.fields t) (e : Resource) (run : string) :
  MetadataService._experiment (self s) = Some e ->
  MetadataService.start_run (R := remote) run s = (inr tt, s') ->
  exists x m,
    fst (perform (Remote := remote)
           (Execution_get_or_create (name e ++ "-" ++ run) (Some run)
              SYSTEM_RUN (SCHEMA_VERSIONS SYSTEM_RUN)) (world s)) = inr x
    /\ self s' = {| MetadataService._experiment := Some e;
                    MetadataService._run := Some x;
                    MetadataService._metrics := Some m |}
    /\ calls s'
       = List.app (calls s)
           [Execution_get_or_create (name e ++ "-" ++ run) (Some run)
              SYSTEM_RUN (SCHEMA_VERSIONS SYSTEM_RUN);
            Context_add_artifacts_and_executions e [resource_name x];
            _Artifact_get_or_create (name e ++ "-" ++ run ++ "-metrics")
              (Some (name e ++ "-" ++ run ++ "-metrics"))
              SYSTEM_METRICS (SCHEMA_VERSIONS SYSTEM_METRICS);
            Execution__add_artifact x [resource_name m] false]
    /\ executions_keep_state (world s) (world s').
Proof.
  remember (@remote K RT) as R0 eqn:HR.
  destruct s as [[oe orun om] w cs ws]; simpl; intros ->.
  unfold MetadataService.start_run, bind, field, gets, call, raise_if, raise,
    ret, assign, modify; simpl.
  destruct (perform _ w) as [[x0 | x] w1] eqn:E1; simpl; [discriminate |].
  destruct (negb (schema_title x =? SYSTEM_RUN)); simpl; [discriminate |].
  destruct (perform _ w1) as [[x0 | []] w2] eqn:E2; simpl; [discriminate |].
  destruct (perform _ w2) as [[x0 | m] w3] eqn:E3; simpl; [discriminate |].
  destruct (negb (schema_title m =? SYSTEM_METRICS)); simpl; [discriminate |].
  destruct (perform _ w3) as [[x0 | []] w4] eqn:E4; simpl; [discriminate |].
  intros [= <-]. exists x, m. simpl.
  split; [reflexivity |]. split; [reflexivity |].
  subst R0. unfold perform, remote in E1, E2, E3, E4.
  split; [repeat rewrite <- app_assoc; reflexivity |].
  apply (executions_keep_state_trans (@exec_legacy_get_or_create _ _ _ _ _ _ _ E1)).
  apply (executions_keep_state_trans (@exec_legacy_link _ _ _ _ _ E2)).
  apply (executions_keep_state_trans (@exec_legacy_artifact _ _ _ _ _ _ _ E3)).
  apply (@exec_legacy_event _ _ _ _ _ _ E4).
Qed.

End ServiceOnStore.

(** C1. On a store with no fault pending, take any sequence of
    [start_run] calls with no [end_run] between them, from a tracker with
    an experiment set, and any call of the sequence that returns (the
    calls before it are [runs]): afterwards the active run is the run that
    this call started, named [{experiment}-{run_name}], and the run that
    was active before the call has had its end-call with [COMPLETE]
    issued; if its remote state was [RUNNING], it is [COMPLETE] once the
    implicit end is done, and still so when the call returns, unless the
    call started that very run again.
    The legacy [_MetadataService.start_run] has no implicit end.  When it
    returns, the run bound is the execution that [get_or_create] answered
    for [{experiment}-{run}]; its four calls are all that was issued, none
    of them an end or a change of state; and every execution the store
    held before the call, the run bound before among them, is still there
    in the remote state it had. *)
Theorem start_runs_latest_run_is_active (K : Constants) (RT : Runtime) :
  (forall (st st' : Session ExperimentTracker.fields Store.t) (e : Resource)
          (runs : list (string * Tensorboard * bool))
          (run_name : string) (tb : Tensorboard) (resume : bool),
     Store.faults (world st) = [] ->
     Store.well_keyed (world st) ->
     ExperimentTracker._experiment (self st) = Some e ->
     ExperimentTracker.start_runs (R := Store.remote)
       (runs ++ [(run_name, tb, resume)]) st = (inr tt, st') ->
     exists st_prev run',
       ExperimentTracker.start_runs (R := Store.remote) runs st
       = (inr tt, st_prev)
       /\ ExperimentTracker.start_run (R := Store.remote) run_name tb resume
            st_prev
          = (inr (Some run'), st')
       /\ self st' = {| ExperimentTracker._experiment := Some e;
                        ExperimentTracker._experiment_run := Some run' |}
       /\ name run' = name e ++ "-" ++ run_name
       /\ (forall prev,
             ExperimentTracker._experiment_run (self st_prev) = Some prev ->
             In (ExperimentRun_end_run prev COMPLETE) (calls st')
             /\ (Store.run_state (world st_prev) prev = Some RUNNING ->
                 Store.run_state
                   (world (snd (ExperimentTracker.end_active_run
                                  (R := Store.remote) st_prev))) prev
                 = Some COMPLETE
                 /\ (name prev <> name run' ->
                     Store.run_state (world st') prev = Some COMPLETE))))
  /\ (forall (s s' : Session MetadataService.fields Store.t) (e : Resource)
             (run : string),
        MetadataService._experiment (self s) = Some e ->
        MetadataService.start_run (R := Store.remote) run s = (inr tt, s') ->
        exists x m,
          fst (perform (Remote := Store.remote)
                 (Execution_get_or_create (name e ++ "-" ++ run) (Some run)
                    SYSTEM_RUN (SCHEMA_VERSIONS SYSTEM_RUN)) (world s))
          = inr x
          /\ self s' = {| MetadataService._experiment := Some e;
                          MetadataService._run := Some x;
                          MetadataService._metrics := Some m |}
          /\ calls s'
             = List.app (calls s)
                 [Execution_get_or_create (name e ++ "-" ++ run) (Some run)
                    SYSTEM_RUN (SCHEMA_VERSIONS SYSTEM_RUN);
                  Context_add_artifacts_and_executions e [resource_name x];
                  _Artifact_get_or_create (name e ++ "-" ++ run ++ "-metrics")
                    (Some (name e ++ "-" ++ run ++ "-metrics"))
                    SYSTEM_METRICS (SCHEMA_VERSIONS SYSTEM_METRICS);
                  Execution__add_artifact x [resource_name m] false]
          /\ executions_keep_state (world s) (world s')).
Proof.
  split.
  - intros st st' e runs run_name tb resume Hq Hwk He H.
    rewrite start_runs_app in H. apply bind_inr_inv in H.
    destruct H as ([] & st_prev & Hruns & Hlast).
    simpl in Hlast. apply bind_inr_inv in Hlast.
    destruct Hlast as (v & st2 & Hrun & Hret).
    unfold ret in Hret. injection Hret as <-.
    destruct (start_runs_on_store runs st Hq Hwk He Hruns) as (Hq1 & Hwk1 & He1).
    destruct (start_run_on_store st_prev run_name tb resume Hq1 Hwk1 He1 Hrun)
      as (run' & -> & Hself & Hn & _ & _ & Hprev).
    exists st_prev, run'.
    split; [exact Hruns |]. split; [exact Hrun |].
    split; [exact Hself |]. split; [exact Hn |].
    intros prev Hr. destruct (Hprev prev Hr) as [Hin Hstate].
    split; [exact Hin |]. intros Hs. apply (Hstate RUNNING Hs).
  - intros s s' e run He H.
    exact (service_start_run_on_store s run He H).
Qed.

Lemma demo_store_well_keyed : Store.well_keyed Demo.store.
Proof.
  intros k r.
  change (dict_get (Store.contexts Demo.store) k)
    with (if "exp-1" =? k then Some Demo.experiment
          else if "exp-1-run-1" =? k then Some Demo.run else None).
  destruct ("exp-1" =? k) eqn:E1.
  { apply String.eqb_eq in E1. intros [= <-]. exact E1. }
  destruct ("exp-1-run-1" =? k) eqn:E2; [| discriminate].
  apply String.eqb_eq in E2. intros [= <-]. exact E2.
Defined.

(** Two runs started one after the other on a tracker whose run ["run-1"]
    is active: the last one is the active run and the two before it are
    [COMPLETE].  One run started on a legacy service whose run ["run-1"]
    is bound: that run is [RUNNING] as before. *)
Lemma start_runs_latest_run_is_active_witness :
  (exists run',
     ExperimentTracker._experiment_run
       (self (snd (ExperimentTracker.start_runs (R := Demo.remote)
                     [("run-2", TbNone, false); ("run-3", TbNone, false)]
                     (Demo.session Demo.tracker Demo.store))))
     = Some run'
     /\ name run' = "exp-1-run-3"
     /\ map (fun kr => (fst kr, state (snd kr)))
          (Store.contexts
             (world (snd (ExperimentTracker.start_runs (R := Demo.remote)
                            [("run-2", TbNone, false); ("run-3", TbNone, false)]
                            (Demo.session Demo.tracker Demo.store)))))
        = [("exp-1", None); ("exp-1-run-1", Some COMPLETE);
           ("exp-1-run-2", Some COMPLETE); ("exp-1-run-3", Some RUNNING)])
  /\ (exists previous,
        dict_get
          (Store.executions
             (world (snd (MetadataService.start_run (R := Demo.remote)
                            (K := Demo.constants) "run-2"
                            (Demo.session Demo.service Demo.store)))))
          "exp-1-run-1" = Some previous
        /\ state previous = Some RUNNING).
Proof.
  split.
  - destruct (proj1 (start_runs_latest_run_is_active Demo.constants Demo.runtime)
                (Demo.session Demo.tracker Demo.store)
                (snd (ExperimentTracker.start_runs (R := Demo.remote)
                        [("run-2", TbNone, false); ("run-3", TbNone, false)]
                        (Demo.session Demo.tracker Demo.store)))
                Demo.experiment [("run-2", TbNone, false)] "run-3" TbNone false
                eq_refl demo_store_well_keyed eq_refl eq_refl)
      as (st_prev & run' & _ & _ & Hself & Hn & _).
    exists run'. rewrite Hself.
    split; [reflexivity |]. split; [exact Hn | reflexivity].
  - destruct (proj2 (start_runs_latest_run_is_active Demo.constants Demo.runtime)
                (Demo.session Demo.service Demo.store)
                (snd (MetadataService.start_run (R := Demo.remote)
                        (K := Demo.constants) "run-2"
                        (Demo.session Demo.service Demo.store)))
                Demo.experiment "run-2" eq_refl eq_refl)
      as (x & m & _ & _ & _ & _ & Hkeep).
    exact (Hkeep "exp-1-run-1" Demo.legacy_run eq_refl).
Defined.

(** The claim on the legacy service: two runs started one after the other
    while ["run-1"] is bound.  The last one is bound, and no run has been
    ended: the three are [RUNNING]. *)
Lemma service_start_run_leaves_previous_run_running :
  let out := bind (MetadataService.start_run (R := Demo.remote)
                     (K := Demo.constants) "run-2")
               (fun _ => MetadataService.start_run (R := Demo.remote)
                           (K := Demo.constants) "run-3")
               (Demo.session Demo.service Demo.store) in
  fst out = inr tt
  /\ option_map name (MetadataService._run (self (snd out)))
     = Some "exp-1-run-3"
  /\ map (fun kr => (fst kr, state (snd kr)))
       (Store.executions (world (snd out)))
     = [("exp-1-run-1", Some RUNNING); ("exp-1-run-2", Some RUNNING);
        ("exp-1-run-3", Some RUNNING)].
Proof. cbv zeta. repeat split; reflexivity. Qed.

(** On the store, [ExperimentRun.log_metrics] checks the values before it
    reaches the store: the tracker raises the type error, and the store is
    as it was. *)
Lemma tracker_log_metrics_rejects_on_store
    {K : Constants} {RT : Runtime}
    (t : Session ExperimentTracker.fields Store.t) (e run : Resource)
    (metrics : dict PyValue) (k : string) (v : PyValue) :
  ExperimentTracker._experiment (self t) = Some e ->
  ExperimentTracker._experiment_run (self t) = Some run ->
  In (k, v) metrics ->
  isinstance_int v || isinstance_float v = false ->
  exists key value,
    In (key, value) metrics
    /\ ExperimentTracker.log_metrics (R := Store.remote) metrics t
       = (inl (TypeError (unsupported_metric_msg key value)),
          {| self := self t; world := world t;
             calls := calls t ++ [ExperimentRun_log_metrics run metrics];
             warnings := warnings t |}).
Proof.
  intros He Hr Hin Hv.
  destruct (validate_metrics_rejects metrics k v Hin Hv)
    as (key & value & H1 & _ & H3).
  exists key, value. split; [exact H1 |].
  rewrite (tracker_log_metrics_outcome t metrics He Hr).
  unfold perform, Store.remote; simpl.
  unfold Store.experiment_run_log_metrics, bind, lift_result.
  rewrite H3. reflexivity.
Qed.

(** The legacy [_MetadataService.start_run], when it returns, has bound
    the new run and its metrics artifact with four calls, none of which
    ends the run that was bound before. *)
Lemma service_start_run_returns
    {W : Type} {R : Remote W} {K : Constants}
    (st st' : Session MetadataService.fields W) (e : Resource) (run : string) :
  MetadataService._experiment (self st) = Some e ->
  MetadataService.start_run run st = (inr tt, st') ->
  exists x m,
    self st' = {| MetadataService._experiment := Some e;
                  MetadataService._run := Some x;
                  MetadataService._metrics := Some m |}
    /\ calls st'
       = List.app (calls st)
           [Execution_get_or_create (name e ++ "-" ++ run) (Some run)
              SYSTEM_RUN (SCHEMA_VERSIONS SYSTEM_RUN);
            Context_add_artifacts_and_executions e [resource_name x];
            _Artifact_get_or_create (name e ++ "-" ++ run ++ "-metrics")
              (Some (name e ++ "-" ++ run ++ "-metrics"))
              SYSTEM_METRICS (SCHEMA_VERSIONS SYSTEM_METRICS);
            Execution__add_artifact x [resource_name m] false].
Proof.
  destruct st as [[oe orun om] w cs ws]; simpl; intros ->.
  unfold MetadataService.start_run, bind, field, gets, call, raise_if, raise,
    ret, assign, modify; simpl.
  destruct (perform _ w) as [[x0 | x] w1]; simpl; [discriminate |].
  destruct (negb (schema_title x =? SYSTEM_RUN)); simpl; [discriminate |].
  destruct (perform _ w1) as [[x0 | []] w2]; simpl; [discriminate |].
  destruct (perform _ w2) as [[x0 | m] w3]; simpl; [discriminate |].
  destruct (negb (schema_title m =? SYSTEM_METRICS)); simpl; [discriminate |].
  destruct (perform _ w3) as [[x0 | []] w4]; simpl; [discriminate |].
  intros [= <-]. exists x, m. simpl.
  split; [reflexivity |]. repeat rewrite <- app_assoc. reflexivity.
Qed.

(** ** The states a tracker can be in *)

Section TrackerStates.
Context {W : Type} {R : Remote W}.
Import ExperimentTracker.

Lemma end_active_run_keeps_experiment (st : Session fields W) (e : Resource) :
  _experiment (self st) = Some e ->
  _experiment (self (snd (end_active_run st))) = Some e.
Proof.
  intros He. unfold end_active_run, bind, field, gets; simpl.
  destruct (_experiment_run (self st)) as [run |] eqn:Hr; simpl.
  - rewrite (end_run_outcome st COMPLETE He Hr). reflexivity.
  - exact He.
Qed.

Lemma start_run_keeps_experiment (st : Session fields W) (e : Resource)
    (run_name : string) (tb : Tensorboard) (resume : bool) :
  _experiment (self st) = Some e ->
  _experiment (self (snd (start_run run_name tb resume st))) = Some e.
Proof.
  intros He. rewrite (start_run_bind st run_name tb resume He).
  pose proof (end_active_run_keeps_experiment st He) as He1.
  unfold bind at 1.
  destruct (end_active_run st) as [[x | []] st1] eqn:Hend; [exact He1 |].
  destruct (end_active_run_returns st He Hend) as [Hself _].
  rewrite (start_run_body_outcome st1 run_name tb resume Hself). cbv zeta.
  destruct resume.
  - destruct (perform _ (world st1)) as [[x | run] w1]; [reflexivity |].
    destruct (tb_truthy tb).
    + destruct (perform _ w1) as [[x | run1] w2]; [reflexivity |].
      destruct (perform _ w2) as [[x | run2] w3]; reflexivity.
    + destruct (perform _ w1) as [[x | run2] w3]; reflexivity.
  - destruct (perform _ (world st1)) as [[x | run] w1]; reflexivity.
Qed.

(** Every request, whether it returns or raises, leaves a run active only
    under an experiment. *)
Lemma serve_run_under_experiment (q : Request) (st : Session fields W) :
  run_under_experiment (self st) ->
  run_under_experiment (self (snd (serve q st))).
Proof.
  intros Hinv.
  destruct q as [| experiment description backing_tensorboard
                 | run_name tensorboard resume | s | params | metrics]; simpl.
  - intros run; discriminate.
  - rewrite tracker_set_experiment_outcome; simpl.
    destruct (perform _ (world st)) as [[x | ex] w1];
      [intros run; discriminate |].
    destruct (tb_truthy backing_tensorboard); [| intros run; discriminate].
    destruct (perform _ w1) as [[x | ex'] w2]; intros run; discriminate.
  - destruct (_experiment (self st)) as [e |] eqn:He.
    + pose proof (start_run_keeps_experiment st run_name tensorboard resume He)
        as Hk.
      unfold bind.
      destruct (start_run run_name tensorboard resume st) as [[x | v] st1];
        simpl in Hk |- *; intros run _; exists e; exact Hk.
    + destruct st as [[oe orun] w cs ws]; simpl in He; subst oe. exact Hinv.
  - destruct (_experiment (self st)) as [e |] eqn:He;
      destruct (_experiment_run (self st)) as [run |] eqn:Hr.
    + rewrite (end_run_outcome st s He Hr); simpl. intros r; discriminate.
    + destruct st as [[oe orun] w cs ws]; simpl in *; subst. exact Hinv.
    + destruct (Hinv run Hr) as [e He']. rewrite He in He'. discriminate.
    + destruct st as [[oe orun] w cs ws]; simpl in *; subst. exact Hinv.
  - destruct st as [[[e |] [run |]] w cs ws]; try exact Hinv.
    unfold log_params, _validate_experiment_and_run, set__experiment_run,
      bind, field, gets, raise_if, ret, getattr, call, assign, modify; simpl.
    destruct (perform _ w) as [[x | run'] w1]; simpl;
      intros r _; exists e; reflexivity.
  - destruct st as [[[e |] [run |]] w cs ws]; try exact Hinv.
    unfold log_metrics, _validate_experiment_and_run, set__experiment_run,
      bind, field, gets, raise_if, ret, getattr, call, assign, modify; simpl.
    destruct (perform _ w) as [[x | run'] w1]; simpl;
      intros r _; exists e; reflexivity.
Qed.

(** X1. Whatever a client calls on a new tracker ([reset],
    [set_experiment], [start_run], [end_run], [log_params],
    [log_metrics]), in any order and whether the calls return or raise, a
    run is active only under an experiment: the state [RUN_ACTIVE] has
    both fields set. *)
Lemma client_run_under_experiment (requests : list Request) (w : W) :
  run_under_experiment
    (self (client requests
             {| self := init; world := w; calls := []; warnings := [] |})).
Proof.
  assert (G : forall st : Session fields W,
             run_under_experiment (self st) ->
             run_under_experiment (self (client requests st))).
  { induction requests as [|q rest IH]; intros st Hinv; simpl.
    - exact Hinv.
    - apply IH, serve_run_under_experiment, Hinv. }
  apply G. intros run; discriminate.
Qed.

End TrackerStates.

(* ===================================================================== *)
(** * Further properties of the two classes *)
(* ===================================================================== *)

(** ** Switching experiments *)

(** X2. [_ExperimentTracker.set_experiment], whether it returns or raises,
    leaves no run active and never issues an end-call: a run that was
    active is dropped from the tracker, and nothing is said to the remote
    store about it.  No warning is logged either. *)
Theorem tracker_set_experiment_drops_run
    {W : Type} {R : Remote W}
    (st st' : Session ExperimentTracker.fields W)
    (experiment : string) (description : option string) (tb : Tensorboard)
    (res : Exn + unit) :
  ExperimentTracker.set_experiment experiment description tb st = (res, st') ->
  ExperimentTracker._experiment_run (self st') = None
  /\ warnings st' = warnings st
  /\ exists issued,
       calls st' = (calls st ++ issued)%list
       /\ forall run s, ~ In (ExperimentRun_end_run run s) issued.
Proof.
  rewrite tracker_set_experiment_outcome; cbv zeta.
  destruct (perform _ (world st)) as [[x | ex] w1].
  - intros [= <- <-]; simpl. repeat split. eexists; split; [reflexivity |].
    intros run s [H | []]; discriminate.
  - destruct (tb_truthy tb).
    + destruct (perform _ w1) as [[x | ex'] w2]; intros [= <- <-]; simpl;
        repeat split; (eexists; split; [reflexivity |]);
        intros run s [H | [H | []]]; discriminate.
    + intros [= <- <-]; simpl. repeat split. eexists; split; [reflexivity |].
      intros run s [H | []]; discriminate.
Qed.

(** Switching to another experiment with run ["run-1"] active: the run is
    dropped, and stays [RUNNING] in the store. *)
Lemma tracker_set_experiment_drops_run_witness :
  let out :=
    ExperimentTracker.set_experiment (R := Demo.remote) "exp-2" None TbNone
      (Demo.session Demo.tracker Demo.store) in
  ExperimentTracker._experiment_run (self (snd out)) = None
  /\ Store.run_state (world (snd out)) Demo.run = Some RUNNING.
Proof.
  cbv zeta. split; [| reflexivity].
  apply (@tracker_set_experiment_drops_run Store.t Demo.remote
           (Demo.session Demo.tracker Demo.store) _ "exp-2" None TbNone
           (fst (ExperimentTracker.set_experiment (R := Demo.remote)
                   "exp-2" None TbNone
                   (Demo.session Demo.tracker Demo.store)))).
  reflexivity.
Defined.

Section ServiceSetExperiment.
Context {W : Type} {R : Remote W} {K : Constants}.

(** X3. When [_MetadataService.set_experiment] returns, the context it got
    from [get_or_create] carries the experiment schema title, and no run
    and no metrics artifact are bound any more.  The description is
    updated remotely only if one is given, is not empty, and differs from
    the stored one; then the update carries the context's own metadata,
    and the experiment bound is the context as the update left it. *)
Theorem service_set_experiment_returns
    (st st' : Session MetadataService.fields W)
    (experiment : string) (description : option string) :
  MetadataService.set_experiment experiment description st = (inr tt, st') ->
  exists w0 ctx w1,
    perform MetadataStore_get_or_create (world st) = (inr tt, w0)
    /\ perform (Context_get_or_create experiment (Some experiment) description
                  SYSTEM_EXPERIMENT (SCHEMA_VERSIONS SYSTEM_EXPERIMENT)
                  EXPERIMENT_METADATA) w0 = (inr ctx, w1)
    /\ schema_title ctx = SYSTEM_EXPERIMENT
    /\ MetadataService._run (self st') = None
    /\ MetadataService._metrics (self st') = None
    /\ let first :=
         [MetadataStore_get_or_create;
          Context_get_or_create experiment (Some experiment) description
            SYSTEM_EXPERIMENT (SCHEMA_VERSIONS SYSTEM_EXPERIMENT)
            EXPERIMENT_METADATA] in
       if match description with
          | Some d => str_truthy d && negb (description_of ctx =? d)
          | None => false
          end
       then
         exists ctx' w2,
           perform (Context_update ctx (metadata ctx) description) w1
           = (inr ctx', w2)
           /\ MetadataService._experiment (self st') = Some ctx'
           /\ world st' = w2
           /\ calls st'
              = (calls st ++ first
                 ++ [Context_update ctx (metadata ctx) description])%list
       else
         MetadataService._experiment (self st') = Some ctx
         /\ world st' = w1
         /\ calls st' = (calls st ++ first)%list.
Proof.
  destruct st as [f w cs ws].
  unfold MetadataService.set_experiment, MetadataService.reset,
    MetadataService._get_experiment_schema_version,
    bind, call, assign, modify, ret, raise_if, raise; simpl.
  destruct (perform MetadataStore_get_or_create w) as [[x | []] w0]; simpl;
    [discriminate |].
  destruct (perform _ w0) as [[x1 | ctx] w1] eqn:E1; simpl; [discriminate |].
  destruct (negb (schema_title ctx =? SYSTEM_EXPERIMENT)) eqn:Es; simpl;
    [discriminate |].
  apply negb_false_iff, String.eqb_eq in Es.
  intros H. exists w0, ctx, w1.
  split; [reflexivity |]. split; [exact E1 |]. split; [exact Es |].
  destruct description as [d |]; simpl in H |- *.
  - destruct (str_truthy d && negb (description_of ctx =? d)); simpl in H |- *.
    + destruct (perform _ w1) as [[x2 | ctx'] w2]; simpl in H; [discriminate |].
      injection H as <-; simpl.
      split; [reflexivity |]. split; [reflexivity |].
      exists ctx', w2. repeat split. repeat rewrite <- app_assoc. reflexivity.
    + injection H as <-; simpl. repeat split.
      repeat rewrite <- app_assoc. reflexivity.
  - injection H as <-; simpl. repeat split.
    repeat rewrite <- app_assoc. reflexivity.
Qed.

End ServiceSetExperiment.

(** Setting a new experiment on the demo service, with a description. *)
Lemma service_set_experiment_returns_witness :
  exists ctx,
    MetadataService._experiment
      (self (snd (MetadataService.set_experiment
                    (R := Demo.remote) (K := Demo.constants)
                    "exp-1" (Some "baseline")
                    (Demo.session Demo.service Demo.store))))
    = Some ctx
    /\ description ctx = "baseline".
Proof.
  destruct (@service_set_experiment_returns Store.t Demo.remote Demo.constants
              (Demo.session Demo.service Demo.store)
              (snd (MetadataService.set_experiment
                      (R := Demo.remote) (K := Demo.constants)
                      "exp-1" (Some "baseline")
                      (Demo.session Demo.service Demo.store)))
              "exp-1" (Some "baseline") eq_refl)
    as (w0 & ctx & w1 & _ & _ & _ & _ & _ & _).
  eexists. split; reflexivity.
Defined.

(** ** Ending and starting runs *)

Section RunLifeCycle.
Context {W : Type} {R : Remote W}.
Import ExperimentTracker.

Lemma end_run_without_run (st : Session fields W) (s : State) :
  _experiment_run (self st) = None ->
  end_run s st =
  (inl (ValueError
          (match _experiment (self st) with
           | None => no_experiment_set_msg "end_run"
           | Some _ => no_run_set_msg "end_run"
           end)), st).
Proof.
  intros Hr. unfold end_run.
  apply bind_raise_l, tracker_validate_no_run, Hr.
Qed.

(** The implicit end of [start_run], for each outcome of the end-call. *)
Lemma end_active_run_outcome (st : Session fields W) (e run : Resource) :
  _experiment (self st) = Some e ->
  _experiment_run (self st) = Some run ->
  end_active_run st = end_run COMPLETE st.
Proof.
  intros He Hr. unfold end_active_run, bind, field, gets; simpl.
  rewrite Hr; reflexivity.
Qed.

End RunLifeCycle.

(** X4. [end_run] is not idempotent: once [end_run] has been called with a
    run active, whether the remote end-call returned or raised, a second
    [end_run] raises the "No run set" error that names [end_run], issues
    no call and changes nothing. *)
Theorem end_run_twice_raises_not_set
    {W : Type} {R : Remote W}
    (st : Session ExperimentTracker.fields W) (e run : Resource)
    (s s' : State) :
  ExperimentTracker._experiment (self st) = Some e ->
  ExperimentTracker._experiment_run (self st) = Some run ->
  ExperimentTracker.end_run s' (snd (ExperimentTracker.end_run s st))
  = (inl (ValueError (no_run_set_msg "end_run")),
     snd (ExperimentTracker.end_run s st)).
Proof.
  intros He Hr.
  rewrite (end_run_without_run (snd (ExperimentTracker.end_run s st)) s').
  - rewrite (end_run_outcome st s He Hr); reflexivity.
  - rewrite (end_run_outcome st s He Hr); reflexivity.
Qed.

Lemma end_run_twice_raises_not_set_witness :
  fst (ExperimentTracker.end_run (R := Demo.remote) FAILED
         (snd (ExperimentTracker.end_run (R := Demo.remote) COMPLETE
                 (Demo.session Demo.tracker Demo.store))))
  = inl (ValueError (no_run_set_msg "end_run")).
Proof.
  rewrite (@end_run_twice_raises_not_set Store.t Demo.remote
             (Demo.session Demo.tracker Demo.store) Demo.experiment Demo.run
             COMPLETE FAILED eq_refl eq_refl).
  reflexivity.
Defined.

(** X5. [start_run] with no experiment set raises [ValueError] at once, in
    both classes: no call is issued, and the session is as it was (in the
    tracker, a run that were active would not even be ended). *)
Theorem start_run_without_experiment
    {W : Type} {R : Remote W} {K : Constants}
    (t : Session ExperimentTracker.fields W)
    (s : Session MetadataService.fields W)
    (run_name : string) (tb : Tensorboard) (resume : bool) :
  ExperimentTracker._experiment (self t) = None ->
  MetadataService._experiment (self s) = None ->
  ExperimentTracker.start_run run_name tb resume t
  = (inl (ValueError
            ("No experiment set for this run. Make sure to call "
             ++ "aiplatform.init(experiment='my-experiment') "
             ++ "before invoking start_run. ")), t)
  /\ MetadataService.start_run run_name s
     = (inl (ValueError
               ("No experiment set for this run. Make sure to call "
                ++ "aiplatform.init(experiment='my-experiment') "
                ++ "before trying to start_run. ")), s).
Proof.
  destruct t as [[oe orun] w cs ws]; destruct s as [[oe' orun' om'] w' cs' ws'];
    simpl; intros -> ->.
  split; reflexivity.
Qed.

Lemma start_run_without_experiment_witness :
  calls (snd (ExperimentTracker.start_run (R := Demo.remote) "run-1" TbNone false
                (Demo.session ExperimentTracker.init Store.empty))) = [].
Proof.
  rewrite (proj1 (@start_run_without_experiment Store.t Demo.remote
                    Demo.constants
                    (Demo.session ExperimentTracker.init Store.empty)
                    (Demo.session MetadataService.init Store.empty)
                    "run-1" TbNone false eq_refl eq_refl)).
  reflexivity.
Defined.

(** X6. When the implicit end of [start_run] raises anything but
    [NotFound], [start_run] raises it and goes no further: the new run is
    neither fetched nor created (the end-call is the only call issued),
    and the run that was active is no longer so. *)
Theorem start_run_stops_when_end_raises
    {W : Type} {R : Remote W}
    (st : Session ExperimentTracker.fields W) (e run : Resource)
    (run_name : string) (tb : Tensorboard) (resume : bool)
    (x : Exn) (w' : W) :
  ExperimentTracker._experiment (self st) = Some e ->
  ExperimentTracker._experiment_run (self st) = Some run ->
  perform (ExperimentRun_end_run run COMPLETE) (world st) = (inl x, w') ->
  is_NotFound x = false ->
  ExperimentTracker.start_run run_name tb resume st
  = (inl x,
     {| self := {| ExperimentTracker._experiment := Some e;
                   ExperimentTracker._experiment_run := None |};
        world := w';
        calls := calls st ++ [ExperimentRun_end_run run COMPLETE];
        warnings := warnings st |}).
Proof.
  intros He Hr Hp Hx.
  rewrite (start_run_bind st run_name tb resume He).
  unfold bind at 1.
  rewrite (end_active_run_outcome st He Hr), (end_run_outcome st COMPLETE He Hr).
  rewrite Hp; simpl. rewrite Hx. reflexivity.
Qed.

Lemma start_run_stops_when_end_raises_witness :
  let out :=
    ExperimentTracker.start_run (R := Demo.remote) "run-2" TbNone false
      (Demo.session Demo.tracker (Demo.unavailable Demo.store)) in
  fst out = inl (RemoteError "503 Service Unavailable")
  /\ ExperimentTracker._experiment_run (self (snd out)) = None
  /\ dict_get (Store.contexts (world (snd out))) "exp-1-run-2" = None.
Proof.
  cbv zeta.
  rewrite (@start_run_stops_when_end_raises Store.t Demo.remote
             (Demo.session Demo.tracker (Demo.unavailable Demo.store))
             Demo.experiment Demo.run "run-2" TbNone false
             (RemoteError "503 Service Unavailable") Demo.store
             eq_refl eq_refl eq_refl eq_refl).
  repeat split.
Defined.

(** X7. When the run that was active is gone remotely, the implicit end of
    [start_run] only logs the warning, and [start_run] goes on: with
    [resume=false] the new run is created in the world the end-call left,
    and becomes the active run. *)
Theorem start_run_after_deleted_run
    {W : Type} {R : Remote W}
    (st : Session ExperimentTracker.fields W) (e run run' : Resource)
    (run_name : string) (tb : Tensorboard) (msg : string) (w1 w2 : W) :
  ExperimentTracker._experiment (self st) = Some e ->
  ExperimentTracker._experiment_run (self st) = Some run ->
  perform (ExperimentRun_end_run run COMPLETE) (world st)
  = (inl (NotFound msg), w1) ->
  perform (ExperimentRun_create run_name e tb) w1 = (inr run', w2) ->
  ExperimentTracker.start_run run_name tb false st
  = (inr (Some run'),
     {| self := {| ExperimentTracker._experiment := Some e;
                   ExperimentTracker._experiment_run := Some run' |};
        world := w2;
        calls := calls st ++ [ExperimentRun_end_run run COMPLETE;
                              ExperimentRun_create run_name e tb];
        warnings := warnings st ++ [ExperimentTracker.not_found_warning run] |}).
Proof.
  intros He Hr Hend Hcreate.
  assert (E : ExperimentTracker.end_active_run st
              = (inr tt,
                 {| self := {| ExperimentTracker._experiment := Some e;
                               ExperimentTracker._experiment_run := None |};
                    world := w1;
                    calls := calls st ++ [ExperimentRun_end_run run COMPLETE];
                    warnings := warnings st
                                ++ [ExperimentTracker.not_found_warning run] |})).
  { rewrite (end_active_run_outcome st He Hr),
      (end_run_outcome st COMPLETE He Hr), Hend. reflexivity. }
  destruct (start_run_outcome st run_name tb false He E) as [-> Hself].
  rewrite (start_run_body_outcome _ run_name tb false Hself); simpl.
  rewrite Hcreate. rewrite <- app_assoc. reflexivity.
Qed.

Lemma start_run_after_deleted_run_witness :
  let out :=
    ExperimentTracker.start_run (R := Demo.remote) "run-2" TbNone false
      (Demo.session Demo.tracker Demo.run_deleted) in
  option_map name (ExperimentTracker._experiment_run (self (snd out)))
  = Some "exp-1-run-2"
  /\ warnings (snd out) = [ExperimentTracker.not_found_warning Demo.run].
Proof.
  cbv zeta.
  rewrite (@start_run_after_deleted_run Store.t Demo.remote
             (Demo.session Demo.tracker Demo.run_deleted)
             Demo.experiment Demo.run
             (Store.with_parent "contexts/exp-1"
                (Store.new_resource "contexts" "exp-1-run-2" (Some "run-2")
                   None "system.ExperimentRun" "0.0.1" [] (Some RUNNING)))
             "run-2" TbNone "contexts/exp-1-run-1 was not found."
             Demo.run_deleted
             (world (snd (ExperimentTracker.start_run (R := Demo.remote)
                            "run-2" TbNone false
                            (Demo.session Demo.tracker Demo.run_deleted))))
             eq_refl eq_refl eq_refl eq_refl).
  split; reflexivity.
Defined.

(** X8. After the implicit end, a failure of [start_run] leaves the
    tracker in one of two states.  If the creation of the run raises, no
    run is active.  If, with [resume=true], the run was fetched (and the
    tensorboard bound) but setting its state to [RUNNING] raises, the
    fetched run is the active run all the same: it was assigned before the
    state was set. *)
Theorem start_run_failure_states
    {W : Type} {R : Remote W}
    (st st1 : Session ExperimentTracker.fields W) (e : Resource)
    (run_name : string) (tb : Tensorboard) :
  ExperimentTracker._experiment (self st) = Some e ->
  ExperimentTracker.end_active_run st = (inr tt, st1) ->
  (forall x w1,
     perform (ExperimentRun_create run_name e tb) (world st1) = (inl x, w1) ->
     ExperimentTracker.start_run run_name tb false st
     = (inl x,
        {| self := {| ExperimentTracker._experiment := Some e;
                      ExperimentTracker._experiment_run := None |};
           world := w1;
           calls := calls st1 ++ [ExperimentRun_create run_name e tb];
           warnings := warnings st1 |}))
  /\ (forall run w1 run1 w2 x w3,
        perform (ExperimentRun_init run_name e) (world st1) = (inr run, w1) ->
        (if tb_truthy tb
         then perform (ExperimentRun_assign_backing_tensorboard run tb) w1
         else (inr run, w1)) = (inr run1, w2) ->
        perform (ExperimentRun_update_state run1 RUNNING) w2 = (inl x, w3) ->
        fst (ExperimentTracker.start_run run_name tb true st) = inl x
        /\ self (snd (ExperimentTracker.start_run run_name tb true st))
           = {| ExperimentTracker._experiment := Some e;
                ExperimentTracker._experiment_run := Some run1 |}
        /\ world (snd (ExperimentTracker.start_run run_name tb true st)) = w3).
Proof.
  intros He Hend. split.
  - intros x w1 Hc.
    destruct (start_run_outcome st run_name tb false He Hend) as [-> Hself].
    rewrite (start_run_body_outcome st1 run_name tb false Hself); simpl.
    rewrite Hc. reflexivity.
  - intros run w1 run1 w2 x w3 Hf Htb Hu.
    destruct (start_run_outcome st run_name tb true He Hend) as [-> Hself].
    rewrite (start_run_body_outcome st1 run_name tb true Hself); simpl.
    rewrite Hf. destruct (tb_truthy tb).
    + rewrite Htb, Hu. repeat split.
    + injection Htb as <- <-. rewrite Hu. repeat split.
Qed.

(** Creating a run while the service cannot be reached, with no run
    active: the tracker still has none. *)
Lemma start_run_failure_states_witness :
  let st :=
    Demo.session
      {| ExperimentTracker._experiment := Some Demo.experiment;
         ExperimentTracker._experiment_run := None |}
      (Demo.unavailable Demo.store) in
  fst (ExperimentTracker.start_run (R := Demo.remote) "run-2" TbNone false st)
  = inl (RemoteError "503 Service Unavailable")
  /\ ExperimentTracker._experiment_run
       (self (snd (ExperimentTracker.start_run (R := Demo.remote)
                     "run-2" TbNone false st))) = None.
Proof.
  cbv zeta.
  rewrite (proj1 (@start_run_failure_states Store.t Demo.remote
             (Demo.session
                {| ExperimentTracker._experiment := Some Demo.experiment;
                   ExperimentTracker._experiment_run := None |}
                (Demo.unavailable Demo.store))
             (Demo.session
                {| ExperimentTracker._experiment := Some Demo.experiment;
                   ExperimentTracker._experiment_run := None |}
                (Demo.unavailable Demo.store))
             Demo.experiment "run-2" TbNone eq_refl eq_refl)
           (RemoteError "503 Service Unavailable") Demo.store eq_refl).
  split; reflexivity.
Defined.

(** ** The legacy service: runs, parameters, metrics *)

(** X9. [_MetadataService.start_run] is not atomic.  If the metrics
    artifact it gets has another schema title, it raises [ValueError]
    naming the run and the title found, and the fields are as they were
    (a run bound before is still bound), although the execution of the new
    run has by then been created and linked to the experiment. *)
Theorem service_start_run_metrics_conflict
    {W : Type} {R : Remote W} {K : Constants}
    (st : Session MetadataService.fields W) (e x m : Resource) (run : string)
    (w1 w2 w3 : W) :
  MetadataService._experiment (self st) = Some e ->
  perform (Execution_get_or_create (name e ++ "-" ++ run) (Some run)
             SYSTEM_RUN (SCHEMA_VERSIONS SYSTEM_RUN)) (world st)
  = (inr x, w1) ->
  schema_title x = SYSTEM_RUN ->
  perform (Context_add_artifacts_and_executions e [resource_name x]) w1
  = (inr tt, w2) ->
  perform (_Artifact_get_or_create (name e ++ "-" ++ run ++ "-metrics")
             (Some (name e ++ "-" ++ run ++ "-metrics"))
             SYSTEM_METRICS (SCHEMA_VERSIONS SYSTEM_METRICS)) w2
  = (inr m, w3) ->
  schema_title m <> SYSTEM_METRICS ->
  MetadataService.start_run run st
  = (inl (ValueError
            ("Run name " ++ run
             ++ " has been used to create other type of resources ("
             ++ schema_title m
             ++ ") in this MetadataStore, please choose a different run name.")),
     {| self := self st; world := w3;
        calls := calls st
                 ++ [Execution_get_or_create (name e ++ "-" ++ run) (Some run)
                       SYSTEM_RUN (SCHEMA_VERSIONS SYSTEM_RUN);
                     Context_add_artifacts_and_executions e [resource_name x];
                     _Artifact_get_or_create (name e ++ "-" ++ run ++ "-metrics")
                       (Some (name e ++ "-" ++ run ++ "-metrics"))
                       SYSTEM_METRICS (SCHEMA_VERSIONS SYSTEM_METRICS)];
        warnings := warnings st |}).
Proof.
  destruct st as [[oe orun om] w cs ws]; simpl.
  intros -> H1 Hx H2 H3 Hm.
  unfold MetadataService.start_run, bind, field, gets, call, raise_if, raise,
    ret, assign, modify; simpl.
  rewrite H1; simpl. rewrite Hx, String.eqb_refl; simpl.
  rewrite H2; simpl. rewrite H3; simpl.
  apply String.eqb_neq in Hm. rewrite Hm; simpl.
  repeat rewrite <- app_assoc. reflexivity.
Qed.

(** A run whose metrics artifact id is taken by a dataset artifact. *)
Lemma service_start_run_metrics_conflict_witness :
  let taken :=
    Store.new_resource "artifacts" "exp-1-run-2-metrics" None None
      "system.Dataset" "0.0.1" [] None in
  let st :=
    Demo.session Demo.service
      (Store.with_artifacts [("exp-1-run-2-metrics", taken)] Demo.store) in
  MetadataService._run
    (self (snd (MetadataService.start_run
                  (R := Demo.remote) (K := Demo.constants) "run-2" st)))
  = Some Demo.legacy_run
  /\ option_map parent_contexts
       (dict_get
          (Store.executions
             (world (snd (MetadataService.start_run
                            (R := Demo.remote) (K := Demo.constants)
                            "run-2" st))))
          "exp-1-run-2")
     = Some ["contexts/exp-1"].
Proof.
  cbv zeta.
  rewrite (@service_start_run_metrics_conflict Store.t Demo.remote
             Demo.constants
             (Demo.session Demo.service
                (Store.with_artifacts
                   [("exp-1-run-2-metrics",
                     Store.new_resource "artifacts" "exp-1-run-2-metrics"
                       None None "system.Dataset" "0.0.1" [] None)]
                   Demo.store))
             Demo.experiment
             (Store.new_resource "executions" "exp-1-run-2" (Some "run-2")
                None "system.Run" "0.0.1" [] (Some RUNNING))
             (Store.new_resource "artifacts" "exp-1-run-2-metrics" None None
                "system.Dataset" "0.0.1" [] None)
             "run-2" _ _ _ eq_refl eq_refl eq_refl eq_refl eq_refl).
  - split; reflexivity.
  - discriminate.
Defined.

(** X10. [_MetadataService.log_params] checks no value: with a run bound,
    any mapping (strings and [None] included) goes to the remote update.
    The execution is fetched again by the name of the bound run, and the
    update is made on the copy fetched, not on the run the service holds. *)
Theorem service_log_params_forwards
    {W : Type} {R : Remote W} {K : Constants}
    (st : Session MetadataService.fields W) (e r x : Resource) (w1 : W)
    (params : dict PyValue) :
  MetadataService._experiment (self st) = Some e ->
  MetadataService._run (self st) = Some r ->
  perform (Execution_get_or_create (name r) None SYSTEM_RUN
             (SCHEMA_VERSIONS SYSTEM_RUN)) (world st) = (inr x, w1) ->
  MetadataService.log_params params st
  = (match fst (perform (Execution_update x params) w1) with
     | inl err => inl err
     | inr _ => inr tt
     end,
     {| self := self st;
        world := snd (perform (Execution_update x params) w1);
        calls := calls st
                 ++ [Execution_get_or_create (name r) None SYSTEM_RUN
                       (SCHEMA_VERSIONS SYSTEM_RUN);
                     Execution_update x params];
        warnings := warnings st |}).
Proof.
  destruct st as [[oe orun om] w cs ws]; simpl; intros -> -> H.
  unfold MetadataService.log_params,
    MetadataService._validate_experiment_and_run,
    bind, field, gets, raise_if, ret, getattr, call; simpl.
  rewrite H; simpl.
  destruct (perform (Execution_update x params) w1) as [[err | x'] w2]; simpl;
    rewrite <- app_assoc; reflexivity.
Qed.

(** A string and [None] logged as parameters reach the store. *)
Lemma service_log_params_forwards_witness :
  option_map metadata
    (dict_get
       (Store.executions
          (world (snd (MetadataService.log_params
                         (R := Demo.remote) (K := Demo.constants)
                         [("optimizer", PyStr "adam"); ("seed", PyNone)]
                         (Demo.session Demo.service Demo.store)))))
       "exp-1-run-1")
  = Some [("optimizer", PyStr "adam"); ("seed", PyNone)].
Proof.
  rewrite (@service_log_params_forwards Store.t Demo.remote Demo.constants
             (Demo.session Demo.service Demo.store)
             Demo.experiment Demo.legacy_run Demo.legacy_run Demo.store
             [("optimizer", PyStr "adam"); ("seed", PyNone)]
             eq_refl eq_refl eq_refl).
  reflexivity.
Defined.

(** X11. [_validate_metrics_value_type] returns exactly on the mappings
    all of whose values are [int] (booleans included) or [float]; the
    empty mapping is one of them. *)
Theorem validate_metrics_value_type_accepts_iff
    {RT : Runtime} (metrics : dict PyValue) :
  _validate_metrics_value_type metrics = inr tt
  <-> (forall key value,
         In (key, value) metrics ->
         isinstance_int value || isinstance_float value = true).
Proof.
  pose proof (validate_metrics_first_offender metrics) as H.
  destruct (_validate_metrics_value_type metrics) as [x | []].
  - destruct H as (before & key & value & after & -> & _ & H2 & _).
    split; [discriminate |].
    intros Hall. rewrite (Hall key value) in H2; [discriminate |].
    apply in_or_app; right; left; reflexivity.
  - split; [intros _; exact H | reflexivity].
Qed.

(** ** Columns, once more *)

Lemma append_inj_r (s a b : string) : s ++ a = s ++ b -> a = b.
Proof.
  induction s as [|c s IH]; simpl; [auto |].
  intros [= H]. apply IH, H.
Qed.

Lemma prefix_app (p k : string) : String.prefix p (p ++ k) = true.
Proof.
  induction p as [|c p IH]; simpl.
  - destruct k; reflexivity.
  - destruct (ascii_dec c c) as [_ | N]; [exact IH | contradiction].
Qed.

Lemma str_drop_app (p k : string) : str_drop (String.length p) (p ++ k) = k.
Proof. induction p as [|c p IH]; simpl; [reflexivity | exact IH]. Qed.

Lemma dict_set_fresh {V : Type} (d : dict V) (k : string) (v : V) :
  ~ In k (dict_keys d) -> dict_set d k v = (d ++ [(k, v)])%list.
Proof.
  induction d as [|[k0 v0] d IH]; simpl; [reflexivity |].
  intros N. destruct (k0 =? k) eqn:E.
  - apply String.eqb_eq in E. exfalso; apply N; left; exact E.
  - rewrite IH; [reflexivity |]. intros H; apply N; right; exact H.
Qed.

(** With an injective naming and distinct keys, the loop appends one
    column per item, in order. *)
Lemma store_all_fresh {V : Type} (f : string -> string) (items acc : dict V) :
  (forall a b, f a = f b -> a = b) ->
  NoDup (dict_keys items) ->
  (forall k, In k (dict_keys items) -> ~ In (f k) (dict_keys acc)) ->
  store_all f items acc
  = (acc ++ map (fun kv => (f (fst kv), snd kv)) items)%list.
Proof.
  intros Hinj. unfold store_all. revert acc.
  induction items as [|[k v] items IH]; intros acc Hnd Hfresh; simpl.
  - rewrite app_nil_r; reflexivity.
  - simpl in Hnd. inversion Hnd as [| ? ? Hk Hnd']; subst.
    rewrite dict_set_fresh by (apply Hfresh; left; reflexivity).
    rewrite IH.
    + rewrite <- app_assoc. reflexivity.
    + exact Hnd'.
    + intros k' Hk'. unfold dict_keys. rewrite map_app, in_app_iff.
      intros [H | [H | []]].
      * apply (Hfresh k'); [right; exact Hk' | exact H].
      * simpl in H. apply Hinj in H. subst k'. apply Hk, Hk'.
Qed.

(** X12. With no prefix to strip ([None] or the empty string) and a
    mapping whose keys are distinct, as those of a [dict] are,
    [_execution_to_column_named_metadata] returns one column per key, in
    the order of the mapping, named [{category}.{key}], with the value of
    the key: nothing is merged, dropped or reordered. *)
Theorem execution_to_column_named_metadata_exact
    (category : string) (metadata : dict PyValue)
    (filter_prefix : option string) :
  opt_truthy filter_prefix = false ->
  NoDup (dict_keys metadata) ->
  _execution_to_column_named_metadata category metadata filter_prefix
  = map (fun kv => (category ++ "." ++ fst kv, snd kv)) metadata.
Proof.
  intros Hp Hnd.
  rewrite execution_to_column_named_metadata_store_all.
  assert (Hcol : forall k,
             column_key category filter_prefix k = category ++ "." ++ k).
  { intros k. unfold column_key, str_join; simpl.
    destruct filter_prefix as [[|a p] |]; simpl in Hp |- *;
      [reflexivity | discriminate | reflexivity]. }
  rewrite store_all_fresh; simpl.
  - apply map_ext. intros [k v]; simpl. rewrite Hcol. reflexivity.
  - intros a b. rewrite !Hcol. intros H.
    apply append_inj_r in H. injection H as H. exact H.
  - exact Hnd.
  - intros k _ [].
Qed.

Lemma execution_to_column_named_metadata_exact_witness :
  _execution_to_column_named_metadata "metric"
    [("accuracy", PyFloat 0x1.ccccccccccccdp-1); ("epochs", PyInt 3)] None
  = [("metric.accuracy", PyFloat 0x1.ccccccccccccdp-1);
     ("metric.epochs", PyInt 3)].
Proof.
  rewrite (@execution_to_column_named_metadata_exact "metric"
             [("accuracy", PyFloat 0x1.ccccccccccccdp-1); ("epochs", PyInt 3)]
             None eq_refl).
  - reflexivity.
  - repeat constructor; simpl; intuition discriminate.
Defined.

(** X13. Stripping a prefix can merge two keys: when the mapping holds
    both [prefix + key] and [key] itself, the two land in the same column
    [{category}.{key}], and the one that comes later in the mapping is the
    one kept. *)
Theorem execution_to_column_named_metadata_merges
    (category prefix key : string) (v1 v2 : PyValue) :
  str_truthy prefix = true ->
  String.prefix prefix key = false ->
  _execution_to_column_named_metadata category
    [(prefix ++ key, v1); (key, v2)] (Some prefix)
  = [(category ++ "." ++ key, v2)].
Proof.
  intros Ht Hk.
  unfold _execution_to_column_named_metadata, column_key, str_join; simpl.
  rewrite Ht, prefix_app, str_drop_app, Hk; simpl.
  rewrite String.eqb_refl. reflexivity.
Qed.

Lemma execution_to_column_named_metadata_merges_witness :
  _execution_to_column_named_metadata "param"
    [("input:lr", PyInt 1); ("lr", PyInt 2)] (Some "input:")
  = [("param.lr", PyInt 2)].
Proof.
  exact (@execution_to_column_named_metadata_merges "param" "input:" "lr"
           (PyInt 1) (PyInt 2) eq_refl eq_refl).
Defined.

(** ** The experiment table, on any store *)

Section TableFacts.
Context {W : Type} {R : Remote W} {K : Constants} {RT : Runtime}.

Lemma dict_update_get_other {V : Type} (d other : dict V) (k : string) :
  ~ In k (dict_keys other) ->
  dict_get (dict_update d other) k = dict_get d k.
Proof.
  unfold dict_update. revert d.
  induction other as [|[k0 v0] other IH]; intros d N; simpl; [reflexivity |].
  rewrite IH by (intros H; apply N; right; exact H).
  apply dict_get_set_other. intros E; apply N; left; exact E.
Qed.

(** The columns of a category all start with the category and a dot. *)
Lemma column_names_of_category (category : string) (metadata : dict PyValue)
    (c : string) :
  In c (dict_keys (_execution_to_column_named_metadata category metadata None)) ->
  exists key, c = category ++ "." ++ key.
Proof.
  unfold dict_keys. rewrite in_map_iff. intros [[c' v] [<- Hin]]; simpl.
  rewrite execution_to_column_named_metadata_store_all in Hin.
  apply store_all_in in Hin. destruct Hin as [[] | (k & _ & ->)].
  exists k. reflexivity.
Qed.

(** A column that is neither a parameter nor a metric survives the
    merges of a row. *)
Lemma row_keeps_column (row : dict PyValue) (artifacts : list Resource)
    (c : string) :
  (forall key, c <> "metric" ++ "." ++ key) ->
  dict_get
    (fold_left
       (fun run_dict metric_artifact =>
          dict_update run_dict
            (_execution_to_column_named_metadata "metric"
               (metadata metric_artifact) None))
       artifacts row) c
  = dict_get row c.
Proof.
  intros Hc. revert row.
  induction artifacts as [|a artifacts IH]; intros row; simpl; [reflexivity |].
  rewrite IH. apply dict_update_get_other.
  intros H. apply column_names_of_category in H. destruct H as [key ->].
  apply (Hc key); reflexivity.
Qed.

(** A loop that returns ran its body on each element, in order. *)
Lemma for_each_returns {S A B : Type} (l : list A) (body : A -> M S B)
    (s s' : S) (ys : list B) :
  for_each l body s = (inr ys, s') ->
  Forall2 (fun x y => exists s1 s2, body x s1 = (inr y, s2)) l ys.
Proof.
  revert s s' ys. induction l as [|x l IH]; intros s s' ys; simpl.
  - unfold ret. intros [= <- _]. constructor.
  - intros H. apply bind_inr_inv in H. destruct H as (y & s1 & Hy & H).
    apply bind_inr_inv in H. destruct H as (ys' & s2 & Hys & H).
    unfold ret in H. injection H as <- _.
    constructor; [exists s, s1; exact Hy | apply (IH _ _ _ Hys)].
Qed.

(** A loop whose body only adds calls only adds calls. *)
Lemma for_each_calls {F A B : Type} (l : list A)
    (body : A -> M (Session F W) B) (s s' : Session F W)
    (r : Exn + list B) :
  (forall x s1 s2 r1, body x s1 = (r1, s2) ->
     forall c, In c (calls s1) -> In c (calls s2)) ->
  for_each l body s = (r, s') ->
  forall c, In c (calls s) -> In c (calls s').
Proof.
  intros Hbody. revert s s' r. induction l as [|x l IH]; intros s s' r; simpl.
  - unfold ret. intros [= _ <-]. auto.
  - unfold bind at 1.
    destruct (body x s) as [[e | y] s1] eqn:Hy.
    + intros [= _ <-]. apply (Hbody _ _ _ _ Hy).
    + unfold bind at 1.
      destruct (for_each l body s1) as [[e | ys] s2] eqn:Hys.
      * intros [= _ <-] c Hc. apply (IH _ _ _ Hys), (Hbody _ _ _ _ Hy), Hc.
      * unfold ret. intros [= _ <-] c Hc.
        apply (IH _ _ _ Hys), (Hbody _ _ _ _ Hy), Hc.
Qed.

(** The loop over the runs of a table only adds calls. *)
Lemma rows_loop_calls {F B : Type} (g : Resource -> list Resource -> B)
    (runs : list Resource) (s s' : Session F W) (r : Exn + list B) :
  for_each runs
    (fun run =>
       artifacts <- call (Execution_query_input_and_output_artifacts run) ;;
       ret (g run artifacts)) s = (r, s') ->
  forall c, In c (calls s) -> In c (calls s').
Proof.
  apply for_each_calls.
  intros x sa sb r1 Hb c Hc.
  unfold bind at 1 in Hb.
  destruct (call (F := F) (Execution_query_input_and_output_artifacts x) sa)
    as [[x1 | arts] sc] eqn:Hq;
    destruct (call_frame _ _ Hq) as (_ & _ & Hcq & _).
  - injection Hb as _ <-. rewrite Hcq. apply in_or_app; left; exact Hc.
  - unfold ret in Hb. injection Hb as _ <-.
    rewrite Hcq. apply in_or_app; left; exact Hc.
Qed.

End TableFacts.

(** X14. [_MetadataService.get_experiment_df] without a name ([None] or the
    empty string) on a service with no experiment set fails with
    [AttributeError] on [self._experiment.name], before any call: it does
    not raise the "No experiment set" error of the other methods. *)
Theorem get_experiment_df_without_experiment
    {W : Type} {R : Remote W} {K : Constants} {RT : Runtime}
    (st : Session MetadataService.fields W) (experiment : option string) :
  MetadataService._experiment (self st) = None ->
  opt_truthy experiment = false ->
  MetadataService.get_experiment_df experiment st
  = (inl (AttributeError "'NoneType' object has no attribute 'name'"), st).
Proof.
  destruct st as [[oe orun om] w cs ws]; simpl; intros -> Ht.
  unfold MetadataService.get_experiment_df. rewrite Ht; reflexivity.
Qed.

Lemma get_experiment_df_without_experiment_witness :
  MetadataService.get_experiment_df
    (R := Demo.remote) (K := Demo.constants) (RT := Demo.runtime) (Some "")
    (Demo.session MetadataService.init Demo.store)
  = (inl (AttributeError "'NoneType' object has no attribute 'name'"),
     Demo.session MetadataService.init Demo.store).
Proof.
  exact (@get_experiment_df_without_experiment Store.t Demo.remote
           Demo.constants Demo.runtime
           (Demo.session MetadataService.init Demo.store) (Some "")
           eq_refl eq_refl).
Defined.

(** X15. A name that resolves to a context of another schema is refused
    before any run is queried: [get_experiment_df] and [get_pipeline_df]
    raise [ValueError] naming the kind asked for and the name given, and
    the lookup of the context is the only call issued.  The experiment
    that is set plays no part when a name is given. *)
Theorem table_of_wrong_schema_is_refused
    {W : Type} {R : Remote W} {K : Constants} {RT : Runtime}
    (st : Session MetadataService.fields W) (name : string)
    (ctx : Resource) (w1 : W) :
  str_truthy name = true ->
  perform (Context_init name) (world st) = (inr ctx, w1) ->
  let refused kind :=
    (inl (ValueError
            ("Please provide a valid " ++ kind ++ " name. " ++ name
             ++ " is not a " ++ kind ++ ".")),
     {| self := self st; world := w1;
        calls := calls st ++ [Context_init name];
        warnings := warnings st |}) in
  (schema_title ctx <> SYSTEM_EXPERIMENT ->
   MetadataService.get_experiment_df (Some name) st = refused "experiment")
  /\ (schema_title ctx <> SYSTEM_PIPELINE ->
      MetadataService.get_pipeline_df name st = refused "pipeline").
Proof.
  destruct st as [f w cs ws]. intros Ht Hp refused; subst refused.
  simpl in Hp.
  split; intros Hs; apply String.eqb_neq in Hs.
  - unfold MetadataService.get_experiment_df; simpl. rewrite Ht; simpl.
    unfold MetadataService._get_experiment_or_pipeline_resource_name,
      bind, call, raise_if, raise, ret; simpl.
    rewrite Hp; simpl. rewrite Hs; reflexivity.
  - unfold MetadataService.get_pipeline_df,
      MetadataService._get_experiment_or_pipeline_resource_name,
      bind, call, raise_if, raise, ret; simpl.
    rewrite Hp; simpl. rewrite Hs; reflexivity.
Qed.

(** Asking for the table of the run's context as if it were an
    experiment. *)
Lemma table_of_wrong_schema_is_refused_witness :
  fst (MetadataService.get_experiment_df
         (R := Demo.remote) (K := Demo.constants) (RT := Demo.runtime)
         (Some "exp-1-run-1") (Demo.session Demo.service Demo.store))
  = inl (ValueError
           "Please provide a valid experiment name. exp-1-run-1 is not a experiment.").
Proof.
  rewrite (proj1 (@table_of_wrong_schema_is_refused Store.t Demo.remote
                    Demo.constants Demo.runtime
                    (Demo.session Demo.service Demo.store) "exp-1-run-1"
                    Demo.run Demo.store eq_refl eq_refl)).
  - reflexivity.
  - discriminate.
Defined.

(** X16. When [_query_runs_to_data_frame] returns, for an experiment or a
    pipeline, the table has one row per execution that the list call
    returned, in the same order, and in each row the name column holds the
    context id and [run_name] the display name of the execution: no
    parameter or metric of the run can overwrite these two columns. *)
Theorem query_runs_rows
    {W : Type} {R : Remote W} {K : Constants} {RT : Runtime}
    (st st' : Session MetadataService.fields W)
    (context_id context_resource_name source : string) (df : DataFrame) :
  source = "experiment" \/ source = "pipeline" ->
  MetadataService._query_runs_to_data_frame context_id context_resource_name
    source st = (inr df, st') ->
  exists runs w1,
    perform (Execution_list
               ("schema_title=" ++ dq ++ SYSTEM_RUN ++ dq
                ++ " AND in_context(" ++ dq ++ context_resource_name ++ dq
                ++ ")")) (world st) = (inr runs, w1)
    /\ Forall2
         (fun run row =>
            dict_get row (source ++ "_name") = Some (PyStr context_id)
            /\ dict_get row "run_name" = Some (PyStr (display_name run)))
         runs df.
Proof.
  intros Hsource H.
  unfold MetadataService._query_runs_to_data_frame in H.
  apply bind_inr_inv in H. destruct H as (runs & s1 & Hlist & H).
  apply bind_inr_inv in H. destruct H as (rows & s2 & Hrows & H).
  apply bind_inr_inv in H. destruct H as ([] & s3 & _ & H).
  unfold ret in H. injection H as <- _.
  destruct (call_frame _ _ Hlist) as (_ & _ & _ & Hp).
  exists runs, (world s1). split; [exact Hp |].
  apply for_each_returns in Hrows.
  eapply Forall2_impl; [| exact Hrows].
  intros run row (sa & sb & Hbody).
  apply bind_inr_inv in Hbody. destruct Hbody as (arts & sc & _ & Hret).
  unfold ret in Hret. injection Hret as <- _.
  assert (Hparam : forall c,
             (forall key, c <> "param" ++ "." ++ key) ->
             dict_get
               (dict_update
                  (dict_set (dict_set [] (source ++ "_name") (PyStr context_id))
                     "run_name" (PyStr (display_name run)))
                  (_execution_to_column_named_metadata "param"
                     (metadata run) None)) c
             = dict_get
                 (dict_set (dict_set [] (source ++ "_name") (PyStr context_id))
                    "run_name" (PyStr (display_name run))) c).
  { intros c Hc. apply dict_update_get_other.
    intros Hin. apply column_names_of_category in Hin.
    destruct Hin as [key ->]. apply (Hc key); reflexivity. }
  split.
  - rewrite row_keeps_column, Hparam;
      destruct Hsource as [-> | ->]; try (intros key; discriminate);
      reflexivity.
  - rewrite row_keeps_column, Hparam; try (intros key; discriminate).
    apply dict_get_set_same.
Qed.

(** The table of the demo experiment once the legacy run is linked to
    it. *)
Lemma query_runs_rows_witness :
  exists runs,
    Forall2
      (fun run row =>
         dict_get row "experiment_name" = Some (PyStr "exp-1")
         /\ dict_get row "run_name" = Some (PyStr (display_name run)))
      runs
      [[("experiment_name", PyStr "exp-1"); ("run_name", PyStr "run-1")]].
Proof.
  destruct (@query_runs_rows Store.t Demo.remote Demo.constants Demo.runtime
              (Demo.session Demo.service
                 (Store.with_executions
                    [("exp-1-run-1",
                      Store.with_parent "contexts/exp-1" Demo.legacy_run)]
                    Demo.store))
              (snd (MetadataService._query_runs_to_data_frame
                      (R := Demo.remote) (K := Demo.constants)
                      (RT := Demo.runtime)
                      "exp-1" "contexts/exp-1" "experiment"
                      (Demo.session Demo.service
                         (Store.with_executions
                            [("exp-1-run-1",
                              Store.with_parent "contexts/exp-1"
                                Demo.legacy_run)]
                            Demo.store))))
              "exp-1" "contexts/exp-1" "experiment"
              [[("experiment_name", PyStr "exp-1"); ("run_name", PyStr "run-1")]]
              (or_introl eq_refl) eq_refl)
    as (runs & w1 & _ & H).
  exists runs. exact H.
Defined.

(** X17. Without pandas, [_query_runs_to_data_frame] never returns a
    table; and the [ImportError] is not raised up front: whatever the
    outcome, the list call has been issued by then. *)
Theorem query_runs_needs_pandas
    {W : Type} {R : Remote W} {K : Constants} {RT : Runtime}
    (st st' : Session MetadataService.fields W)
    (context_id context_resource_name source : string)
    (res : Exn + DataFrame) :
  pandas_installed = false ->
  MetadataService._query_runs_to_data_frame context_id context_resource_name
    source st = (res, st') ->
  (exists x, res = inl x)
  /\ In (Execution_list
           ("schema_title=" ++ dq ++ SYSTEM_RUN ++ dq
            ++ " AND in_context(" ++ dq ++ context_resource_name ++ dq
            ++ ")")) (calls st').
Proof.
  intros Hp H.
  unfold MetadataService._query_runs_to_data_frame in H.
  unfold bind at 1 in H.
  destruct (call (F := MetadataService.fields) (Execution_list _) st)
    as [[x | runs] s1] eqn:Hlist.
  - injection H as <- <-.
    destruct (call_frame _ _ Hlist) as (_ & _ & Hc & _).
    split; [eexists; reflexivity |].
    rewrite Hc. apply in_or_app; right; left; reflexivity.
  - destruct (call_frame _ _ Hlist) as (_ & _ & Hc & _).
    assert (Hin : In (Execution_list
                        ("schema_title=" ++ dq ++ SYSTEM_RUN ++ dq
                         ++ " AND in_context(" ++ dq ++ context_resource_name
                         ++ dq ++ ")")) (calls s1)).
    { rewrite Hc. apply in_or_app; right; left; reflexivity. }
    unfold bind at 1 in H.
    match type of H with
    | context [for_each runs ?b] =>
        destruct (for_each runs b s1) as [[x | rows] s2] eqn:Hrows
    end;
      pose proof (rows_loop_calls _ _ _ Hrows) as Hkeep.
    + injection H as <- <-. split; [eexists; reflexivity | apply Hkeep, Hin].
    + unfold bind, raise_if, raise in H. rewrite Hp in H; simpl in H.
      injection H as <- <-. split; [eexists; reflexivity | apply Hkeep, Hin].
Qed.

(** The table of the demo experiment on an interpreter without pandas. *)
Lemma query_runs_needs_pandas_witness :
  let out :=
    MetadataService.get_experiment_df
      (R := Demo.remote) (K := Demo.constants)
      (RT := {| float_str := fun _ => "0x0p+0"; pandas_installed := false |})
      None (Demo.session Demo.service Demo.store) in
  (exists x, fst out = inl x)
  /\ In (Execution_list
           ("schema_title=" ++ dq ++ "system.Run" ++ dq
            ++ " AND in_context(" ++ dq ++ "contexts/exp-1" ++ dq ++ ")"))
        (calls (snd out)).
Proof.
  cbv zeta.
  apply (@query_runs_needs_pandas Store.t Demo.remote Demo.constants
           {| float_str := fun _ => "0x0p+0"; pandas_installed := false |}
           (Demo.session Demo.service Demo.store) _
           "exp-1" "contexts/exp-1" "experiment" _ eq_refl).
  reflexivity.
Defined.
(* ===================================================================== *)
(** ** The other methods of the two classes *)
(* ===================================================================== *)

Section FurtherFacts.
Context {F W : Type} {R : Remote W} {FR : Further.FurtherRemote W}.

Lemma fcall_eq (c : Further.FurtherCall) (s : Further.FSession F W) :
  Further.fcall c s =
  (Further.raised (fst (Further.perform_further c (world (Further.session s)))),
   Further.after s (snd (Further.perform_further c (world (Further.session s))))
     [] [c]).
Proof.
  unfold Further.fcall, Further.after.
  destruct (Further.perform_further c (world (Further.session s))); simpl.
  rewrite app_nil_r; reflexivity.
Qed.

Lemma fcall_performed (c : Further.FurtherCall) (s : Further.FSession F W)
    (r : Exn + Further.FurtherReply c) (w : W) :
  Further.perform_further c (world (Further.session s)) = (r, w) ->
  Further.fcall c s = (Further.raised r, Further.after s w [] [c]).
Proof. intros H. rewrite fcall_eq, H. reflexivity. Qed.

Lemma earlier_call (c : Call) (s : Further.FSession F W)
    (r : Exn + Reply c) (w : W) :
  perform c (world (Further.session s)) = (r, w) ->
  Further.earlier (call c) s = (Further.raised r, Further.after s w [c] []).
Proof.
  intros H. unfold Further.earlier. rewrite call_eq, H; simpl.
  unfold Further.after. rewrite app_nil_r. reflexivity.
Qed.

Lemma after_after (s : Further.FSession F W) (w w' : W)
    (cs cs' : list Call) (fs fs' : list Further.FurtherCall) :
  Further.after (Further.after s w cs fs) w' cs' fs'
  = Further.after s w' (cs ++ cs') (fs ++ fs').
Proof. unfold Further.after; simpl. rewrite !app_assoc. reflexivity. Qed.

Lemma after_nothing (s : Further.FSession F W) :
  Further.after s (world (Further.session s)) [] [] = s.
Proof.
  destruct s as [[f w cs ws] fs]; unfold Further.after; simpl.
  rewrite !app_nil_r. reflexivity.
Qed.

End FurtherFacts.

Lemma str_in_In (x : string) (l : list string) :
  Further.str_in x l = true <-> In x l.
Proof.
  unfold Further.str_in. rewrite existsb_exists. split.
  - intros [y [Hy E]]. apply String.eqb_eq in E. subst y. exact Hy.
  - intros H. exists x. split; [exact H | apply String.eqb_refl].
Qed.

Lemma str_in_not_In (x : string) (l : list string) :
  Further.str_in x l = false <-> ~ In x l.
Proof.
  rewrite <- str_in_In. destruct (Further.str_in x l); split; intros H;
    try reflexivity; try discriminate; try (intros E; discriminate).
  exfalso; apply H; reflexivity.
Qed.

(** *** [_MetadataService._create_experiment_run_context] *)

(** X18. [_create_experiment_run_context] does not check that an
    experiment is set: without one it ends in the [AttributeError] of
    [None.name], before any collaborator is called. *)
Theorem create_experiment_run_context_without_experiment
    {W : Type} {R : Remote W} {FR : Further.FurtherRemote W} {K : Constants}
    (s : Further.FSession MetadataService.fields W) (run : string) :
  MetadataService._experiment (self (Further.session s)) = None ->
  Further._create_experiment_run_context run s
  = (inl (Further.Exception
            (AttributeError "'NoneType' object has no attribute 'name'")), s).
Proof.
  destruct s as [[[oe orun om] w cs ws] fs]; simpl; intros ->.
  reflexivity.
Qed.

Lemma create_experiment_run_context_without_experiment_witness :
  Further._create_experiment_run_context
    (R := Demo.remote) (FR := Further.answering false) (K := Demo.constants)
    "run-1" (Further.fsession MetadataService.init Demo.store)
  = (inl (Further.Exception
            (AttributeError "'NoneType' object has no attribute 'name'")),
     Further.fsession MetadataService.init Demo.store).
Proof.
  apply (@create_experiment_run_context_without_experiment
           Store.t Demo.remote (Further.answering false) Demo.constants
           (Further.fsession MetadataService.init Demo.store) "run-1").
  reflexivity.
Defined.

(** The call that [_create_experiment_run_context] opens with. *)
Lemma create_experiment_run_context_bind
    {W : Type} {R : Remote W} {FR : Further.FurtherRemote W} {K : Constants}
    (s : Further.FSession MetadataService.fields W) (run : string)
    (e : Resource) (r : Exn + Resource) (w1 : W) :
  MetadataService._experiment (self (Further.session s)) = Some e ->
  perform (Context_get_or_create (name e ++ "-" ++ run) (Some run) None
             SYSTEM_EXPERIMENT_RUN (SCHEMA_VERSIONS SYSTEM_EXPERIMENT_RUN)
             EXPERIMENT_METADATA) (world (Further.session s)) = (r, w1) ->
  Further._create_experiment_run_context run s
  = match r with
    | inl err =>
        (inl (Further.Exception err),
         Further.after s w1
           [Context_get_or_create (name e ++ "-" ++ run) (Some run) None
              SYSTEM_EXPERIMENT_RUN (SCHEMA_VERSIONS SYSTEM_EXPERIMENT_RUN)
              EXPERIMENT_METADATA] [])
    | inr run_context =>
        Further.fbind
          (Further.fraise_if
             (negb (schema_title run_context =? SYSTEM_EXPERIMENT_RUN))
             (ValueError
                ("Run name " ++ run
                 ++ " has been used to create other type of resources ("
                 ++ schema_title run_context ++ ") "
                 ++ "in this MetadataStore, please choose a different run name.")))
          (fun _ =>
             if negb (Further.str_in (resource_name e)
                        (parent_contexts run_context))
             then
               Further.fbind
                 (Further.fcall
                    (Further.Context_add_context_children e [run_context]))
                 (fun _ =>
                    Further.fcall (Further.Context__sync_gca_resource run_context))
             else Further.fret run_context)
          (Further.after s w1
             [Context_get_or_create (name e ++ "-" ++ run) (Some run) None
                SYSTEM_EXPERIMENT_RUN (SCHEMA_VERSIONS SYSTEM_EXPERIMENT_RUN)
                EXPERIMENT_METADATA] [])
    end.
Proof.
  intros He Hp.
  unfold Further._create_experiment_run_context.
  unfold Further.fbind at 1. unfold Further.ffield at 1. rewrite He.
  unfold Further.fbind at 1. unfold Further.fgetattr at 1, Further.fret at 1.
  unfold Further.fbind at 1.
  rewrite (earlier_call _ _ Hp).
  destruct r; reflexivity.
Qed.

(** X19. A run context that already lists the experiment among its parents
    is returned as it was fetched: one call to [get_or_create], and no
    [add_context_children] on the experiment. *)
Theorem create_experiment_run_context_linked
    {W : Type} {R : Remote W} {FR : Further.FurtherRemote W} {K : Constants}
    (s : Further.FSession MetadataService.fields W) (run : string)
    (e run_context : Resource) (w1 : W) :
  MetadataService._experiment (self (Further.session s)) = Some e ->
  perform (Context_get_or_create (name e ++ "-" ++ run) (Some run) None
             SYSTEM_EXPERIMENT_RUN (SCHEMA_VERSIONS SYSTEM_EXPERIMENT_RUN)
             EXPERIMENT_METADATA) (world (Further.session s))
  = (inr run_context, w1) ->
  schema_title run_context = SYSTEM_EXPERIMENT_RUN ->
  In (resource_name e) (parent_contexts run_context) ->
  Further._create_experiment_run_context run s
  = (inr run_context,
     Further.after s w1
       [Context_get_or_create (name e ++ "-" ++ run) (Some run) None
          SYSTEM_EXPERIMENT_RUN (SCHEMA_VERSIONS SYSTEM_EXPERIMENT_RUN)
          EXPERIMENT_METADATA] []).
Proof.
  intros He Hp Ht Hin.
  rewrite (@create_experiment_run_context_bind _ _ _ _ _ _ _ _ _ He Hp).
  rewrite Ht, String.eqb_refl.
  apply str_in_In in Hin.
  unfold Further.fbind, Further.fraise_if; simpl.
  rewrite Hin. reflexivity.
Qed.

(** The run of the example, linked under its experiment in the store. *)
Lemma create_experiment_run_context_linked_witness :
  let w := Store.with_contexts
             [("exp-1", Demo.experiment);
              ("exp-1-run-1", Store.with_parent "contexts/exp-1" Demo.run)]
             Demo.store in
  let out := Further._create_experiment_run_context
               (R := Demo.remote) (FR := Further.answering false)
               (K := Demo.constants)
               "run-1" (Further.fsession Demo.service w) in
  fst out = inr (Store.with_parent "contexts/exp-1" Demo.run)
  /\ Further.issued (snd out) = [].
Proof.
  cbv zeta.
  rewrite (@create_experiment_run_context_linked
             Store.t Demo.remote (Further.answering false) Demo.constants
             (Further.fsession Demo.service
                (Store.with_contexts
                   [("exp-1", Demo.experiment);
                    ("exp-1-run-1", Store.with_parent "contexts/exp-1" Demo.run)]
                   Demo.store))
             "run-1" Demo.experiment
             (Store.with_parent "contexts/exp-1" Demo.run)
             (Store.with_contexts
                [("exp-1", Demo.experiment);
                 ("exp-1-run-1", Store.with_parent "contexts/exp-1" Demo.run)]
                Demo.store)
             eq_refl eq_refl eq_refl).
  - split; reflexivity.
  - simpl. left. reflexivity.
Defined.

(** X20. When the id [<experiment>-<run>] belongs to a context of another
    schema, [_create_experiment_run_context] raises a [ValueError] that
    names the run and the schema found, and links nothing: the only call
    made is the [get_or_create] that found the context. *)
Theorem create_experiment_run_context_other_schema
    {W : Type} {R : Remote W} {FR : Further.FurtherRemote W} {K : Constants}
    (s : Further.FSession MetadataService.fields W) (run : string)
    (e run_context : Resource) (w1 : W) :
  MetadataService._experiment (self (Further.session s)) = Some e ->
  perform (Context_get_or_create (name e ++ "-" ++ run) (Some run) None
             SYSTEM_EXPERIMENT_RUN (SCHEMA_VERSIONS SYSTEM_EXPERIMENT_RUN)
             EXPERIMENT_METADATA) (world (Further.session s))
  = (inr run_context, w1) ->
  schema_title run_context <> SYSTEM_EXPERIMENT_RUN ->
  Further._create_experiment_run_context run s
  = (inl (Further.Exception
            (ValueError
               ("Run name " ++ run
                ++ " has been used to create other type of resources ("
                ++ schema_title run_context
                ++ ") in this MetadataStore, please choose a different run name."))),
     Further.after s w1
       [Context_get_or_create (name e ++ "-" ++ run) (Some run) None
          SYSTEM_EXPERIMENT_RUN (SCHEMA_VERSIONS SYSTEM_EXPERIMENT_RUN)
          EXPERIMENT_METADATA] []).
Proof.
  intros He Hp Ht.
  rewrite (@create_experiment_run_context_bind _ _ _ _ _ _ _ _ _ He Hp).
  apply String.eqb_neq in Ht.
  unfold Further.fbind, Further.fraise_if; rewrite Ht; simpl.
  reflexivity.
Qed.

(** A run named like the experiment's pipeline context. *)
Lemma create_experiment_run_context_other_schema_witness :
  let pipeline := Store.new_resource "contexts" "exp-1-nightly" (Some "nightly")
                    None "system.Pipeline" "0.0.1" [] None in
  let w := Store.with_contexts
             [("exp-1", Demo.experiment); ("exp-1-nightly", pipeline)]
             Demo.store in
  let out := Further._create_experiment_run_context
               (R := Demo.remote) (FR := Further.answering false)
               (K := Demo.constants)
               "nightly" (Further.fsession Demo.service w) in
  fst out
  = inl (Further.Exception
           (ValueError
              "Run name nightly has been used to create other type of resources (system.Pipeline) in this MetadataStore, please choose a different run name."))
  /\ Further.issued (snd out) = []
  /\ Store.contexts (world (Further.session (snd out))) = Store.contexts w.
Proof.
  cbv zeta.
  rewrite (@create_experiment_run_context_other_schema
             Store.t Demo.remote (Further.answering false) Demo.constants
             (Further.fsession Demo.service
                (Store.with_contexts
                   [("exp-1", Demo.experiment);
                    ("exp-1-nightly",
                     Store.new_resource "contexts" "exp-1-nightly"
                       (Some "nightly") None "system.Pipeline" "0.0.1" [] None)]
                   Demo.store))
             "nightly" Demo.experiment
             (Store.new_resource "contexts" "exp-1-nightly"
                (Some "nightly") None "system.Pipeline" "0.0.1" [] None)
             (Store.with_contexts
                [("exp-1", Demo.experiment);
                 ("exp-1-nightly",
                  Store.new_resource "contexts" "exp-1-nightly"
                    (Some "nightly") None "system.Pipeline" "0.0.1" [] None)]
                Demo.store)
             eq_refl eq_refl).
  - repeat split; reflexivity.
  - discriminate.
Defined.

(** X21. A run context that does not list the experiment is linked and
    then read again: [add_context_children] on the experiment with this
    one context, then [_sync_gca_resource] on the context, whose outcome is
    the outcome of the method. *)
Theorem create_experiment_run_context_links
    {W : Type} {R : Remote W} {FR : Further.FurtherRemote W} {K : Constants}
    (s : Further.FSession MetadataService.fields W) (run : string)
    (e run_context : Resource) (w1 w2 w3 : W) (synced : Exn + Resource) :
  MetadataService._experiment (self (Further.session s)) = Some e ->
  perform (Context_get_or_create (name e ++ "-" ++ run) (Some run) None
             SYSTEM_EXPERIMENT_RUN (SCHEMA_VERSIONS SYSTEM_EXPERIMENT_RUN)
             EXPERIMENT_METADATA) (world (Further.session s))
  = (inr run_context, w1) ->
  schema_title run_context = SYSTEM_EXPERIMENT_RUN ->
  ~ In (resource_name e) (parent_contexts run_context) ->
  Further.perform_further
    (Further.Context_add_context_children e [run_context]) w1 = (inr tt, w2) ->
  Further.perform_further
    (Further.Context__sync_gca_resource run_context) w2 = (synced, w3) ->
  Further._create_experiment_run_context run s
  = (Further.raised synced,
     Further.after s w3
       [Context_get_or_create (name e ++ "-" ++ run) (Some run) None
          SYSTEM_EXPERIMENT_RUN (SCHEMA_VERSIONS SYSTEM_EXPERIMENT_RUN)
          EXPERIMENT_METADATA]
       [Further.Context_add_context_children e [run_context];
        Further.Context__sync_gca_resource run_context]).
Proof.
  intros He Hp Ht Hin Hadd Hsync.
  rewrite (@create_experiment_run_context_bind _ _ _ _ _ _ _ _ _ He Hp).
  apply str_in_not_In in Hin.
  rewrite Ht, String.eqb_refl, Hin.
  cbn [negb Further.fraise_if].
  unfold Further.fbind at 1, Further.fret at 1.
  unfold Further.fbind at 1.
  rewrite (@fcall_performed _ _ _ _ (Further.after s w1 _ _) _ w2 Hadd).
  cbn [Further.raised].
  rewrite (@fcall_performed _ _ _ _ (Further.after _ w2 _ _) _ w3 Hsync).
  rewrite !after_after. reflexivity.
Qed.

(** The run of the example, which the store holds under no parent. *)
Lemma create_experiment_run_context_links_witness :
  let out := Further._create_experiment_run_context
               (R := Demo.remote) (FR := Further.answering false)
               (K := Demo.constants)
               "run-1" (Further.fsession Demo.service Demo.store) in
  fst out = inr Demo.run
  /\ Further.issued (snd out)
     = [Further.Context_add_context_children Demo.experiment [Demo.run];
        Further.Context__sync_gca_resource Demo.run].
Proof.
  cbv zeta.
  rewrite (@create_experiment_run_context_links
             Store.t Demo.remote (Further.answering false) Demo.constants
             (Further.fsession Demo.service Demo.store)
             "run-1" Demo.experiment Demo.run Demo.store Demo.store Demo.store
             (inr Demo.run) eq_refl eq_refl eq_refl).
  - split; reflexivity.
  - simpl. intros [].
  - reflexivity.
  - reflexivity.
Defined.

(** *** [_ExperimentTracker]: [get_experiment_df], [log],
    [log_time_series_metrics], [get_artifact] *)

(** X22. [_ExperimentTracker.get_experiment_df] makes no check of its own:
    with no experiment named ([None] or the empty string) and none set, it
    ends in the [AttributeError] of [None.get_data_frame], not in the
    [ValueError] that the logging methods raise, and calls nothing. *)
Theorem tracker_get_experiment_df_without_experiment
    {W : Type} {FR : Further.FurtherRemote W}
    (s : Further.FSession ExperimentTracker.fields W)
    (experiment : option string) :
  opt_truthy experiment = false ->
  ExperimentTracker._experiment (self (Further.session s)) = None ->
  Further.get_experiment_df experiment s
  = (inl (Further.Exception
            (AttributeError
               "'NoneType' object has no attribute 'get_data_frame'")), s).
Proof.
  destruct s as [[[oe orun] w cs ws] fs]; simpl; intros Ht ->.
  unfold Further.get_experiment_df. rewrite Ht. reflexivity.
Qed.

Lemma tracker_get_experiment_df_without_experiment_witness :
  Further.get_experiment_df
    (FR := Further.answering false) (Some "")
    (Further.fsession ExperimentTracker.init Demo.store)
  = (inl (Further.Exception
            (AttributeError
               "'NoneType' object has no attribute 'get_data_frame'")),
     Further.fsession ExperimentTracker.init Demo.store).
Proof.
  apply (@tracker_get_experiment_df_without_experiment
           Store.t (Further.answering false)
           (Further.fsession ExperimentTracker.init Demo.store) (Some ""));
    reflexivity.
Defined.

(** X23. With an experiment named, [get_experiment_df] does not look at
    the tracker: whatever is set, and with no run, the experiment is
    constructed from the name and the outcome is that of its
    [get_data_frame]; the two fields stay as they were. *)
Theorem tracker_get_experiment_df_by_name
    {W : Type} {FR : Further.FurtherRemote W}
    (s : Further.FSession ExperimentTracker.fields W)
    (experiment_name : string) (e : Resource) (w1 w2 : W)
    (df : Exn + DataFrame) :
  experiment_name <> "" ->
  Further.perform_further (Further.Experiment_init experiment_name)
    (world (Further.session s)) = (inr e, w1) ->
  Further.perform_further (Further.Experiment_get_data_frame e) w1 = (df, w2) ->
  Further.get_experiment_df (Some experiment_name) s
  = (Further.raised df,
     Further.after s w2 []
       [Further.Experiment_init experiment_name;
        Further.Experiment_get_data_frame e]).
Proof.
  intros Hn Hi Hd.
  unfold Further.get_experiment_df.
  replace (opt_truthy (Some experiment_name)) with true
    by (destruct experiment_name; [contradiction | reflexivity]).
  cbn [negb].
  unfold Further.fbind at 1. unfold Further.fbind at 1.
  rewrite (@fcall_performed _ _ _ _ s _ w1 Hi).
  cbn [Further.raised Further.fret Further.fgetattr].
  unfold Further.fbind, Further.fret.
  rewrite (@fcall_performed _ _ _ _ (Further.after s w1 _ _) _ w2 Hd).
  rewrite after_after. reflexivity.
Qed.

(** A tracker on which nothing is set can still be asked for the table of
    an experiment by name. *)
Lemma tracker_get_experiment_df_by_name_witness :
  let out := Further.get_experiment_df
               (FR := Further.answering false) (Some "exp-1")
               (Further.fsession ExperimentTracker.init Demo.store) in
  fst out = inr []
  /\ self (Further.session (snd out)) = ExperimentTracker.init.
Proof.
  cbv zeta.
  rewrite (@tracker_get_experiment_df_by_name
             Store.t (Further.answering false)
             (Further.fsession ExperimentTracker.init Demo.store)
             "exp-1"
             (Store.new_resource "contexts" "exp-1" (Some "exp-1") None
                "system.Experiment" "0.0.1" [] None)
             Demo.store Demo.store (inr [])).
  - split; reflexivity.
  - discriminate.
  - reflexivity.
  - reflexivity.
Defined.

(** X24. [log], [log_time_series_metrics] and [get_artifact] need a run:
    without one each raises the [ValueError] of
    [_validate_experiment_and_run] with its own name in the message (the
    experiment is checked first), before any collaborator is called. *)
Theorem run_scoped_methods_without_run
    {W : Type} {FR : Further.FurtherRemote W}
    (s : Further.FSession ExperimentTracker.fields W)
    (pipeline_job : option Further.PipelineJob)
    (metrics : dict PyValue) (step : option Z)
    (wall_time : option Further.Timestamp)
    (uri artifact_name : option string) (assign_as_input : bool) :
  ExperimentTracker._experiment_run (self (Further.session s)) = None ->
  let not_set (A : Type) (method_name : string) : Further.Raised + A :=
    inl (Further.Exception
           (ValueError
              (match ExperimentTracker._experiment (self (Further.session s)) with
               | None => no_experiment_set_msg method_name
               | Some _ => no_run_set_msg method_name
               end))) in
  Further.log pipeline_job s = (not_set unit "log", s)
  /\ Further.log_time_series_metrics metrics step wall_time s
     = (not_set unit "log_time_series_metrics", s)
  /\ Further.get_artifact uri artifact_name assign_as_input s
     = (not_set Resource "get_artifact", s).
Proof.
  intros Hr not_set; subst not_set.
  destruct s as [[[oe orun] w cs ws] fs]; simpl in *; subst orun.
  destruct oe; repeat split; reflexivity.
Qed.

(** An experiment is set and the run has ended. *)
Lemma run_scoped_methods_without_run_witness :
  let s := Further.fsession
             {| ExperimentTracker._experiment := Some Demo.experiment;
                ExperimentTracker._experiment_run := None |} Demo.store in
  Further.log (FR := Further.answering false) None s
  = (inl (Further.Exception
            (ValueError
               "No run set. Make sure to call aiplatform.start_run('my-run') before trying to log. ")),
     s)
  /\ Further.log_time_series_metrics (FR := Further.answering false)
       [("loss", PyInt 1)] (Some 10%Z) None s
     = (inl (Further.Exception
               (ValueError
                  "No run set. Make sure to call aiplatform.start_run('my-run') before trying to log_time_series_metrics. ")),
        s)
  /\ Further.get_artifact (FR := Further.answering false)
       (Some "gs://bucket/model") None false s
     = (inl (Further.Exception
               (ValueError
                  "No run set. Make sure to call aiplatform.start_run('my-run') before trying to get_artifact. ")),
        s).
Proof.
  cbv zeta.
  exact (@run_scoped_methods_without_run
           Store.t (Further.answering false)
           (Further.fsession
              {| ExperimentTracker._experiment := Some Demo.experiment;
                 ExperimentTracker._experiment_run := None |} Demo.store)
           None [("loss", PyInt 1)] (Some 10%Z) None
           (Some "gs://bucket/model") None false eq_refl).
Defined.

(** X25. [get_artifact] never returns, and never reaches a collaborator.
    Past the two checks it reads [artifact.Artifact], where [artifact] is
    the local name the same statement assigns to: whichever of [uri] and
    [artifact_name] is given, the call ends in [UnboundLocalError]. *)
Theorem get_artifact_never_returns
    {W : Type} {FR : Further.FurtherRemote W}
    (s : Further.FSession ExperimentTracker.fields W)
    (uri artifact_name : option string) (assign_as_input : bool) :
  Further.get_artifact uri artifact_name assign_as_input s
  = (inl (match ExperimentTracker._experiment (self (Further.session s)),
                ExperimentTracker._experiment_run (self (Further.session s))
          with
          | None, _ =>
              Further.Exception
                (ValueError (no_experiment_set_msg "get_artifact"))
          | Some _, None =>
              Further.Exception (ValueError (no_run_set_msg "get_artifact"))
          | Some _, Some _ =>
              if Bool.eqb (opt_truthy uri) (opt_truthy artifact_name)
              then Further.Exception
                     (ValueError
                        "To get an artifact, provide only one of `uri` or `artifact_name`")
              else Further.UnboundLocalError "artifact"
          end), s).
Proof.
  destruct s as [[[oe orun] w cs ws] fs].
  unfold Further.get_artifact, Further.fbind, Further.earlier,
    ExperimentTracker._validate_experiment_and_run, bind, field, gets,
    raise_if; simpl.
  destruct oe as [e|]; [|reflexivity].
  destruct orun as [r|]; [|reflexivity].
  simpl.
  destruct (opt_truthy uri), (opt_truthy artifact_name); reflexivity.
Qed.

(** *** [_ExperimentTracker.start_execution] *)

(** The check of [project] (and of [location]) passes when the argument is
    not given or agrees with the run. *)
Lemma mismatch_false (given : option string) (of_run : string) :
  opt_truthy given = false \/ given = Some of_run ->
  opt_truthy given
  && negb (match given with Some p => p | None => "" end =? of_run) = false.
Proof.
  intros [H | ->].
  - rewrite H. reflexivity.
  - rewrite String.eqb_refl. apply andb_false_r.
Qed.

(** X26. The two argument errors of [start_execution], on a tracker with
    no run: resuming without [resource_id], and starting without
    [schema_title], raise a [ValueError] before any execution is looked up
    or created. *)
Theorem start_execution_argument_errors
    {W : Type} {FR : Further.FurtherRemote W} {A : Further.RunAttributes}
    (s : Further.FSession ExperimentTracker.fields W)
    (schema_title display_name resource_id : option string)
    (metadata : option (dict PyValue))
    (schema_version description : option string) (resume : bool)
    (project location : option string)
    (credentials : option Further.Credentials) :
  ExperimentTracker._experiment_run (self (Further.session s)) = None ->
  opt_truthy (if resume then resource_id else schema_title) = false ->
  Further.start_execution schema_title display_name resource_id metadata
    schema_version description resume project location credentials s
  = (inl (Further.Exception
            (ValueError
               (if resume then "resource_id is required when resume=True"
                else "schema_title must be provided when starting a new Execution"))),
     s).
Proof.
  destruct s as [[[oe orun] w cs ws] fs]; simpl; intros -> Ht.
  unfold Further.start_execution, Further.fbind, Further.ffield; simpl.
  destruct resume; rewrite Ht; reflexivity.
Qed.

(** Resuming with an empty [resource_id]. *)
Lemma start_execution_argument_errors_witness :
  Further.start_execution (FR := Further.answering false)
    (A := Further.demo_attributes)
    (Some "system.ContainerExecution") None (Some "") None None None true
    None None None (Further.fsession ExperimentTracker.init Demo.store)
  = (inl (Further.Exception
            (ValueError "resource_id is required when resume=True")),
     Further.fsession ExperimentTracker.init Demo.store).
Proof.
  apply (@start_execution_argument_errors
           Store.t (Further.answering false) Further.demo_attributes
           (Further.fsession ExperimentTracker.init Demo.store)
           (Some "system.ContainerExecution") None (Some "") None None None
           true None None None); reflexivity.
Defined.

(** X27. [start_execution] needs neither an experiment nor a run.  With no
    run set and a schema title given, the execution is created with the
    arguments as they came and returned as created: nothing is associated,
    the two [assign_*_artifacts] methods are its own, and the tracker's
    fields are not touched. *)
Theorem start_execution_without_run
    {W : Type} {FR : Further.FurtherRemote W} {A : Further.RunAttributes}
    (s : Further.FSession ExperimentTracker.fields W)
    (schema_title : string) (display_name resource_id : option string)
    (metadata : option (dict PyValue))
    (schema_version description project location : option string)
    (credentials : option Further.Credentials)
    (created : Resource) (w1 : W) :
  ExperimentTracker._experiment_run (self (Further.session s)) = None ->
  schema_title <> "" ->
  Further.perform_further
    (Further.Execution_create display_name schema_title schema_version
       metadata description resource_id project location credentials)
    (world (Further.session s)) = (inr created, w1) ->
  Further.start_execution (Some schema_title) display_name resource_id
    metadata schema_version description false project location credentials s
  = (inr {| Further.execution := created;
            Further.assign_input_artifacts :=
              Further.method_of created "assign_input_artifacts";
            Further.assign_output_artifacts :=
              Further.method_of created "assign_output_artifacts" |},
     Further.after s w1 []
       [Further.Execution_create display_name schema_title schema_version
          metadata description resource_id project location credentials]).
Proof.
  intros Hr Hn Hc.
  unfold Further.start_execution.
  unfold Further.fbind at 1, Further.ffield at 1. rewrite Hr.
  unfold Further.fbind at 1, Further.fret at 1.
  replace (opt_truthy (Some schema_title)) with true
    by (destruct schema_title; [contradiction | reflexivity]).
  cbn [negb Further.fraise_if].
  unfold Further.fbind at 1. unfold Further.fbind at 1, Further.fret at 1.
  rewrite (@fcall_performed _ _ _ _ s _ w1 Hc). cbn [Further.raised].
  unfold Further.fbind, Further.ffield.
  cbn [Further.after Further.session self]. rewrite Hr.
  reflexivity.
Qed.

(** A tracker on which nothing is set starts an execution. *)
Lemma start_execution_without_run_witness :
  let out := Further.start_execution (FR := Further.answering false)
               (A := Further.demo_attributes)
               (Some "system.ContainerExecution") (Some "trainer")
               (Some "my-exc") None None None false None None None
               (Further.fsession ExperimentTracker.init Demo.store) in
  option_map name
    (match fst out with
     | inr started => Some (Further.execution started)
     | inl _ => None
     end) = Some "my-exc"
  /\ self (Further.session (snd out)) = ExperimentTracker.init
  /\ length (Further.issued (snd out)) = 1.
Proof.
  cbv zeta.
  rewrite (@start_execution_without_run
             Store.t (Further.answering false) Further.demo_attributes
             (Further.fsession ExperimentTracker.init Demo.store)
             "system.ContainerExecution" (Some "trainer") (Some "my-exc")
             None None None None None None
             (Store.new_resource "executions" "my-exc" (Some "trainer") None
                "system.ContainerExecution" "0.0.1" [] (Some RUNNING))
             Demo.store).
  - repeat split; reflexivity.
  - reflexivity.
  - discriminate.
  - reflexivity.
Defined.

Ltac projections :=
  cbn [Further.raised negb andb Further.fraise_if Further.fret Further.fraise
       Further.session world self calls warnings Further.issued
       ExperimentTracker._experiment_run Further.assign_input_artifacts
       Further.assign_output_artifacts].

(** X28. Under a legacy run the project and the location are not compared,
    and the execution is created all the same; it is then not associated
    with the run and its methods are not wrapped.  The warning is logged
    with its second sentence passed as an argument after the message. *)
Theorem start_execution_legacy_run
    {W : Type} {FR : Further.FurtherRemote W} {A : Further.RunAttributes}
    (s : Further.FSession ExperimentTracker.fields W) (run : Resource)
    (schema_title : string) (display_name resource_id : option string)
    (metadata : option (dict PyValue))
    (schema_version description project location : option string)
    (credentials : option Further.Credentials)
    (created : Resource) (w1 w2 w3 w4 : W) :
  ExperimentTracker._experiment_run (self (Further.session s)) = Some run ->
  schema_title <> "" ->
  Further.perform_further (Further.ExperimentRun__is_legacy_experiment_run run)
    (world (Further.session s)) = (inr true, w1) ->
  Further.perform_further
    (Further.Execution_create display_name schema_title schema_version
       metadata description resource_id project location credentials) w1
  = (inr created, w2) ->
  Further.perform_further (Further.ExperimentRun__is_legacy_experiment_run run)
    w2 = (inr true, w3) ->
  Further.perform_further
    (Further._LOGGER_warn_args
       (Further._run_name_of run
        ++ " is an Experiment run created in Vertex Experiment Preview")
       [" and does not support tracking Executions. Please create a new Experiment run to track executions against an Experiment run."])
    w3 = (inr tt, w4) ->
  Further.start_execution (Some schema_title) display_name resource_id
    metadata schema_version description false project location credentials s
  = (inr {| Further.execution := created;
            Further.assign_input_artifacts :=
              Further.method_of created "assign_input_artifacts";
            Further.assign_output_artifacts :=
              Further.method_of created "assign_output_artifacts" |},
     Further.after s w4 []
       [Further.ExperimentRun__is_legacy_experiment_run run;
        Further.Execution_create display_name schema_title schema_version
          metadata description resource_id project location credentials;
        Further.ExperimentRun__is_legacy_experiment_run run;
        Further._LOGGER_warn_args
          (Further._run_name_of run
           ++ " is an Experiment run created in Vertex Experiment Preview")
          [" and does not support tracking Executions. Please create a new Experiment run to track executions against an Experiment run."]]).
Proof.
  destruct s as [[[oe orun] w cs ws] fs]; simpl.
  intros -> Hn H1 H2 H3 H4.
  assert (Ht : opt_truthy (Some schema_title) = true)
    by (destruct schema_title; [contradiction | reflexivity]).
  unfold Further.start_execution, Further.fbind, Further.ffield, Further.fcall,
    Further.fret, Further.fraise_if, Further.after.
  projections.
  rewrite H1. projections.
  rewrite Ht. projections.
  rewrite H2. projections.
  rewrite H3. projections.
  change (" and does not support tracking Executions."
          ++ " Please create a new Experiment run to track executions against an Experiment run.")
    with " and does not support tracking Executions. Please create a new Experiment run to track executions against an Experiment run.".
  rewrite H4. projections.
  rewrite app_nil_r, <- !app_assoc. reflexivity.
Qed.

(** The run of the example answers that it is a legacy run; the project
    given is not the run's. *)
Lemma start_execution_legacy_run_witness :
  let out := Further.start_execution (FR := Further.answering true)
               (A := Further.demo_attributes)
               (Some "system.ContainerExecution") None (Some "my-exc")
               None None None false (Some "another-project") None None
               (Further.fsession Demo.tracker Demo.store) in
  option_map Further.assign_input_artifacts
    (match fst out with
     | inr started => Some started
     | inl _ => None
     end)
  = Some (Further.method_of
            (Store.new_resource "executions" "my-exc" None None
               "system.ContainerExecution" "0.0.1" [] (Some RUNNING))
            "assign_input_artifacts")
  /\ length (Further.issued (snd out)) = 4.
Proof.
  cbv zeta.
  rewrite (@start_execution_legacy_run
             Store.t (Further.answering true) Further.demo_attributes
             (Further.fsession Demo.tracker Demo.store) Demo.run
             "system.ContainerExecution" None (Some "my-exc")
             None None None (Some "another-project") None None
             (Store.new_resource "executions" "my-exc" None None
                "system.ContainerExecution" "0.0.1" [] (Some RUNNING))
             Demo.store Demo.store Demo.store Demo.store).
  - split; reflexivity.
  - reflexivity.
  - discriminate.
  - reflexivity.
  - reflexivity.
  - reflexivity.
  - reflexivity.
Defined.

(** X29. A location that differs from the run's is refused before any
    execution is looked up or created, and the message reports, as the
    location provided, the [project] argument. *)
Theorem start_execution_location_mismatch
    {W : Type} {FR : Further.FurtherRemote W} {A : Further.RunAttributes}
    (s : Further.FSession ExperimentTracker.fields W) (run : Resource)
    (schema_title display_name resource_id : option string)
    (metadata : option (dict PyValue))
    (schema_version description : option string) (resume : bool)
    (project : option string) (location : string)
    (credentials : option Further.Credentials) (w1 : W) :
  ExperimentTracker._experiment_run (self (Further.session s)) = Some run ->
  Further.perform_further (Further.ExperimentRun__is_legacy_experiment_run run)
    (world (Further.session s)) = (inr false, w1) ->
  opt_truthy project = false \/ project = Some (Further.project_of run) ->
  location <> "" ->
  location <> Further.location_of run ->
  Further.start_execution schema_title display_name resource_id metadata
    schema_version description resume project (Some location) credentials s
  = (inl (Further.Exception
            (ValueError
               ("Currently set Experiment run location "
                ++ Further.location_of run
                ++ " mustmatch provided location "
                ++ Further.opt_str project))),
     Further.after s w1 []
       [Further.ExperimentRun__is_legacy_experiment_run run]).
Proof.
  destruct s as [[[oe orun] w cs ws] fs]; simpl.
  intros -> H1 Hp Hn Hl.
  assert (Ht : opt_truthy (Some location) = true)
    by (destruct location; [contradiction | reflexivity]).
  apply String.eqb_neq in Hl.
  unfold Further.start_execution, Further.fbind, Further.ffield, Further.fcall,
    Further.fret, Further.check_project_and_location, Further.after.
  projections.
  rewrite H1. projections.
  unfold Further.fbind.
  rewrite (@mismatch_false _ _ Hp), Ht, Hl.
  projections.
  rewrite app_nil_r.
  reflexivity.
Qed.

(** The project agrees with the run's, the location does not. *)
Lemma start_execution_location_mismatch_witness :
  let out := Further.start_execution (FR := Further.answering false)
               (A := Further.demo_attributes)
               (Some "system.ContainerExecution") None None None None None
               false (Some "my-project") (Some "europe-west4") None
               (Further.fsession Demo.tracker Demo.store) in
  fst out
  = inl (Further.Exception
           (ValueError
              "Currently set Experiment run location us-central1 mustmatch provided location my-project"))
  /\ Further.issued (snd out)
     = [Further.ExperimentRun__is_legacy_experiment_run Demo.run].
Proof.
  cbv zeta.
  rewrite (@start_execution_location_mismatch
             Store.t (Further.answering false) Further.demo_attributes
             (Further.fsession Demo.tracker Demo.store) Demo.run
             (Some "system.ContainerExecution") None None None None None
             false (Some "my-project") "europe-west4" None Demo.store).
  - split; reflexivity.
  - reflexivity.
  - reflexivity.
  - right; reflexivity.
  - discriminate.
  - discriminate.
Defined.

(** X30. Under a run that is not a legacy run, and with the project and
    the location not given or those of the run, the execution created is
    first associated with the run, and then each of its two
    [assign_*_artifacts] methods is replaced by what
    [_association_wrapper] makes of it, inputs before outputs. *)
Theorem start_execution_associates
    {W : Type} {FR : Further.FurtherRemote W} {A : Further.RunAttributes}
    (s : Further.FSession ExperimentTracker.fields W) (run : Resource)
    (schema_title : string) (display_name resource_id : option string)
    (metadata : option (dict PyValue))
    (schema_version description project location : option string)
    (credentials : option Further.Credentials)
    (created : Resource) (inputs outputs : Further.BoundMethod)
    (w1 w2 w3 w4 w5 w6 : W) :
  ExperimentTracker._experiment_run (self (Further.session s)) = Some run ->
  schema_title <> "" ->
  opt_truthy project = false \/ project = Some (Further.project_of run) ->
  opt_truthy location = false \/ location = Some (Further.location_of run) ->
  Further.perform_further (Further.ExperimentRun__is_legacy_experiment_run run)
    (world (Further.session s)) = (inr false, w1) ->
  Further.perform_further
    (Further.Execution_create display_name schema_title schema_version
       metadata description resource_id project location credentials) w1
  = (inr created, w2) ->
  Further.perform_further (Further.ExperimentRun__is_legacy_experiment_run run)
    w2 = (inr false, w3) ->
  Further.perform_further
    (Further.ExperimentRun_associate_execution run created) w3 = (inr tt, w4) ->
  Further.perform_further
    (Further.ExperimentRun__association_wrapper run
       (Further.method_of created "assign_input_artifacts")) w4
  = (inr inputs, w5) ->
  Further.perform_further
    (Further.ExperimentRun__association_wrapper run
       (Further.method_of created "assign_output_artifacts")) w5
  = (inr outputs, w6) ->
  Further.start_execution (Some schema_title) display_name resource_id
    metadata schema_version description false project location credentials s
  = (inr {| Further.execution := created;
            Further.assign_input_artifacts := inputs;
            Further.assign_output_artifacts := outputs |},
     Further.after s w6 []
       [Further.ExperimentRun__is_legacy_experiment_run run;
        Further.Execution_create display_name schema_title schema_version
          metadata description resource_id project location credentials;
        Further.ExperimentRun__is_legacy_experiment_run run;
        Further.ExperimentRun_associate_execution run created;
        Further.ExperimentRun__association_wrapper run
          (Further.method_of created "assign_input_artifacts");
        Further.ExperimentRun__association_wrapper run
          (Further.method_of created "assign_output_artifacts")]).
Proof.
  destruct s as [[[oe orun] w cs ws] fs]; simpl.
  intros -> Hn Hp Hl H1 H2 H3 H4 H5 H6.
  assert (Ht : opt_truthy (Some schema_title) = true)
    by (destruct schema_title; [contradiction | reflexivity]).
  unfold Further.start_execution, Further.fbind, Further.ffield, Further.fcall,
    Further.fret, Further.check_project_and_location, Further.after.
  projections.
  rewrite H1. projections.
  unfold Further.fbind.
  rewrite (@mismatch_false _ _ Hp), (@mismatch_false _ _ Hl), Ht.
  projections.
  rewrite H2. projections.
  rewrite H3. projections.
  rewrite H4. projections.
  rewrite H5. projections.
  rewrite H6. projections.
  rewrite app_nil_r, <- !app_assoc. reflexivity.
Qed.

(** The run of the example, in its own project. *)
Lemma start_execution_associates_witness :
  let created := Store.new_resource "executions" "my-exc" (Some "trainer") None
                   "system.ContainerExecution" "0.0.1" [] (Some RUNNING) in
  fst (Further.start_execution (FR := Further.answering false)
         (A := Further.demo_attributes)
         (Some "system.ContainerExecution") (Some "trainer") (Some "my-exc")
         None None None false (Some "my-project") None None
         (Further.fsession Demo.tracker Demo.store))
  = inr {| Further.execution := created;
           Further.assign_input_artifacts :=
             Further.wrapper "associated"
               (Further.method_of created "assign_input_artifacts");
           Further.assign_output_artifacts :=
             Further.wrapper "associated"
               (Further.method_of created "assign_output_artifacts") |}.
Proof.
  cbv zeta.
  rewrite (@start_execution_associates
             Store.t (Further.answering false) Further.demo_attributes
             (Further.fsession Demo.tracker Demo.store) Demo.run
             "system.ContainerExecution" (Some "trainer") (Some "my-exc")
             None None None (Some "my-project") None None
             (Store.new_resource "executions" "my-exc" (Some "trainer") None
                "system.ContainerExecution" "0.0.1" [] (Some RUNNING))
             (Further.wrapper "associated"
                (Further.method_of
                   (Store.new_resource "executions" "my-exc" (Some "trainer")
                      None "system.ContainerExecution" "0.0.1" []
                      (Some RUNNING))
                   "assign_input_artifacts"))
             (Further.wrapper "associated"
                (Further.method_of
                   (Store.new_resource "executions" "my-exc" (Some "trainer")
                      None "system.ContainerExecution" "0.0.1" []
                      (Some RUNNING))
                   "assign_output_artifacts"))
             Demo.store Demo.store Demo.store Demo.store Demo.store Demo.store).
  - reflexivity.
  - reflexivity.
  - discriminate.
  - right; reflexivity.
  - left; reflexivity.
  - reflexivity.
  - reflexivity.
  - reflexivity.
  - reflexivity.
  - reflexivity.
  - reflexivity.
Defined.
